(** * es642-rh-correction: the two fetch-and-normalise pipelines

    A shallow embedding of [src/utahaq_api_get.py] (the monthly, CSV based
    archive) and [src/synoptic_api_get.py] (the JSON timeseries API), and the
    properties of them that the specification states.

    What is Python or pandas rather than code of the repository is written
    out as small executable definitions next to the place that calls it
    ([date_range], [pd_concat], the [DataFrame] constructor), following the
    library's documented behaviour; parsers of text ([pd.to_datetime],
    [float], [str]), the case mappings of [str], the conversion of a Python
    list to the values of a column, the two access tokens and the two remote
    servers are parameters of the development.  The requests that a call issues are
    kept in a log, so that statements can speak about them. *)

From Stdlib Require Import ZArith List String Ascii Bool Lia QArith.
From Stdlib Require Import DecimalString Sorted.
Import ListNotations.
Local Open Scope string_scope.
Local Open Scope list_scope.
Local Open Scope Z_scope.

Set Implicit Arguments.
Set Warnings "-register-all".

(* ------------------------------------------------------------------ *)
(** * Python exceptions and results *)

Inductive exn : Type :=
| OSError (msg : string)
| ValueError (msg : string)
| TypeError (msg : string)
| KeyError (key : string)
| AttributeError (name : string)
| EmptyDataError
| TransportError (msg : string).

Inductive result (A : Type) : Type :=
| Ok (a : A)
| Raise (e : exn).
Arguments Ok {A} a.
Arguments Raise {A} e.

Definition is_OSError (e : exn) : bool :=
  match e with OSError _ => true | _ => false end.

(** An exception that is not of the I/O category. *)
Definition not_io (e : exn) : Prop := is_OSError e = false.

(** Sequencing of computations that may raise. *)
Definition rbind {A B} (r : result A) (k : A -> result B) : result B :=
  match r with
  | Ok a => k a
  | Raise e => Raise e
  end.

Fixpoint rmap {A B} (f : A -> result B) (l : list A) : result (list B) :=
  match l with
  | [] => Ok []
  | a :: l' => rbind (f a) (fun b => rbind (rmap f l') (fun bs => Ok (b :: bs)))
  end.

(* ------------------------------------------------------------------ *)
(** * Timestamps

    A [pd.Timestamp] by its calendar fields.  Timestamps that are compared
    with each other are of one kind, all without a time zone or all in UTC, so
    that their chronological order is the lexicographic order of the fields;
    the kind is kept apart, as a [zone]. *)

Record Timestamp : Type := mkTs {
  year : Z; month : Z; day : Z;
  hour : Z; minute : Z; second : Z; nanosecond : Z
}.

Definition ts_fields (t : Timestamp) : list Z :=
  [year t; month t; day t; hour t; minute t; second t; nanosecond t].

Fixpoint lex_compare (a b : list Z) : comparison :=
  match a, b with
  | [], [] => Eq
  | [], _ :: _ => Lt
  | _ :: _, [] => Gt
  | x :: a', y :: b' =>
      match x ?= y with
      | Eq => lex_compare a' b'
      | c => c
      end
  end.

Definition ts_compare (a b : Timestamp) : comparison :=
  lex_compare (ts_fields a) (ts_fields b).

(** [a <= b], [a < b] and [a == b] on timestamps. *)
Definition ts_leb (a b : Timestamp) : bool :=
  match ts_compare a b with Gt => false | _ => true end.
Definition ts_ltb (a b : Timestamp) : bool :=
  match ts_compare a b with Lt => true | _ => false end.
Definition ts_eqb (a b : Timestamp) : bool :=
  match ts_compare a b with Eq => true | _ => false end.

Definition ts_le (a b : Timestamp) : Prop := ts_leb a b = true.

Definition is_leap (y : Z) : bool :=
  ((y mod 4 =? 0) && negb (y mod 100 =? 0)) || (y mod 400 =? 0).

Definition days_in_month (y m : Z) : Z :=
  if m =? 2 then (if is_leap y then 29 else 28)
  else if (m =? 4) || (m =? 6) || (m =? 9) || (m =? 11) then 30
  else 31.

(** The values a [pd.Timestamp] can take. *)
Definition valid_ts (t : Timestamp) : Prop :=
  1 <= month t <= 12 /\ 1 <= day t <= days_in_month (year t) (month t) /\
  0 <= hour t < 24 /\ 0 <= minute t < 60 /\ 0 <= second t < 60 /\
  0 <= nanosecond t < 1000000000.

Definition valid_month (t : Timestamp) : Prop := 1 <= month t <= 12.

(** Calendar month as a number: months since year 0. *)
Definition month_index (t : Timestamp) : Z := 12 * year t + (month t - 1).

(** The [tzinfo] of a timestamp: none (tz-naive), or UTC.  Timestamps in
    another time zone are not modelled. *)
Inductive zone : Type :=
| Naive
| UTC.

(* ------------------------------------------------------------------ *)
(** * [pd.date_range(start, end, freq='MS')]

    pandas generates the range of a non-tick offset with [_generate_range]:
    a start that is not on the offset is rolled forward, otherwise an end
    that is not on the offset is rolled back; an end before the start gives
    the empty range; then the offset is applied from the start while the
    current date is at most the end.  For the month-begin offset a date is on
    the offset when its day is 1; the time of day is kept by every step
    ([normalize] is false). *)

Module MonthBegin.

Definition is_on_offset (t : Timestamp) : bool := day t =? 1.

(** [offset._apply(t)], that is [t + MonthBegin(1)]: the first day of the
    next month, at the same time of day. *)
Definition apply (t : Timestamp) : Timestamp :=
  if month t =? 12
  then mkTs (year t + 1) 1 1 (hour t) (minute t) (second t) (nanosecond t)
  else mkTs (year t) (month t + 1) 1 (hour t) (minute t) (second t) (nanosecond t).

Definition rollforward (t : Timestamp) : Timestamp :=
  if is_on_offset t then t else apply t.

(** [t - MonthBegin(1)] for a [t] that is not on the offset: the first day
    of the month of [t]. *)
Definition rollback (t : Timestamp) : Timestamp :=
  if is_on_offset t then t
  else mkTs (year t) (month t) 1 (hour t) (minute t) (second t) (nanosecond t).

End MonthBegin.

(** The [while cur <= end] loop of [_generate_range]; [fuel] bounds the
    number of iterations. *)
Fixpoint generate_loop (fuel : nat) (cur stop : Timestamp) : list Timestamp :=
  match fuel with
  | O => []
  | S fuel' =>
      if ts_leb cur stop then
        cur :: (if ts_eqb cur stop then []
                else generate_loop fuel' (MonthBegin.apply cur) stop)
      else []
  end.

(** The number of month steps that lead from [cur] past [stop], which bounds
    the iterations of the loop. *)
Definition month_span (cur stop : Timestamp) : nat :=
  Z.to_nat (month_index stop - month_index cur + 1).

Definition date_range (start stop : Timestamp) : list Timestamp :=
  let start' :=
    if negb (MonthBegin.is_on_offset start) then MonthBegin.rollforward start
    else start in
  let stop' :=
    if negb (MonthBegin.is_on_offset start) then stop
    else if negb (MonthBegin.is_on_offset stop) then MonthBegin.rollback stop
    else stop in
  if ts_ltb stop' start' then []
  else generate_loop (month_span start' stop') start' stop'.

(** The first [n] month starts from [t] on: [t], a month after [t], two
    months after [t], ... *)
Definition months_from (t : Timestamp) (n : nat) : list Timestamp :=
  map (fun k => Nat.iter k MonthBegin.apply t) (seq 0 n).

(** [t] is the midnight that begins a month. *)
Definition month_start (t : Timestamp) : Prop :=
  valid_month t /\ day t = 1 /\
  hour t = 0 /\ minute t = 0 /\ second t = 0 /\ nanosecond t = 0.

(* ------------------------------------------------------------------ *)
(** * Python values

    The values that travel through the two functions: arguments, parsed
    JSON, and the cells of a table.  [PInst cls v] is an instance of a user
    class [cls] that derives from the class of [v] (a subclass of [list], of
    [pd.Timestamp], ...): it behaves as [v] but its [type] is [cls].  The
    keys of a dict are distinct and kept in insertion order. *)

Inductive pyval : Type :=
| PNone
| PNaN
| PBool (b : bool)
| PInt (z : Z)
| PFloat (q : Q)
| PStr (s : string)
| PTime (t : Timestamp)
| PNaT
| PList (l : list pyval)
| PTuple (l : list pyval)
| PDict (kv : list (string * pyval))
| PInst (cls : string) (base : pyval).

(** [type(v)]. *)
Inductive pytype : Type :=
| TNoneType | TFloat | TBool | TInt | TStr | TTimestamp | TNaTType | TList
| TTuple | TDict | TUser (cls : string).

Definition py_type (v : pyval) : pytype :=
  match v with
  | PNone => TNoneType
  | PNaN => TFloat
  | PBool _ => TBool
  | PInt _ => TInt
  | PFloat _ => TFloat
  | PStr _ => TStr
  | PTime _ => TTimestamp
  | PNaT => TNaTType
  | PList _ => TList
  | PTuple _ => TTuple
  | PDict _ => TDict
  | PInst cls _ => TUser cls
  end.

(** [v == n] for an int literal [n]: numbers compare by value ([True] is 1,
    [False] is 0), an instance of a subclass as its base value, anything else
    is unequal. *)
Fixpoint py_eq_int (v : pyval) (n : Z) : bool :=
  match v with
  | PInt z => z =? n
  | PBool b => (if b then 1 else 0) =? n
  | PFloat q => Qeq_bool q (inject_Z n)
  | PInst _ b => py_eq_int b n
  | _ => false
  end.

(* ------------------------------------------------------------------ *)
(** * Strings *)

(** [str(n)] for an int. *)
Definition str_of_int (n : Z) : string := NilZero.string_of_int (Z.to_int n).

Fixpoint zeros (n : nat) : string :=
  match n with
  | O => EmptyString
  | S n' => String "0" (zeros n')
  end.

(** [s.zfill(width)]: zeros on the left up to [width]; after a leading sign
    when there is one. *)
Definition zfill (width : nat) (s : string) : string :=
  let pad := zeros (width - String.length s) in
  match s with
  | String c s' =>
      if (Ascii.eqb c "-" || Ascii.eqb c "+")%bool
      then String c (pad ++ s')%string
      else (pad ++ s)%string
  | EmptyString => pad
  end.

(** [sep.join(items)] on strings. *)
Fixpoint join (sep : string) (items : list string) : string :=
  match items with
  | [] => EmptyString
  | [s] => s
  | s :: rest => (s ++ sep ++ join sep rest)%string
  end.

(* ------------------------------------------------------------------ *)
(** * Tables

    A [pd.DataFrame]: the column labels and the rows, each row with its index
    label and one cell per column.  [I] is the type of the index labels. *)

Record DataFrame (I : Type) : Type := mkDF {
  columns : list string;
  rows : list (I * list pyval)
}.
Arguments mkDF {I} columns rows.

Definition index {I} (df : DataFrame I) : list I := map fst (rows df).

(** Positions of the columns labelled [name]. *)
Fixpoint positions_from (i : nat) (name : string) (cols : list string) : list nat :=
  match cols with
  | [] => []
  | c :: cols' =>
      if String.eqb c name then i :: positions_from (S i) name cols'
      else positions_from (S i) name cols'
  end.
Definition positions (name : string) (cols : list string) : list nat :=
  positions_from 0 name cols.

Definition cell (cells : list pyval) (i : nat) : pyval := nth i cells PNaN.

(** [df.name]: the column as a sequence, one value per row. *)
Definition getattr_column {I} (df : DataFrame I) (name : string) : result (list pyval) :=
  match positions name (columns df) with
  | [] => Raise (AttributeError name)
  | i :: _ => Ok (map (fun r => cell (snd r) i) (rows df))
  end.

(** The cell of a row under the column labelled [name]. *)
Definition column_cell (cols : list string) (name : string) (cells : list pyval) : pyval :=
  match positions name cols with
  | i :: _ => cell cells i
  | [] => PNaN
  end.

(** [df[mask]] for a boolean mask aligned with the rows. *)
Definition boolean_index {I} (df : DataFrame I) (mask : list bool) : DataFrame I :=
  mkDF (columns df)
       (map fst (filter (fun rm => snd rm) (combine (rows df) mask))).

(** [df.rename(columns=mapping)]. *)
Definition rename_columns {I} (mapping : list (string * string)) (df : DataFrame I)
  : DataFrame I :=
  let ren c :=
    match find (fun kv => String.eqb (fst kv) c) mapping with
    | Some kv => snd kv
    | None => c
    end in
  mkDF (map ren (columns df)) (rows df).

(** [df[[n1, ..., nk]]]: the columns labelled [n1], ..., [nk] in that order
    (every column that carries the label); a label that no column carries is
    a [KeyError]. *)
Definition select_columns {I} (names : list string) (df : DataFrame I)
  : result (DataFrame I) :=
  match find (fun n => match positions n (columns df) with [] => true | _ => false end)
             names with
  | Some n => Raise (KeyError n)
  | None =>
      let pos := flat_map (fun n => positions n (columns df)) names in
      Ok (mkDF (flat_map (fun n => map (fun _ => n) (positions n (columns df))) names)
               (map (fun r => (fst r, map (cell (snd r)) pos)) (rows df)))
  end.

Fixpoint list_eqb (a b : list string) : bool :=
  match a, b with
  | [], [] => true
  | x :: a', y :: b' => String.eqb x y && list_eqb a' b'
  | _, _ => false
  end.

Definition mem (c : string) (l : list string) : bool :=
  existsb (String.eqb c) l.

(** Union of column labels in order of first appearance. *)
Fixpoint add_new (acc cols : list string) : list string :=
  match cols with
  | [] => acc
  | c :: cols' => if mem c acc then add_new acc cols' else add_new (acc ++ [c]) cols'
  end.

Definition union_labels (ls : list (list string)) : list string :=
  match ls with
  | [] => []
  | l :: ls' =>
      if forallb (fun l' => list_eqb l' l) ls'
      then l
      else fold_left add_new ls []
  end.

Definition union_columns {I} (dfs : list (DataFrame I)) : list string :=
  union_labels (map (@columns I) dfs).

(** A row of [df] laid out on the column labels [cols]; a label the frame
    lacks gives a missing value. *)
Definition reindex_row (cols from : list string) (cells : list pyval) : list pyval :=
  if list_eqb from cols then cells
  else map (fun c => match positions c from with
                     | i :: _ => cell cells i
                     | [] => PNaN
                     end) cols.

(** [pd.concat(objs)]: [None] entries are dropped; an empty list of objects
    is an error, and so is a list of nothing but [None]; the rows follow
    each other in the order of the objects, and the columns are the union of
    the columns of the objects in the order of their first appearance
    ([sort=False]). *)
Definition drop_none {A} (objs : list (option A)) : list A :=
  flat_map (fun o => match o with Some a => [a] | None => [] end) objs.

Definition pd_concat {I} (objs : list (option (DataFrame I))) : result (DataFrame I) :=
  match objs with
  | [] => Raise (ValueError "No objects to concatenate")
  | _ :: _ =>
      match drop_none objs with
      | [] => Raise (ValueError "All objects passed were None")
      | dfs =>
          let cols := union_columns dfs in
          Ok (mkDF cols
                (flat_map (fun d => map (fun r => (fst r, reindex_row cols (columns d) (snd r)))
                                        (rows d)) dfs))
      end
  end.

(** The values of the column labelled [name], one per row. *)
Definition column_values {I} (df : DataFrame I) (name : string) : list pyval :=
  map (fun r => column_cell (columns df) name (snd r)) (rows df).

(** The labels without the first one that is [name]. *)
Fixpoint remove_label (name : string) (cols : list string) : list string :=
  match cols with
  | [] => []
  | c :: cols' => if String.eqb c name then cols' else c :: remove_label name cols'
  end.

(** Index labels that stand for an instant; [NaT] and values that are no
    timestamp stand for none. *)
Class Label (I : Type) : Type := label_time : I -> option Timestamp.

#[export] Instance Label_option : Label (option Timestamp) := fun l => l.

#[export] Instance Label_pyval : Label pyval :=
  fun v => match v with PTime t => Some t | _ => None end.

Definition label_le {I} `{Label I} (a b : I) : Prop :=
  match label_time a, label_time b with
  | Some x, Some y => ts_le x y
  | _, _ => False
  end.

(** The index of a table is ordered ascending. *)
Definition ascending {I} `{Label I} (df : DataFrame I) : Prop :=
  Sorted label_le (index df).

(* ------------------------------------------------------------------ *)
(** * Text parsers

    How pandas reads a date and how Python reads a float are parameters:
    a parser gives the value of a text, or nothing when the text has none,
    which the caller turns into the [ValueError] of the library. *)

Definition to_datetime (parse_datetime : string -> option Timestamp) (s : string)
  : result Timestamp :=
  match parse_datetime s with
  | Some t => Ok t
  | None => Raise (ValueError "Unknown datetime string format")
  end.

Definition float_of_str (parse_float : string -> option Q) (s : string) : result pyval :=
  match parse_float s with
  | Some q => Ok (PFloat q)
  | None => Raise (ValueError "could not convert string to float")
  end.

(* ------------------------------------------------------------------ *)
(** * Outbound requests

    A computation that may raise and that issues requests: the requests
    issued so far are threaded through as a log, which is kept when the
    computation raises. *)

Definition M (Req A : Type) : Type := list Req -> result A * list Req.

Definition ret {Req A} (a : A) : M Req A := fun log => (Ok a, log).

Definition bind {Req A B} (m : M Req A) (k : A -> M Req B) : M Req B :=
  fun log =>
    match m log with
    | (Ok a, log') => k a log'
    | (Raise e, log') => (Raise e, log')
    end.

Definition lift {Req A} (r : result A) : M Req A := fun log => (r, log).

(** Send [q] and obtain what the remote side answers. *)
Definition request {Req A} (server : Req -> result A) (q : Req) : M Req A :=
  fun log => (server q, log ++ [q]).

(** [try: m except exception matched by handles: h]. *)
Definition try_except {Req A} (m : M Req A) (handles : exn -> bool) (h : M Req A)
  : M Req A :=
  fun log =>
    match m log with
    | (Raise e, log') => if handles e then h log' else (Raise e, log')
    | r => r
    end.

Declare Scope py_scope.
Delimit Scope py_scope with py.
Notation "x <- m ;; k" := (bind m (fun x => k))
  (at level 100, m at next level, right associativity) : py_scope.

(** [for x in l: out.append(f(x))]. *)
Fixpoint for_append {Req A B} (f : A -> M Req B) (l : list A) : M Req (list B) :=
  match l with
  | [] => ret []
  | a :: l' => (b <- f a ;; bs <- for_append f l' ;; ret (b :: bs))%py
  end.

(* ------------------------------------------------------------------ *)
(** * Provider B: [src/utahaq_api_get.py] *)

Section UtahAQ.

Local Open Scope py_scope.

(** [os.getenv('UTAHAQ_API_TOKEN')], read when the module is loaded. *)
Variable UTAHAQ_API_TOKEN : option string.

(** [s.upper()] and [s.lower()], the case mappings of [str]. *)
Variable upper : string -> string.
Variable lower : string -> string.

(** [pd.read_csv(uri, skiprows=True)]: the download of [uri] and its
    parse.  The table has the row numbers as index; a body that holds no
    columns to parse raises [EmptyDataError], and whatever else the download
    or the parse raises is raised here. *)
Variable read_csv : string -> result (DataFrame Z).

(** The date parser of [pd.to_datetime]. *)
Variable parse_datetime : string -> option Timestamp.

Definition UTAHAQ_API_BASE_URI : string :=
  "http://meso2.chpc.utah.edu/aq/cgi-bin/download_mobile_archive.cgi".

(** The f-string of a value that is [None] or a string. *)
Definition format_token (t : option string) : string :=
  match t with Some s => s | None => "None" end.

Definition batch_uri (stid : string) (yr mo : Z) (datatype : string) : string :=
  let yr := zfill 4 (str_of_int yr) in
  let mo := zfill 2 (str_of_int mo) in
  let stid := upper stid in
  let datatype := lower datatype in
  (UTAHAQ_API_BASE_URI
     ++ "?accesskey=" ++ format_token UTAHAQ_API_TOKEN
     ++ "&stid=" ++ stid
     ++ "&yr=" ++ yr
     ++ "&mo=" ++ mo
     ++ "&datatype=" ++ datatype)%string.

(** [a + b] on the cells of two text columns: text is appended, a missing
    value stays missing. *)
Definition add_cells (a b : pyval) : result pyval :=
  match a, b with
  | PStr x, PStr y => Ok (PStr (x ++ y))
  | PNaN, _ | _, PNaN => Ok PNaN
  | _, _ => Raise (TypeError "unsupported operand type(s) for +")
  end.


(** [pd.to_datetime(series, utc=True)] on one cell: a missing value gives
    [NaT], here [None]. *)
Definition to_datetime_cell (v : pyval) : result (option Timestamp) :=
  match v with
  | PStr s => rbind (to_datetime parse_datetime s) (fun t => Ok (Some t))
  | PNaN => Ok None
  | _ => Raise (TypeError "not convertible to datetime")
  end.

(** The index label that belongs to a date and a time of day:
    [to_datetime(date + ' ' + time)]. *)
Definition row_datetime (date time : pyval) : result (option Timestamp) :=
  rbind (add_cells date (PStr " ")) (fun d =>
  rbind (add_cells d time) to_datetime_cell).

Definition set_index {I J} (df : DataFrame I) (labels : list J) : DataFrame J :=
  mkDF (columns df) (map (fun rl => (snd rl, snd (fst rl))) (combine (rows df) labels)).

(** Lines 52-59: what [_utahaq_batch_get] does with a parsed body.  In
    line 53 Python evaluates [res.Date], then [res.Date + ' '] on the whole
    column, then [res.TimeUTC], then the sum of the two columns, and converts
    the column of texts last. *)
Definition normalize_batch (res : DataFrame Z) : result (DataFrame (option Timestamp)) :=
  rbind (getattr_column res "esampler_error_code") (fun codes =>
  let res := boolean_index res (map (fun c => py_eq_int c 0) codes) in
  rbind (getattr_column res "Date") (fun dates =>
  rbind (rmap (fun d => add_cells d (PStr " ")) dates) (fun dates =>
  rbind (getattr_column res "TimeUTC") (fun times =>
  rbind (rmap (fun dt => add_cells (fst dt) (snd dt)) (combine dates times)) (fun texts =>
  rbind (rmap to_datetime_cell texts) (fun labels =>
  let res := set_index res labels in
  let res := rename_columns [("esampler_pm25_ugm3", "pm25_ugm3");
                             ("esampler_rh_pcent", "rh_pct")] res in
  select_columns ["pm25_ugm3"; "rh_pct"] res)))))).

(** The quality flag of a line of the archive is zero. *)
Definition flag_is_zero (res : DataFrame Z) (r : Z * list pyval) : bool :=
  py_eq_int (column_cell (columns res) "esampler_error_code" (snd r)) 0.

(** The archive body without the lines whose quality flag is not zero. *)
Definition without_flagged (res : DataFrame Z) : DataFrame Z :=
  mkDF (columns res) (filter (flag_is_zero res) (rows res)).

(** The archive that serves every body without its flagged lines. *)
Definition without_flagged_lines (uri : string) : result (DataFrame Z) :=
  rbind (read_csv uri) (fun res => Ok (without_flagged res)).

(** The label of a line of the archive: its date and time of day. *)
Definition line_datetime (res : DataFrame Z) (r : Z * list pyval) : result (option Timestamp) :=
  row_datetime (column_cell (columns res) "Date" (snd r))
               (column_cell (columns res) "TimeUTC" (snd r)).

(** The renaming of the two measurement columns. *)
Definition short_name (c : string) : string :=
  if String.eqb "esampler_pm25_ugm3" c then "pm25_ugm3"
  else if String.eqb "esampler_rh_pcent" c then "rh_pct"
  else c.

(** The body of a month as the archive documents it: distinct column
    labels, among them the date, the time of day, the quality flag and the two
    measurements, and none that already carries a short name. *)
Definition archive_body (res : DataFrame Z) : Prop :=
  NoDup (columns res) /\
  In "Date" (columns res) /\ In "TimeUTC" (columns res) /\
  In "esampler_error_code" (columns res) /\
  In "esampler_pm25_ugm3" (columns res) /\ In "esampler_rh_pcent" (columns res) /\
  ~ In "pm25_ugm3" (columns res) /\ ~ In "rh_pct" (columns res).

(** The row that a line of the archive becomes: its label, PM2.5 and
    relative humidity. *)
Definition measured (res : DataFrame Z) (r : Z * list pyval)
                    (out : option Timestamp * list pyval) : Prop :=
  line_datetime res r = Ok (fst out) /\
  snd out = [column_cell (columns res) "esampler_pm25_ugm3" (snd r);
             column_cell (columns res) "esampler_rh_pcent" (snd r)].

Definition is_EmptyDataError (e : exn) : bool :=
  match e with EmptyDataError => true | _ => false end.

Definition _utahaq_batch_get (stid : string) (yr mo : Z) (datatype : string)
  : M string (option (DataFrame (option Timestamp))) :=
  let uri := batch_uri stid yr mo datatype in
  res <- try_except
           (r <- request read_csv uri ;; ret (Some r))
           is_EmptyDataError
           (ret None) ;;
  match res with
  | None => ret None
  | Some res => df <- lift (normalize_batch res) ;; ret (Some df)
  end.

(** What a call of [_utahaq_batch_get] returns when [uri] is its request. *)
Definition batch_value (uri : string) : result (option (DataFrame (option Timestamp))) :=
  match read_csv uri with
  | Ok res => rbind (normalize_batch res) (fun df => Ok (Some df))
  | Raise e => if is_EmptyDataError e then Ok None else Raise e
  end.

(** [(label >= start) & (label <= end)] for a label of the index and bounds
    in UTC; [NaT] compares false. *)
Definition in_bounds (start stop : Timestamp) (label : option Timestamp) : bool :=
  match label with
  | Some t => ts_leb start t && ts_leb t stop
  | None => false
  end.

(** [(df.index >= start) & (df.index <= end)], the mask of line 109.  The
    index was made with [utc=True], so it is tz-aware: the comparison with
    bounds that are tz-naive raises, whatever the index holds, also when it
    is empty; bounds in UTC are compared label by label. *)
Definition index_between (tz : zone) (start stop : Timestamp)
                         (labels : list (option Timestamp)) : result (list bool) :=
  match tz with
  | Naive => Raise (TypeError "Cannot compare tz-naive and tz-aware datetime-like objects")
  | UTC => Ok (map (in_bounds start stop) labels)
  end.

Definition query_dates (start stop : Timestamp) : list Timestamp :=
  let query_dates := date_range start stop in
  if (List.length query_dates =? 0)%nat then [start] else query_dates.

(** [start] and [end] are of one kind [tz]: both tz-naive, as in the
    docstring, or both in UTC. *)
Definition utahaq_api_get (stid : string) (tz : zone) (start stop : Timestamp)
                          (datatype : string)
  : M string (DataFrame (option Timestamp)) :=
  df_list <- for_append
               (fun date => _utahaq_batch_get stid (year date) (month date) datatype)
               (query_dates start stop) ;;
  df <- lift (pd_concat df_list) ;;
  mask <- lift (index_between tz start stop (index df)) ;;
  ret (boolean_index df mask).

End UtahAQ.

(* ------------------------------------------------------------------ *)
(** * Provider A: [src/synoptic_api_get.py] *)

(** The [params] dict of the request. *)
Record Params : Type := mkParams {
  p_token : option string;
  p_stid : pyval;
  p_start : pyval;
  p_end : pyval;
  p_vars : pyval
}.

(** A value of the dict a [pd.DataFrame] is built from: a Python list, a
    pandas index (which has its dtype already), a scalar that is repeated on
    every row, or a dict. *)
Inductive dict_value : Type :=
| Arr (l : list pyval)
| Idx (l : list pyval)
| Scalar (v : pyval)
| Mapping (kv : list (string * pyval)).

(** [d[key] = v] on a dict kept in insertion order. *)
Fixpoint dict_set {A} (d : list (string * A)) (key : string) (v : A) : list (string * A) :=
  match d with
  | [] => [(key, v)]
  | (k, x) :: d' =>
      if String.eqb k key then (k, v) :: d' else (k, x) :: dict_set d' key v
  end.

(** [{**d, **more}]. *)
Definition dict_update {A} (d more : list (string * A)) : list (string * A) :=
  fold_left (fun acc kv => dict_set acc (fst kv) (snd kv)) more d.

(** [d.pop(key, None)], the dict that is left. *)
Definition dict_pop {A} (d : list (string * A)) (key : string) : list (string * A) :=
  filter (fun kv => negb (String.eqb (fst kv) key)) d.

(** [v[key]] for a text [key]. *)
Fixpoint getitem (v : pyval) (key : string) : result pyval :=
  match v with
  | PDict kv =>
      match find (fun e => String.eqb (fst e) key) kv with
      | Some e => Ok (snd e)
      | None => Raise (KeyError key)
      end
  | PInst _ b => getitem b key
  | PStr _ => Raise (TypeError "string indices must be integers")
  | PList _ => Raise (TypeError "list indices must be integers or slices, not str")
  | PTuple _ => Raise (TypeError "tuple indices must be integers or slices, not str")
  | _ => Raise (TypeError "object is not subscriptable")
  end.

Fixpoint chars (s : string) : list pyval :=
  match s with
  | EmptyString => []
  | String c s' => PStr (String c EmptyString) :: chars s'
  end.

(** [for x in v]: the items that the loop visits. *)
Fixpoint iterate (v : pyval) : result (list pyval) :=
  match v with
  | PList l | PTuple l => Ok l
  | PDict kv => Ok (map (fun e => PStr (fst e)) kv)
  | PStr s => Ok (chars s)
  | PInst _ b => iterate b
  | _ => Raise (TypeError "object is not iterable")
  end.

(** The text of a [str] or of an instance of a subclass of [str]. *)
Fixpoint as_str (v : pyval) : option string :=
  match v with
  | PStr s => Some s
  | PInst _ b => as_str b
  | _ => None
  end.

(** [','.join(items)]: every item has to be a [str]. *)
Definition comma_join (items : list pyval) : result string :=
  rbind (rmap (fun v => match as_str v with
                        | Some s => Ok s
                        | None => Raise (TypeError "sequence item: expected str instance")
                        end) items)
        (fun ss => Ok (join "," ss)).

(** [t.strftime('%Y%m%d%H%M')]. *)
Definition strftime_YmdHM (t : Timestamp) : string :=
  (zfill 4 (str_of_int (year t)) ++ zfill 2 (str_of_int (month t))
     ++ zfill 2 (str_of_int (day t)) ++ zfill 2 (str_of_int (hour t))
     ++ zfill 2 (str_of_int (minute t)))%string.

(** The lengths of the arrays among the values of [data]. *)
Definition array_lengths (data : list (string * dict_value)) : list nat :=
  flat_map (fun kv => match snd kv with
                      | Arr l | Idx l => [List.length l]
                      | _ => []
                      end) data.

Definition has_mapping (data : list (string * dict_value)) : bool :=
  existsb (fun kv => match snd kv with Mapping _ => true | _ => false end) data.

Section Constructor.

(** The values that pandas stores for a Python list that becomes a column:
    the dtype of the column is inferred from the items, and the items are
    converted to it (in a list of numbers [None] becomes NaN, and ints next
    to floats or to missing values become floats; a list with text is kept as
    it is). *)
Variable infer_dtype : list pyval -> list pyval.

(** The values of the column that a value of the dict gives. *)
Definition column_of (v : dict_value) (i : nat) : pyval :=
  match v with
  | Arr l => nth i (infer_dtype l) PNaN
  | Idx l => nth i l PNaN
  | Scalar v => v
  | Mapping _ => PNaN
  end.

Definition frame_row (data : list (string * dict_value)) (i : nat) : Z * list pyval :=
  (Z.of_nat i, map (fun kv => column_of (snd kv) i) data).

(** [pd.DataFrame(data)] for a dict [data] in insertion order: the arrays
    must agree in length, every list is converted to the values of a column,
    scalars are repeated, the index is the row numbers.  A dict among the
    values, next to arrays, is the error of pandas for mixed input; without
    any array the constructor needs an index. *)
Definition DataFrame_of_dict (data : list (string * dict_value)) : result (DataFrame Z) :=
  if has_mapping data
  then Raise (ValueError "Mixing dicts with non-Series may lead to ambiguous ordering.")
  else
    match array_lengths data with
    | [] => Raise (ValueError "If using all scalar values, you must pass an index")
    | n :: ns =>
        if forallb (Nat.eqb n) ns
        then Ok (mkDF (map fst data) (map (frame_row data) (seq 0 n)))
        else Raise (ValueError "All arrays must be of the same length")
    end.

End Constructor.

(** [pd.concat(frames, ignore_index=True)]: the rows are renumbered. *)
Definition renumber {I} (df : DataFrame I) : DataFrame Z :=
  mkDF (columns df)
       (map (fun ir => (Z.of_nat (fst ir), snd (snd ir)))
            (combine (seq 0 (List.length (rows df))) (rows df))).

Definition pd_concat_ignore_index {I} (frames : list (DataFrame I)) : result (DataFrame Z) :=
  rbind (pd_concat (map Some frames)) (fun df => Ok (renumber df)).

Fixpoint remove_nth {A} (i : nat) (l : list A) : list A :=
  match i, l with
  | _, [] => []
  | O, _ :: l' => l'
  | S i', a :: l' => a :: remove_nth i' l'
  end.

(** [df.set_index(name)]: the column becomes the index and leaves the
    columns. *)
Definition set_index_column {I} (name : string) (df : DataFrame I) : result (DataFrame pyval) :=
  match positions name (columns df) with
  | [] => Raise (KeyError name)
  | i :: _ =>
      Ok (mkDF (remove_nth i (columns df))
               (map (fun r => (cell (snd r) i, remove_nth i (snd r))) (rows df)))
  end.

(** The stations of a body, in the order of the response. *)
Definition stations_of (res : pyval) : result (list pyval) :=
  rbind (getitem res "STATION") iterate.

(** A list with an item that is no text. *)
Definition has_non_text (v : pyval) : Prop :=
  exists l x, v = PList l /\ In x l /\ as_str x = None.

(** A number: an int, a bool, a float, or an instance of a subclass of
    these. *)
Fixpoint is_number (v : pyval) : bool :=
  match v with
  | PInt _ | PBool _ | PFloat _ => true
  | PInst _ b => is_number b
  | _ => false
  end.

(** The conversion of [stid] and of [api_vars]. *)
Definition joined (arg sent : pyval) : Prop :=
  (py_type arg = TList ->
   exists l s, arg = PList l /\ comma_join l = Ok s /\ sent = PStr s) /\
  (py_type arg <> TList -> sent = arg).

(** The conversion of [start] and of [end]. *)
Definition formatted (arg sent : pyval) : Prop :=
  (py_type arg = TTimestamp ->
   exists t, arg = PTime t /\ sent = PStr (strftime_YmdHM t)) /\
  (py_type arg <> TTimestamp -> sent = arg).

(** [res['SUMMARY']['RESPONSE_CODE']], the status field of a body. *)
Definition status (res : pyval) : result pyval :=
  rbind (getitem res "SUMMARY") (fun summary => getitem summary "RESPONSE_CODE").

Section Synoptic.

Local Open Scope py_scope.

(** [os.getenv('SYNOPTIC_API_TOKEN')], read when the module is loaded. *)
Variable SYNOPTIC_API_TOKEN : option string.

(** [requests.get(uri, params=params).json()]: the parsed body of the answer,
    or what the transport or the parse raises. *)
Variable get_json : string -> Params -> result pyval.

Definition SYNOPTIC_API_BASE_URI : string :=
  "https://api.synopticdata.com/v2/stations/timeseries".

(** The date parser of [pd.to_datetime]. *)
Variable parse_datetime : string -> option Timestamp.

(** The parser of [float(s)]; [str(v)] on a value that is not text. *)
Variable parse_float : string -> option Q.
Variable repr : pyval -> string.

(** The conversion of a Python list to the values of a column. *)
Variable infer_dtype : list pyval -> list pyval.

Definition py_str (v : pyval) : string :=
  match as_str v with
  | Some s => s
  | None =>
      match v with
      | PInt z => str_of_int z
      | PNone => "None"
      | PBool true => "True"
      | PBool false => "False"
      | _ => repr v
      end
  end.

Fixpoint py_float (v : pyval) : result pyval :=
  match v with
  | PStr s => float_of_str parse_float s
  | PInt z => Ok (PFloat (inject_Z z))
  | PBool b => Ok (PFloat (inject_Z (if b then 1 else 0)))
  | PFloat q => Ok (PFloat q)
  | PNaN => Ok PNaN
  | PInst _ b => py_float b
  | _ => Raise (TypeError "float() argument must be a string or a real number")
  end.

(** Lines 39-57: the conversions of the arguments and the [params] dict. *)
Definition build_params (stid start stop api_vars : pyval) : result Params :=
  rbind (match stid with
         | PList l => rbind (comma_join l) (fun s => Ok (PStr s))
         | _ => Ok stid
         end) (fun stid =>
  rbind (match api_vars with
         | PList l => rbind (comma_join l) (fun s => Ok (PStr s))
         | _ => Ok api_vars
         end) (fun api_vars =>
  let start := match start with
               | PTime t => PStr (strftime_YmdHM t)
               | _ => start
               end in
  let stop := match stop with
              | PTime t => PStr (strftime_YmdHM t)
              | _ => stop
              end in
  Ok (mkParams SYNOPTIC_API_TOKEN stid start stop api_vars))).

(** [pd.to_datetime(x, utc=True)] for the [date_time] field: text is parsed,
    a missing value gives [NaT]; of a list it gives a [DatetimeIndex].  The
    provider sends text; a number, which pandas would read as a count from
    the epoch, is outside the model and reported as an error. *)
Definition to_datetime_item (v : pyval) : result pyval :=
  match v with
  | PStr s => rbind (to_datetime parse_datetime s) (fun t => Ok (PTime t))
  | PNone | PNaN | PNaT => Ok PNaT
  | PTime t => Ok (PTime t)
  | _ => Raise (TypeError "not convertible to datetime")
  end.

Definition to_datetime_value (v : pyval) : result dict_value :=
  match v with
  | PList l | PTuple l => rbind (rmap to_datetime_item l) (fun ts => Ok (Idx ts))
  | _ => rbind (to_datetime_item v) (fun t => Ok (Scalar t))
  end.

(** How the [DataFrame] constructor takes a value of the observations. *)
Definition as_dict_value (v : pyval) : dict_value :=
  match v with
  | PList l | PTuple l => Arr l
  | PDict kv => Mapping kv
  | _ => Scalar v
  end.

(** The entries of the dict [obs]. *)
Fixpoint observations (obs : pyval) : result (list (string * pyval)) :=
  match obs with
  | PDict kv => Ok kv
  | PInst _ b => observations b
  | _ => Raise (TypeError "argument after ** must be a mapping")
  end.

(** Lines 71-81: the table of one station. *)
Definition station_frame (station : pyval) : result (DataFrame Z) :=
  rbind (getitem station "OBSERVATIONS") (fun obs =>
  rbind (getitem obs "date_time") (fun date_time =>
  rbind (to_datetime_value date_time) (fun date =>
  rbind (observations obs) (fun obs =>
  let obs := dict_pop obs "date_time" in
  rbind (getitem station "STID") (fun stid =>
  rbind (getitem station "LATITUDE") (fun lat =>
  rbind (py_float lat) (fun lat =>
  rbind (getitem station "LONGITUDE") (fun lon =>
  rbind (py_float lon) (fun lon =>
  DataFrame_of_dict infer_dtype
    (dict_update [("date", date);
                  ("stid", Scalar (PStr (py_str stid)));
                  ("latitude", Scalar lat);
                  ("longitude", Scalar lon)]
                 (map (fun kv => (fst kv, as_dict_value (snd kv))) obs))))))))))).

(** Lines 69-83: the normalisation of an accepted response. *)
Definition normalize (res : pyval) : result (DataFrame pyval) :=
  rbind (getitem res "STATION") (fun stations =>
  rbind (iterate stations) (fun stations =>
  rbind (rmap station_frame stations) (fun df_list =>
  rbind (pd_concat_ignore_index df_list) (set_index_column "date")))).

(** Lines 64-67: the two tests of the status field. *)
Definition check_status (res : pyval) : result unit :=
  rbind (status res) (fun code =>
  if py_eq_int code (-1) || py_eq_int code 200
  then Raise (OSError "SYNOPTIC_API_TOKEN environment variable invalid.")
  else
    rbind (status res) (fun code =>
    if py_eq_int code 2
    then Raise (ValueError "No data found. Try a different stid or time range.")
    else Ok tt)).

Definition synoptic_api_get (stid start stop api_vars : pyval)
  : M Params (DataFrame pyval) :=
  params <- lift (build_params stid start stop api_vars) ;;
  res <- request (get_json SYNOPTIC_API_BASE_URI) params ;;
  _ <- lift (check_status res) ;;
  lift (normalize res).

End Synoptic.

(** The dict that the table of a station is built from, when no observation
    field takes the place of a fixed column. *)
Definition station_dict (repr : pyval -> string) (sid : pyval)
                        (obs : list (string * pyval)) (ts : list pyval) (lat lon : pyval)
  : list (string * dict_value) :=
  [("date", Idx ts); ("stid", Scalar (PStr (py_str repr sid)));
   ("latitude", Scalar lat); ("longitude", Scalar lon)]
  ++ map (fun kv => (fst kv, as_dict_value (snd kv))) (dict_pop obs "date_time").

(** The table that the constructor makes of [station_dict]: one row per
    time. *)
Definition station_table (repr : pyval -> string) (infer_dtype : list pyval -> list pyval)
                         (sid : pyval) (obs : list (string * pyval)) (ts : list pyval)
                         (lat lon : pyval)
  : DataFrame Z :=
  mkDF (map fst (station_dict repr sid obs ts lat lon))
       (map (frame_row infer_dtype (station_dict repr sid obs ts lat lon))
            (seq 0 (List.length ts))).

(** A station object of the documented shape: its id, latitude and
    longitude, and an observation block with the array of times [dts] and,
    under distinct names that are none of the fixed column names, one array
    per measured variable. *)
Definition station_object (station sid la lo : pyval) (dts : list pyval)
                          (obs : list (string * pyval)) : Prop :=
  getitem station "STID" = Ok sid /\
  getitem station "LATITUDE" = Ok la /\
  getitem station "LONGITUDE" = Ok lo /\
  getitem station "OBSERVATIONS" = Ok (PDict obs) /\
  getitem (PDict obs) "date_time" = Ok (PList dts) /\
  NoDup (map fst obs) /\
  (forall k v, In (k, v) obs -> k <> "date_time" ->
               ~ In k ["date"; "stid"; "latitude"; "longitude"] /\ exists l, v = PList l).

(** The names of the observation fields that a station of the response
    carries, [date_time] apart. *)
Definition observation_fields (station : pyval) : list string :=
  match rbind (getitem station "OBSERVATIONS") observations with
  | Ok obs => map fst (dict_pop obs "date_time")
  | Raise _ => []
  end.

Definition fixed_labels : list string := ["date"; "stid"; "latitude"; "longitude"].

(** The column labels of the table of a station. *)
Definition station_labels (station : pyval) : list string :=
  add_new fixed_labels (observation_fields station).

(* ------------------------------------------------------------------ *)
(** * Fixtures: text parsers and canned responses for the examples *)

Module Fixture.

Definition digit (c : ascii) : option Z :=
  let n := nat_of_ascii c in
  if ((48 <=? n) && (n <=? 57))%nat then Some (Z.of_nat (n - 48)) else None.

Fixpoint number_from (acc : Z) (s : string) : option Z :=
  match s with
  | EmptyString => Some acc
  | String c s' =>
      match digit c with
      | Some d => number_from (10 * acc + d) s'
      | None => None
      end
  end.

Definition number (s : string) : option Z :=
  match s with
  | EmptyString => None
  | _ => number_from 0 s
  end.

(** Text of the shape [YYYY-MM-DD HH:MM:SS]; any character may separate
    the fields, and a trailing [Z] is accepted. *)
Definition parse_datetime (s : string) : option Timestamp :=
  match number (substring 0 4 s), number (substring 5 2 s), number (substring 8 2 s),
        number (substring 11 2 s), number (substring 14 2 s), number (substring 17 2 s) with
  | Some y, Some mo, Some d, Some h, Some mi, Some sec => Some (mkTs y mo d h mi sec 0)
  | _, _, _, _, _, _ => None
  end.

Fixpoint split_dot (s : string) : string * option string :=
  match s with
  | EmptyString => (EmptyString, None)
  | String c s' =>
      if Ascii.eqb c "." then (EmptyString, Some s')
      else let (a, b) := split_dot s' in (String c a, b)
  end.

Definition unsigned_float (s : string) : option Q :=
  match split_dot s with
  | (a, None) => option_map inject_Z (number a)
  | (a, Some b) =>
      match number a, number b with
      | Some x, Some y =>
          Some (Qmake (x * 10 ^ Z.of_nat (String.length b) + y)
                      (Z.to_pos (10 ^ Z.of_nat (String.length b))))
      | _, _ => None
      end
  end.

Definition parse_float (s : string) : option Q :=
  match s with
  | String "-" s' => option_map Qopp (unsigned_float s')
  | _ => unsigned_float s
  end.

Definition repr (v : pyval) : string := "<object>".

(** The case mappings of text in ASCII: the letters a-z and A-Z are mapped,
    every other character is kept. *)
Definition upper_ascii (c : ascii) : ascii :=
  let n := nat_of_ascii c in
  if ((97 <=? n) && (n <=? 122))%nat then ascii_of_nat (n - 32) else c.

Definition lower_ascii (c : ascii) : ascii :=
  let n := nat_of_ascii c in
  if ((65 <=? n) && (n <=? 90))%nat then ascii_of_nat (n + 32) else c.

Fixpoint map_string (f : ascii -> ascii) (s : string) : string :=
  match s with
  | EmptyString => EmptyString
  | String c s' => String (f c) (map_string f s')
  end.

Definition upper (s : string) : string := map_string upper_ascii s.
Definition lower (s : string) : string := map_string lower_ascii s.

(** The conversion of a list to the values of a column, for the lists of
    the examples: a list of ints, floats and [None] that holds a float or a
    [None] next to a number becomes a column of floats, in which [None] is
    NaN (the ints of the examples are small enough to be floats without
    rounding); any other list is kept. *)
Definition is_real_or_none (v : pyval) : bool :=
  match v with
  | PInt _ | PFloat _ | PNaN | PNone => true
  | _ => false
  end.

Definition is_int (v : pyval) : bool :=
  match v with PInt _ => true | _ => false end.

Definition is_none (v : pyval) : bool :=
  match v with PNone => true | _ => false end.

Definition to_float64 (v : pyval) : pyval :=
  match v with
  | PInt z => PFloat (inject_Z z)
  | PNone => PNaN
  | _ => v
  end.

Definition infer_dtype (l : list pyval) : list pyval :=
  if forallb is_real_or_none l && negb (forallb is_int l) && negb (forallb is_none l)
  then map to_float64 l
  else l.

Definition ts (y mo d h mi s : Z) : Timestamp := mkTs y mo d h mi s 0.

(** A line of the archive: date, time, quality flag, PM2.5, humidity. *)
Definition csv_row (i : Z) (date time : string) (code pm rh : Z) : Z * list pyval :=
  (i, [PStr date; PStr time; PInt code; PInt pm; PInt rh; PStr "extra"]).

Definition csv_columns : list string :=
  ["Date"; "TimeUTC"; "esampler_error_code"; "esampler_pm25_ugm3";
   "esampler_rh_pcent"; "esampler_flow_lpm"].

(** The archive of January 2019 for station HAWTH: one row before the
    window of the example, one flagged row, one row after the window. *)
Definition january : DataFrame Z :=
  mkDF csv_columns
    [csv_row 0 "2019-01-01" "23:59:50" 0 5 30;
     csv_row 1 "2019-01-02" "00:00:00" 0 3 28;
     csv_row 2 "2019-01-02" "00:00:10" 1 9 28;
     csv_row 3 "2019-01-02" "00:00:20" 0 3 28;
     csv_row 4 "2019-01-02" "00:00:30" 0 2 28;
     csv_row 5 "2019-01-02" "00:00:40" 0 2 28].

Definition token : option string := Some "secret".

(** An archive with data for January 2019 only. *)
Definition archive (uri : string) : result (DataFrame Z) :=
  if String.eqb uri (batch_uri token upper lower "HAWTH" 2019 1 "pm") then Ok january
  else Raise EmptyDataError.

(** The window of the docstring of [utahaq_api_get], and the table that the
    call with this window in UTC gives on [archive]. *)
Definition window_start : Timestamp := ts 2019 1 2 0 0 0.
Definition window_end : Timestamp := ts 2019 1 2 0 0 30.

Definition window_table : DataFrame (option Timestamp) :=
  mkDF ["pm25_ugm3"; "rh_pct"]
    [(Some (ts 2019 1 2 0 0 0), [PInt 3; PInt 28]);
     (Some (ts 2019 1 2 0 0 20), [PInt 3; PInt 28]);
     (Some (ts 2019 1 2 0 0 30), [PInt 2; PInt 28])].

(** An archive without any data. *)
Definition empty_archive (uri : string) : result (DataFrame Z) := Raise EmptyDataError.

(** The body that the timeseries API sends for a list of stations. *)
Definition body (code : pyval) (stations : list pyval) : pyval :=
  PDict [("SUMMARY", PDict [("RESPONSE_CODE", code); ("RESPONSE_MESSAGE", PStr "OK")]);
         ("STATION", PList stations)].

Definition times : pyval :=
  PList [PStr "2019-01-01T00:00:00Z"; PStr "2019-01-01T00:05:00Z";
         PStr "2019-01-01T00:10:00Z"].

Definition temperatures (a b c : Z) : pyval :=
  PList [PFloat (inject_Z a); PFloat (inject_Z b); PFloat (inject_Z c)].

Definition station (stid lat lon : string) (obs : list (string * pyval)) : pyval :=
  PDict [("STID", PStr stid); ("LATITUDE", PStr lat); ("LONGITUDE", PStr lon);
         ("OBSERVATIONS", PDict (("date_time", times) :: obs))].

Definition kslc : pyval :=
  station "KSLC" "40.77069" "-111.96503" [("air_temp_set_1", temperatures (-5) (-4) (-4))].

Definition kmtx : pyval :=
  station "KMTX" "41.26278" "-112.44694" [("air_temp_set_1", temperatures (-7) (-7) (-6))].

(** A station that reports a variable next to the air temperature. *)
Definition kslc_wind : pyval :=
  station "KSLC" "40.77069" "-111.96503"
    [("air_temp_set_1", temperatures (-5) (-4) (-4));
     ("wind_speed_set_1", temperatures 2 3 3)].

(** Arguments of a call: station codes in a tuple, variables in a list, a
    start that is an instance of a subclass of [pd.Timestamp], an end that is
    a [pd.Timestamp]. *)
Definition tuple_of_stations : pyval := PTuple [PStr "kslc"; PStr "kmtx"].
Definition list_of_variables : pyval := PList [PStr "air_temp"; PStr "wind_speed"].
Definition subclass_start : pyval := PInst "MyTimestamp" (PTime (ts 2019 1 1 0 0 0)).
Definition timestamp_end : pyval := PTime (ts 2019 1 1 0 10 0).

Definition sent_params : Params :=
  mkParams token tuple_of_stations subclass_start (PStr "201901010010")
           (PStr "air_temp,wind_speed").

Definition text_params : Params :=
  mkParams token (PStr "kslc") (PStr "201901010000") (PStr "201901010010")
           (PStr "air_temp").

(** The table of the docstring of [synoptic_api_get]. *)
Definition kslc_row (mi : Z) (temp : Z) : pyval * list pyval :=
  (PTime (ts 2019 1 1 0 mi 0),
   [PStr "KSLC"; PFloat (Qmake 4077069 100000); PFloat (Qopp (Qmake 11196503 100000));
    PFloat (inject_Z temp)]).

Definition kslc_table : DataFrame pyval :=
  mkDF ["stid"; "latitude"; "longitude"; "air_temp_set_1"]
       [kslc_row 0 (-5); kslc_row 5 (-4); kslc_row 10 (-4)].

(** Servers that answer every request with the same body. *)
Definition serve (res : pyval) (uri : string) (params : Params) : result pyval := Ok res.

(** An archive with data for January 2019, that fails on February 2019. *)
Definition failing_archive (uri : string) : result (DataFrame Z) :=
  if String.eqb uri (batch_uri token upper lower "HAWTH" 2019 1 "pm") then Ok january
  else if String.eqb uri (batch_uri token upper lower "HAWTH" 2019 2 "pm")
       then Raise (TransportError "HTTP Error 500")
       else Raise EmptyDataError.


(** A body without the [SUMMARY] object. *)
Definition body_without_summary : pyval := PDict [("STATION", PList [kslc])].

(** A body whose status field is the text "2". *)
Definition body_text_status : pyval := body (PStr "2") [kslc].

(** The parts of [kslc]. *)
Definition time_texts : list pyval :=
  [PStr "2019-01-01T00:00:00Z"; PStr "2019-01-01T00:05:00Z"; PStr "2019-01-01T00:10:00Z"].

Definition time_values : list pyval :=
  [PTime (ts 2019 1 1 0 0 0); PTime (ts 2019 1 1 0 5 0); PTime (ts 2019 1 1 0 10 0)].

Definition kslc_observations : list (string * pyval) :=
  [("date_time", times); ("air_temp_set_1", temperatures (-5) (-4) (-4))].

Definition kslc_latitude : pyval := PFloat (Qmake 4077069 100000).
Definition kslc_longitude : pyval := PFloat (Qopp (Qmake 11196503 100000)).

(** A station whose temperature array is shorter than its array of times. *)
Definition short_observations : list (string * pyval) :=
  [("date_time", times); ("air_temp_set_1", PList [PFloat (inject_Z (-5))])].

Definition kslc_short : pyval :=
  PDict [("STID", PStr "KSLC"); ("LATITUDE", PStr "40.77069");
         ("LONGITUDE", PStr "-111.96503"); ("OBSERVATIONS", PDict short_observations)].

(** A station whose observation block has a field named [stid]. *)
Definition shadow_observations : list (string * pyval) :=
  [("date_time", times); ("stid", PList [PStr "a"; PStr "b"; PStr "c"])].

Definition kslc_shadow : pyval :=
  PDict [("STID", PStr "KSLC"); ("LATITUDE", PStr "40.77069");
         ("LONGITUDE", PStr "-111.96503"); ("OBSERVATIONS", PDict shadow_observations)].

Definition kslc_shadow_table : DataFrame Z :=
  mkDF ["date"; "stid"; "latitude"; "longitude"]
       [(0, [PTime (ts 2019 1 1 0 0 0); PStr "a"; kslc_latitude; kslc_longitude]);
        (1, [PTime (ts 2019 1 1 0 5 0); PStr "b"; kslc_latitude; kslc_longitude]);
        (2, [PTime (ts 2019 1 1 0 10 0); PStr "c"; kslc_latitude; kslc_longitude])].

(** A body of the archive without the PM2.5 column. *)
Definition body_without_pm : DataFrame Z :=
  mkDF ["Date"; "TimeUTC"; "esampler_error_code"; "esampler_rh_pcent"]
       [(0, [PStr "2019-01-02"; PStr "00:00:00"; PInt 0; PInt 28])].

(** An archive whose bodies have the header and no line. *)
Definition blank_archive (uri : string) : result (DataFrame Z) :=
  Ok (mkDF csv_columns []).

End Fixture.

(* ------------------------------------------------------------------ *)
(** * The order of timestamps *)

Lemma lex_compare_cons (x y : Z) (a b : list Z) :
  lex_compare (x :: a) (y :: b) =
  match x ?= y with Eq => lex_compare a b | c => c end.
Proof. reflexivity. Qed.


Lemma lex_compare_antisym (a b : list Z) :
  lex_compare b a = CompOpp (lex_compare a b).
Proof.
  revert b; induction a as [|x a IH]; intros [|y b]; simpl; try reflexivity.
  rewrite (Z.compare_antisym x y).
  destruct (x ?= y); simpl; auto.
Qed.

Lemma lex_compare_eq (a b : list Z) : lex_compare a b = Eq -> a = b.
Proof.
  revert b; induction a as [|x a IH]; intros [|y b]; simpl; try congruence.
  destruct (x ?= y) eqn:E; try congruence.
  apply Z.compare_eq in E. intros H. f_equal; auto.
Qed.

Lemma lex_compare_lt_trans (a b c : list Z) :
  lex_compare a b = Lt -> lex_compare b c = Lt -> lex_compare a c = Lt.
Proof.
  revert b c; induction a as [|x a IH]; intros [|y b] [|z c]; simpl;
    try congruence.
  destruct (x ?= y) eqn:Exy; try congruence;
    destruct (y ?= z) eqn:Eyz; try congruence; intros H1 H2.
  - apply Z.compare_eq in Exy, Eyz. subst. rewrite Z.compare_refl. eauto.
  - apply Z.compare_eq in Exy. subst. now rewrite Eyz.
  - apply Z.compare_eq in Eyz. subst. now rewrite Exy.
  - rewrite Z.compare_lt_iff in Exy, Eyz.
    assert (E : (x ?= z) = Lt) by (rewrite Z.compare_lt_iff; lia).
    now rewrite E.
Qed.



Lemma ts_le_trans (a b c : Timestamp) : ts_le a b -> ts_le b c -> ts_le a c.
Proof.
  unfold ts_le, ts_leb, ts_compare. intros H1 H2.
  destruct (lex_compare (ts_fields a) (ts_fields b)) eqn:E1; try discriminate.
  - apply lex_compare_eq in E1. now rewrite E1.
  - destruct (lex_compare (ts_fields b) (ts_fields c)) eqn:E2; try discriminate.
    + apply lex_compare_eq in E2. rewrite <- E2. now rewrite E1.
    + now rewrite (lex_compare_lt_trans _ _ _ E1 E2).
Qed.


Lemma ts_ltb_leb_false (a b : Timestamp) : ts_ltb a b = true -> ts_leb b a = false.
Proof.
  unfold ts_ltb, ts_leb, ts_compare.
  rewrite (lex_compare_antisym (ts_fields a) (ts_fields b)).
  destruct (lex_compare (ts_fields a) (ts_fields b)); simpl; congruence.
Qed.




(** ** The loop of [date_range] ends by its own test *)

Lemma apply_month_index (t : Timestamp) :
  valid_month t ->
  valid_month (MonthBegin.apply t) /\
  month_index (MonthBegin.apply t) = month_index t + 1.
Proof.
  unfold valid_month, month_index, MonthBegin.apply. intros V.
  destruct (month t =? 12) eqn:E; cbn [year month].
  - apply Z.eqb_eq in E. lia.
  - apply Z.eqb_neq in E. lia.
Qed.

Lemma ts_leb_month_index (a b : Timestamp) :
  valid_month a -> valid_month b -> ts_leb a b = true -> month_index a <= month_index b.
Proof.
  unfold valid_month, month_index, ts_leb, ts_compare, ts_fields. intros Va Vb.
  rewrite !lex_compare_cons.
  destruct (year a ?= year b) eqn:Y.
  - apply Z.compare_eq in Y. destruct (month a ?= month b) eqn:Mo.
    + apply Z.compare_eq in Mo. lia.
    + rewrite Z.compare_lt_iff in Mo. lia.
    + discriminate.
  - rewrite Z.compare_lt_iff in Y. lia.
  - discriminate.
Qed.

Lemma generate_loop_fuel (fuel extra : nat) (cur stop : Timestamp) :
  valid_month cur -> valid_month stop ->
  month_index stop - month_index cur < Z.of_nat fuel ->
  generate_loop (fuel + extra) cur stop = generate_loop fuel cur stop.
Proof.
  revert cur; induction fuel as [|fuel IH]; intros cur Vc Vs F.
  - destruct extra as [|extra]; [reflexivity|]. simpl.
    destruct (ts_leb cur stop) eqn:L; [|reflexivity].
    apply ts_leb_month_index in L; auto. simpl in F. lia.
  - simpl. destruct (ts_leb cur stop) eqn:L; [|reflexivity].
    destruct (ts_eqb cur stop); [reflexivity|]. f_equal.
    destruct (apply_month_index Vc) as [Va Ma].
    apply IH; auto. lia.
Qed.

(** More fuel than [month_span] gives the same dates. *)
Lemma generate_loop_total (extra : nat) (cur stop : Timestamp) :
  valid_month cur -> valid_month stop ->
  generate_loop (month_span cur stop + extra) cur stop =
  generate_loop (month_span cur stop) cur stop.
Proof.
  intros Vc Vs. apply generate_loop_fuel; auto. unfold month_span. lia.
Qed.

(** The dates of the loop are on or after the month of its first date. *)
Lemma generate_loop_from (fuel : nat) (cur stop : Timestamp) :
  valid_month cur ->
  Forall (fun d => month_index cur <= month_index d) (generate_loop fuel cur stop).
Proof.
  revert cur; induction fuel as [|fuel IH]; intros cur Vc; simpl; [constructor|].
  destruct (ts_leb cur stop); [|constructor].
  constructor; [lia|]. destruct (ts_eqb cur stop); [constructor|].
  destruct (apply_month_index Vc) as [Va Ma].
  specialize (IH _ Va). rewrite Forall_forall in *. intros d Hd.
  specialize (IH d Hd). lia.
Qed.


(* ------------------------------------------------------------------ *)
(** * Tables: filtering by a mask *)

Lemma boolean_index_rows {I} (f : I -> bool) (df : DataFrame I) :
  rows (boolean_index df (map f (index df))) =
  filter (fun r => f (fst r)) (rows df).
Proof.
  unfold boolean_index, index; simpl.
  induction (rows df) as [|r l IH]; simpl; [reflexivity|].
  destruct (f (fst r)); simpl; now rewrite IH.
Qed.

Lemma boolean_index_eta {I} (df : DataFrame I) (mask : list bool) :
  boolean_index df mask = mkDF (columns df) (rows (boolean_index df mask)).
Proof. reflexivity. Qed.

Lemma boolean_index_cells {I} (f : list pyval -> bool) (df : DataFrame I) :
  rows (boolean_index df (map (fun r => f (snd r)) (rows df))) =
  filter (fun r => f (snd r)) (rows df).
Proof.
  unfold boolean_index; simpl.
  induction (rows df) as [|r l IH]; simpl; [reflexivity|].
  destruct (f (snd r)); simpl; now rewrite IH.
Qed.

Lemma rbind_ok {A B} (r : result A) (k : A -> result B) (b : B) :
  rbind r k = Ok b -> exists a, r = Ok a /\ k a = Ok b.
Proof. destruct r as [a|e]; simpl; [eauto | discriminate]. Qed.

Lemma rmap_Forall2 {A B} (f : A -> result B) (l : list A) (bs : list B) :
  rmap f l = Ok bs -> Forall2 (fun a b => f a = Ok b) l bs.
Proof.
  revert bs; induction l as [|a l IH]; simpl; intros bs H.
  - inversion H. constructor.
  - apply rbind_ok in H as (b & Hb & H). apply rbind_ok in H as (bs' & H1 & H).
    inversion H; subst. constructor; auto.
Qed.

(* ------------------------------------------------------------------ *)
(** * Provider B *)

Section UtahAQ_facts.

Variable tok : option string.
Variables upper lower : string -> string.
Variable read_csv : string -> result (DataFrame Z).
Variable parse_datetime : string -> option Timestamp.

Abbreviation batch_get := (_utahaq_batch_get tok upper lower read_csv parse_datetime).
Abbreviation fetch_B := (utahaq_api_get tok upper lower read_csv parse_datetime).
Abbreviation value_of := (batch_value read_csv parse_datetime).

(** A batch issues exactly one request, whatever comes back. *)
Lemma batch_get_run stid yr mo datatype log :
  batch_get stid yr mo datatype log =
  (value_of (batch_uri tok upper lower stid yr mo datatype),
   log ++ [batch_uri tok upper lower stid yr mo datatype]).
Proof.
  unfold _utahaq_batch_get, batch_value, bind, try_except, request, ret, lift.
  destruct (read_csv (batch_uri tok upper lower stid yr mo datatype)) as [res|e]; simpl.
  - destruct (normalize_batch parse_datetime res); reflexivity.
  - destruct (is_EmptyDataError e); reflexivity.
Qed.

Definition month_uri stid datatype (date : Timestamp) : string :=
  batch_uri tok upper lower stid (year date) (month date) datatype.

Lemma for_append_value stid datatype dates log :
  fst (for_append (fun date => batch_get stid (year date) (month date) datatype) dates log) =
  rmap (fun date => value_of (month_uri stid datatype date)) dates.
Proof.
  revert log; induction dates as [|d dates IH]; intros log; simpl; [reflexivity|].
  unfold bind at 1. rewrite batch_get_run. fold (month_uri stid datatype d).
  destruct (value_of (month_uri stid datatype d)) as [b|e]; simpl; [|reflexivity].
  unfold bind at 1. specialize (IH (log ++ [month_uri stid datatype d])).
  destruct (for_append _ dates _) as [[bs|e] log']; simpl in *; now rewrite <- IH.
Qed.

Lemma for_append_log stid datatype dates log bs :
  rmap (fun date => value_of (month_uri stid datatype date)) dates = Ok bs ->
  snd (for_append (fun date => batch_get stid (year date) (month date) datatype) dates log) =
  log ++ map (month_uri stid datatype) dates.
Proof.
  revert log bs; induction dates as [|d dates IH]; intros log bs H; simpl.
  - now rewrite app_nil_r.
  - simpl in H. apply rbind_ok in H as (b & Hb & H). apply rbind_ok in H as (bs' & Hbs & _).
    unfold bind at 1. rewrite batch_get_run. fold (month_uri stid datatype d). rewrite Hb.
    unfold bind at 1. specialize (IH (log ++ [month_uri stid datatype d]) bs' Hbs).
    pose proof (for_append_value stid datatype dates (log ++ [month_uri stid datatype d])) as V.
    rewrite Hbs in V.
    destruct (for_append _ dates _) as [[bs2|e] log']; simpl in *; try discriminate.
    rewrite IH, <- app_assoc. reflexivity.
Qed.

(** A call that asks for one month issues one request, whatever comes back. *)
Lemma single_month_log stid tz start stop datatype d log :
  query_dates start stop = [d] ->
  snd (fetch_B stid tz start stop datatype log) = log ++ [month_uri stid datatype d].
Proof.
  intros Q. unfold utahaq_api_get. rewrite Q. cbn [for_append].
  unfold bind at 1. unfold bind at 1. rewrite batch_get_run. fold (month_uri stid datatype d).
  destruct (value_of (month_uri stid datatype d)) as [b|e]; [|reflexivity].
  unfold bind, lift, ret. destruct (pd_concat [b]); [|reflexivity].
  destruct (index_between tz start stop _); reflexivity.
Qed.

Lemma fetch_B_value stid tz start stop datatype log :
  fst (fetch_B stid tz start stop datatype log) =
  rbind (rmap (fun date => value_of (month_uri stid datatype date)) (query_dates start stop))
        (fun df_list =>
   rbind (pd_concat df_list)
        (fun df =>
   rbind (index_between tz start stop (index df))
        (fun mask => Ok (boolean_index df mask)))).
Proof.
  unfold utahaq_api_get. unfold bind at 1.
  pose proof (for_append_value stid datatype (query_dates start stop) log) as V.
  destruct (for_append _ (query_dates start stop) log) as [[bs|e] log']; simpl in V;
    rewrite <- V; simpl; [|reflexivity].
  unfold bind, lift, ret. destruct (pd_concat bs); [|reflexivity].
  cbn [rbind]. destruct (index_between tz start stop _); reflexivity.
Qed.

(** The mask of line 109 exists for bounds in UTC only, and is then made
    label by label. *)
Lemma index_between_ok tz start stop labels mask :
  index_between tz start stop labels = Ok mask ->
  tz = UTC /\ mask = map (in_bounds start stop) labels.
Proof.
  destruct tz; simpl; intros H; inversion H. split; reflexivity.
Qed.

Lemma query_dates_nonempty start stop : query_dates start stop <> [].
Proof.
  unfold query_dates. destruct (date_range start stop); simpl; discriminate.
Qed.

End UtahAQ_facts.



Lemma rmap_const {A B} (b : B) (l : list A) :
  rmap (fun _ => Ok b) l = Ok (map (fun _ => b) l).
Proof.
  induction l as [|a l IH]; simpl; [reflexivity|]. now rewrite IH.
Qed.

Lemma drop_none_all_none {A B} (l : list A) :
  drop_none (map (fun _ => @None B) l) = [].
Proof. induction l; simpl; auto. Qed.

(** ** The months that a call asks for *)

Lemma ts_ltb_next_month (start stop : Timestamp) :
  year start = year stop -> month start = month stop ->
  ts_ltb stop (MonthBegin.apply start) = true.
Proof.
  intros Y Mo. unfold ts_ltb, ts_compare, ts_fields, MonthBegin.apply.
  destruct (month start =? 12) eqn:E; cbn [year month day hour minute second nanosecond];
    rewrite !lex_compare_cons.
  - assert (H : (year stop ?= year start + 1) = Lt) by (rewrite Z.compare_lt_iff; lia).
    now rewrite H.
  - rewrite <- Y, Z.compare_refl.
    assert (H : (month stop ?= month start + 1) = Lt) by (rewrite Z.compare_lt_iff; lia).
    now rewrite H.
Qed.

Lemma ts_leb_ltb (a b : Timestamp) : ts_leb a b = negb (ts_ltb b a).
Proof.
  unfold ts_leb, ts_ltb, ts_compare.
  rewrite (lex_compare_antisym (ts_fields a) (ts_fields b)).
  destruct (lex_compare (ts_fields a) (ts_fields b)); reflexivity.
Qed.

Lemma rollback_month_index (t : Timestamp) :
  month_index (MonthBegin.rollback t) = month_index t.
Proof.
  unfold MonthBegin.rollback. destruct (MonthBegin.is_on_offset t); reflexivity.
Qed.

(** A range within one calendar month asks for that month, once. *)
Lemma query_dates_same_month (start stop : Timestamp) :
  year start = year stop -> month start = month stop ->
  query_dates start stop = [start].
Proof.
  intros Y Mo. unfold query_dates, date_range, MonthBegin.rollforward.
  destruct (MonthBegin.is_on_offset start) eqn:S; cbn [negb].
  - set (stop' := if negb (MonthBegin.is_on_offset stop)
                  then MonthBegin.rollback stop else stop).
    destruct (ts_ltb stop' start) eqn:L; [reflexivity|].
    assert (Mi : month_index stop' = month_index start).
    { subst stop'. destruct (negb (MonthBegin.is_on_offset stop));
        [rewrite rollback_month_index|]; unfold month_index; lia. }
    unfold month_span. rewrite Mi, Z.sub_diag.
    change (Z.to_nat (0 + 1)) with 1%nat. cbn [generate_loop].
    rewrite ts_leb_ltb, L. cbn [negb].
    destruct (ts_eqb start stop'); reflexivity.
  - rewrite ts_ltb_next_month by assumption. reflexivity.
Qed.

(** When the range holds a month start and [start] is not one, every month
    asked for is after the month of [start]. *)
Lemma query_dates_after_start (start stop : Timestamp) :
  valid_month start ->
  MonthBegin.is_on_offset start = false ->
  date_range start stop <> [] ->
  Forall (fun d => month_index start < month_index d) (query_dates start stop).
Proof.
  intros V S N. unfold query_dates.
  destruct (date_range start stop) as [|d ds] eqn:D; [congruence|]. cbn [List.length Nat.eqb].
  rewrite <- D. clear D N d ds.
  unfold date_range, MonthBegin.rollforward. rewrite S. cbn [negb].
  destruct (ts_ltb stop (MonthBegin.apply start)); [constructor|].
  destruct (apply_month_index V) as [Va Ma].
  pose proof (generate_loop_from (month_span (MonthBegin.apply start) stop) stop Va) as F.
  rewrite Forall_forall in *. intros d Hd. specialize (F d Hd). lia.
Qed.

(** C1: the monthly requests of a Provider B call do not cover every
    calendar month that [start, end] touches.  For the range from
    2019-01-15 to 2019-02-20, which spans one month boundary, the call
    issues a single request, for February 2019, and none for January 2019,
    whatever the station, the datatype and the answers of the archive. *)
Theorem utahaq_partial_first_month_not_requested
  (tok : option string) (upper lower : string -> string)
  (read_csv : string -> result (DataFrame Z))
  (parse_datetime : string -> option Timestamp)
  (stid datatype : string) (tz : zone) (log : list string) :
  snd (utahaq_api_get tok upper lower read_csv parse_datetime stid tz
         (Fixture.ts 2019 1 15 0 0 0) (Fixture.ts 2019 2 20 0 0 0) datatype log)
  = log ++ [batch_uri tok upper lower stid 2019 2 datatype].
Proof.
  apply single_month_log with (d := Fixture.ts 2019 2 1 0 0 0).
  reflexivity.
Qed.

(** A call that returns a table has issued one request per month asked
    for, in the order of the months. *)
Lemma utahaq_requests_on_success
  (tok : option string) (upper lower : string -> string)
  (read_csv : string -> result (DataFrame Z))
  (parse_datetime : string -> option Timestamp)
  (stid : string) (tz : zone) (start stop : Timestamp) (datatype : string)
  (log log' : list string) (df : DataFrame (option Timestamp)) :
  utahaq_api_get tok upper lower read_csv parse_datetime stid tz start stop datatype log = (Ok df, log') ->
  log' = log ++ map (fun date => batch_uri tok upper lower stid (year date) (month date) datatype)
                    (query_dates start stop).
Proof.
  intros H.
  pose proof (fetch_B_value tok upper lower read_csv parse_datetime stid tz start stop datatype log) as V.
  rewrite H in V. cbn [fst] in V. symmetry in V.
  apply rbind_ok in V as (batches & L & _).
  pose proof (for_append_log tok upper lower read_csv parse_datetime stid datatype
                (query_dates start stop) log L) as G.
  unfold utahaq_api_get, bind in H.
  destruct (for_append _ (query_dates start stop) log) as [[bs|e] l1]; [|discriminate].
  cbn [snd] in G. subst l1.
  unfold lift, ret in H. destruct (pd_concat bs); [|discriminate].
  destruct (index_between tz start stop _); inversion H. reflexivity.
Qed.

Lemma flat_map_no_rows {I A} (h : DataFrame I -> I * list pyval -> A)
      (dfs : list (DataFrame I)) :
  Forall (fun b => rows b = []) dfs ->
  flat_map (fun d => map (h d) (rows d)) dfs = [].
Proof.
  induction 1 as [|x xs Hx _ IH]; simpl; [reflexivity|].
  rewrite Hx, IH. reflexivity.
Qed.

(** Batches that are tables without rows give a table without rows, for
    bounds in UTC. *)
Lemma utahaq_empty_tables
  (tok : option string) (upper lower : string -> string)
  (read_csv : string -> result (DataFrame Z))
  (parse_datetime : string -> option Timestamp)
  (stid : string) (start stop : Timestamp) (datatype : string) (log : list string)
  (batches : list (option (DataFrame (option Timestamp)))) :
  rmap (fun date => batch_value read_csv parse_datetime
                      (batch_uri tok upper lower stid (year date) (month date) datatype))
       (query_dates start stop) = Ok batches ->
  drop_none batches <> [] ->
  Forall (fun b => rows b = []) (drop_none batches) ->
  exists df,
    fst (utahaq_api_get tok upper lower read_csv parse_datetime stid UTC start stop datatype log) = Ok df /\
    rows df = [].
Proof.
  intros L N E. rewrite fetch_B_value. unfold month_uri. rewrite L. cbn [rbind].
  unfold pd_concat. destruct batches as [|b bs]; [contradiction N; reflexivity|].
  destruct (drop_none (b :: bs)) as [|d ds] eqn:D; [contradiction N; reflexivity|].
  cbn [rbind index_between]. eexists. split; [reflexivity|].
  rewrite boolean_index_rows. cbn [rows].
  assert (Z0 : flat_map (fun d0 : DataFrame (option Timestamp) =>
                 map (fun r => (fst r, reindex_row (union_columns (d :: ds)) (columns d0) (snd r)))
                     (rows d0)) (d :: ds) = []).
  { now apply flat_map_no_rows. }
  rewrite Z0. reflexivity.
Qed.

(** C2: when every monthly batch of a Provider B call is [None] (the
    archive has no data for any requested month), the call does not return an
    empty table: [pd.concat] raises [ValueError]. *)
Theorem utahaq_all_batches_none_raises
  (tok : option string) (upper lower : string -> string)
  (parse_datetime : string -> option Timestamp)
  (stid : string) (tz : zone) (start stop : Timestamp) (datatype : string) (log : list string) :
  fst (utahaq_api_get tok upper lower Fixture.empty_archive parse_datetime stid tz start stop datatype log)
  = Raise (ValueError "All objects passed were None").
Proof.
  rewrite fetch_B_value.
  unfold batch_value, Fixture.empty_archive. simpl is_EmptyDataError. cbv iota.
  rewrite rmap_const. simpl rbind.
  pose proof (query_dates_nonempty start stop) as N.
  destruct (query_dates start stop) as [|d ds]; [congruence|].
  unfold pd_concat. rewrite drop_none_all_none. reflexivity.
Qed.

(** C5: every row of the table that a Provider B call returns has a
    timestamp within the inclusive bound [start, end], whatever rows the
    monthly batches contain. *)
Theorem utahaq_rows_within_bounds
  (tok : option string) (upper lower : string -> string)
  (read_csv : string -> result (DataFrame Z))
  (parse_datetime : string -> option Timestamp)
  (stid : string) (tz : zone) (start stop : Timestamp) (datatype : string)
  (log log' : list string) (df : DataFrame (option Timestamp)) :
  utahaq_api_get tok upper lower read_csv parse_datetime stid tz start stop datatype log = (Ok df, log') ->
  Forall (fun r => exists t, fst r = Some t /\ ts_le start t /\ ts_le t stop) (rows df).
Proof.
  intros H.
  pose proof (fetch_B_value tok upper lower read_csv parse_datetime stid tz start stop datatype log) as V.
  rewrite H in V. simpl in V. symmetry in V.
  apply rbind_ok in V as (df_list & _ & V). apply rbind_ok in V as (df0 & _ & V).
  apply rbind_ok in V as (mask & Mk & V). apply index_between_ok in Mk as [_ ->].
  inversion V; subst df. rewrite boolean_index_rows.
  apply Forall_forall. intros r Hr. apply filter_In in Hr as [_ Hr].
  unfold in_bounds in Hr. destruct (fst r) as [t|]; [|discriminate].
  apply andb_true_iff in Hr as [H1 H2]. exists t. auto.
Qed.

Lemma utahaq_rows_within_bounds_witness :
  Forall (fun r => exists t, fst r = Some t /\
                             ts_le Fixture.window_start t /\ ts_le t Fixture.window_end)
         (rows Fixture.window_table).
Proof.
  apply (@utahaq_rows_within_bounds Fixture.token Fixture.upper Fixture.lower
           Fixture.archive Fixture.parse_datetime
           "hawth" UTC Fixture.window_start Fixture.window_end "pm" []
           [batch_uri Fixture.token Fixture.upper Fixture.lower "hawth" 2019 1 "pm"]).
  vm_compute. reflexivity.
Defined.




(* ------------------------------------------------------------------ *)
(** * Provider B: the quality flag *)

Lemma getattr_column_cells {I} (df : DataFrame I) (name : string) (col : list pyval) :
  getattr_column df name = Ok col ->
  col = map (fun r => column_cell (columns df) name (snd r)) (rows df).
Proof.
  unfold getattr_column, column_cell.
  destruct (positions name (columns df)); [discriminate|].
  intros H; inversion H; reflexivity.
Qed.

Lemma getattr_column_raise {I} (df : DataFrame I) (name : string) (e : exn) (rs : list (I * list pyval)) :
  getattr_column df name = Raise e ->
  getattr_column (mkDF (columns df) rs) name = Raise e.
Proof.
  unfold getattr_column. simpl.
  destruct (positions name (columns df)); [auto | discriminate].
Qed.

Lemma filter_idem {A} (f : A -> bool) (l : list A) :
  filter f (filter f l) = filter f l.
Proof.
  induction l as [|a l IH]; simpl; [reflexivity|].
  destruct (f a) eqn:E; simpl; [rewrite E|]; now rewrite IH.
Qed.

(** The rows that [res[res.esampler_error_code == 0]] keeps. *)
Lemma flag_filter (res : DataFrame Z) (codes : list pyval) :
  getattr_column res "esampler_error_code" = Ok codes ->
  boolean_index res (map (fun c => py_eq_int c 0) codes) = without_flagged res.
Proof.
  intros H. apply getattr_column_cells in H. subst codes.
  rewrite boolean_index_eta, map_map.
  rewrite (boolean_index_cells
             (fun cells => py_eq_int (column_cell (columns res) "esampler_error_code" cells) 0)).
  reflexivity.
Qed.

Lemma without_flagged_idem (res : DataFrame Z) :
  without_flagged (without_flagged res) = without_flagged res.
Proof.
  unfold without_flagged. simpl. f_equal.
  unfold flag_is_zero at 1. simpl. apply filter_idem.
Qed.

Lemma combine_map {A B C} (f : A -> B) (g : A -> C) (l : list A) :
  combine (map f l) (map g l) = map (fun a => (f a, g a)) l.
Proof. induction l; simpl; congruence. Qed.

Lemma Forall2_combine_In {A B} (P : A -> B -> Prop) (l : list A) (l' : list B) :
  Forall2 P l l' -> forall a b, In (a, b) (combine l l') -> P a b.
Proof.
  induction 1 as [|x y l l' Hxy _ IH]; simpl; intros a b Hin; [contradiction|].
  destruct Hin as [E|Hin]; [inversion E; subst; exact Hxy | auto].
Qed.

Lemma rmap_map_Forall2 {A B C} (f : B -> result C) (g : A -> B) (l : list A) (cs : list C) :
  rmap f (map g l) = Ok cs -> Forall2 (fun a c => f (g a) = Ok c) l cs.
Proof.
  revert cs; induction l as [|a l IH]; simpl; intros cs H.
  - inversion H. constructor.
  - apply rbind_ok in H as (c & Hc & H). apply rbind_ok in H as (cs' & H1 & H).
    inversion H; subst. constructor; auto.
Qed.

Lemma select_columns_rows {I} (names : list string) (df out : DataFrame I) :
  select_columns names df = Ok out ->
  map fst (rows out) = map fst (rows df).
Proof.
  unfold select_columns.
  destruct (find _ names); [discriminate|].
  intros H; inversion H; simpl. rewrite map_map. reflexivity.
Qed.

Section Quality_flag.

Variable parse_datetime : string -> option Timestamp.

(** Line 53 works on whole columns: a blank is appended to every date,
    then the times of day are appended, then the texts are converted.  When
    the three steps succeed, each label is the label of its line; and when
    every line has a label, the three steps succeed. *)
Lemma line_53_labels (dates times dates' texts : list pyval)
      (labels : list (option Timestamp)) :
  List.length dates = List.length times ->
  rmap (fun d => add_cells d (PStr " ")) dates = Ok dates' ->
  rmap (fun dt => add_cells (fst dt) (snd dt)) (combine dates' times) = Ok texts ->
  rmap (to_datetime_cell parse_datetime) texts = Ok labels ->
  rmap (fun dt => row_datetime parse_datetime (fst dt) (snd dt)) (combine dates times)
  = Ok labels.
Proof.
  revert times dates' texts labels.
  induction dates as [|d dates IH]; intros [|t times] dates' texts labels Len S1 S2 S3;
    try discriminate.
  - simpl in S1. inversion S1; subst. simpl in S2. inversion S2; subst. exact S3.
  - simpl in S1. apply rbind_ok in S1 as (d' & Hd & S1).
    apply rbind_ok in S1 as (ds' & H1 & S1). inversion S1; subst dates'. clear S1.
    simpl in S2. apply rbind_ok in S2 as (x & Hx & S2).
    apply rbind_ok in S2 as (xs & H2 & S2). inversion S2; subst texts. clear S2.
    simpl in S3. apply rbind_ok in S3 as (lab & Hl & S3).
    apply rbind_ok in S3 as (labs & H3 & S3). inversion S3; subst labels. clear S3.
    simpl. unfold row_datetime at 1. simpl fst. simpl snd. rewrite Hd. cbn [rbind].
    rewrite Hx. cbn [rbind]. rewrite Hl. cbn [rbind].
    rewrite (IH times ds' xs labs); [reflexivity | | assumption ..].
    simpl in Len. congruence.
Qed.

Lemma line_53_steps (dates times : list pyval) (labels : list (option Timestamp)) :
  List.length dates = List.length times ->
  rmap (fun dt => row_datetime parse_datetime (fst dt) (snd dt)) (combine dates times)
  = Ok labels ->
  exists dates' texts,
    rmap (fun d => add_cells d (PStr " ")) dates = Ok dates' /\
    rmap (fun dt => add_cells (fst dt) (snd dt)) (combine dates' times) = Ok texts /\
    rmap (to_datetime_cell parse_datetime) texts = Ok labels.
Proof.
  revert times labels.
  induction dates as [|d dates IH]; intros [|t times] labels Len H; try discriminate.
  - simpl in H. inversion H; subst. exists [], []. repeat split; reflexivity.
  - simpl in H. apply rbind_ok in H as (lab & Hl & H).
    apply rbind_ok in H as (labs & Hs & H). inversion H; subst labels. clear H.
    unfold row_datetime in Hl. simpl fst in Hl. simpl snd in Hl.
    apply rbind_ok in Hl as (d' & Hd & Hl). apply rbind_ok in Hl as (x & Hx & Hl).
    destruct (IH times labs) as (ds' & xs & H1 & H2 & H3); [simpl in Len; congruence | exact Hs |].
    exists (d' :: ds'), (x :: xs). simpl. rewrite Hd, H1. cbn [rbind]. simpl.
    rewrite Hx, H2. cbn [rbind]. simpl. rewrite Hl, H3. repeat split; reflexivity.
Qed.

(** The flagged lines of a body have no effect on what the batch gives. *)
Lemma normalize_batch_without_flagged (res : DataFrame Z) :
  normalize_batch parse_datetime res = normalize_batch parse_datetime (without_flagged res).
Proof.
  unfold normalize_batch.
  destruct (getattr_column res "esampler_error_code") as [codes|e] eqn:C.
  - assert (C' : exists codes', getattr_column (without_flagged res) "esampler_error_code"
                                = Ok codes').
    { unfold getattr_column in *. simpl.
      destruct (positions "esampler_error_code" (columns res)); [discriminate | eauto]. }
    destruct C' as (codes' & C'). rewrite C'. cbn [rbind].
    rewrite (flag_filter res C), (flag_filter (without_flagged res) C').
    now rewrite without_flagged_idem.
  - unfold without_flagged. erewrite getattr_column_raise; [reflexivity | exact C].
Qed.

(** Every row of a batch stems from a line of the body whose flag is zero. *)
Lemma normalize_batch_rows (res : DataFrame Z) (batch : DataFrame (option Timestamp)) :
  normalize_batch parse_datetime res = Ok batch ->
  Forall (fun label => exists r, In r (rows res) /\ flag_is_zero res r = true /\
                                 line_datetime parse_datetime res r = Ok label)
         (index batch).
Proof.
  unfold normalize_batch. intros H.
  apply rbind_ok in H as (codes & C & H). rewrite (flag_filter res C) in H.
  apply rbind_ok in H as (dates & D & H). apply rbind_ok in H as (dates' & S1 & H).
  apply rbind_ok in H as (times & T & H). apply rbind_ok in H as (texts & S2 & H).
  apply rbind_ok in H as (labels & S3 & H).
  apply getattr_column_cells in D, T. subst dates times.
  match type of S1 with
  | rmap _ (map ?f ?l) = _ =>
      match type of S2 with
      | rmap _ (combine _ (map ?g _)) = _ =>
          assert (Len : List.length (map f l) = List.length (map g l))
            by (now rewrite !length_map)
      end
  end.
  pose proof (line_53_labels _ _ Len S1 S2 S3) as L.
  rewrite combine_map in L.
  apply (rmap_map_Forall2 (fun dt => row_datetime parse_datetime (fst dt) (snd dt))) in L.
  apply select_columns_rows in H. unfold index. rewrite H. simpl.
  apply Forall_forall. intros label Hin.
  apply in_map_iff in Hin as ([lab cells] & E & Hin). simpl in E. subst lab.
  apply in_map_iff in Hin as ([r lab] & E & Hin). inversion E; subst. clear E.
  pose proof (Forall2_combine_In L _ _ Hin) as P. simpl in P.
  apply in_combine_l in Hin. simpl in Hin. apply filter_In in Hin as [Hin F].
  exists r. auto.
Qed.

End Quality_flag.

Lemma In_drop_none {A} (a : A) (l : list (option A)) :
  In a (drop_none l) <-> In (Some a) l.
Proof.
  unfold drop_none. rewrite in_flat_map. split.
  - intros ([b|] & Hin & H); simpl in H; [|contradiction].
    destruct H as [E|[]]. now subst.
  - intros H. exists (Some a). simpl. auto.
Qed.

Lemma Forall2_In_r {A B} (P : A -> B -> Prop) (l : list A) (l' : list B) (b : B) :
  Forall2 P l l' -> In b l' -> exists a, In a l /\ P a b.
Proof.
  induction 1 as [|x y l l' Hxy _ IH]; simpl; [contradiction|].
  intros [E|Hin].
  - subst. eauto.
  - destruct (IH Hin) as (a & Ha & Pa). eauto.
Qed.

Lemma relabel_index {I} (g : DataFrame I -> list pyval -> list pyval)
      (dfs : list (DataFrame I)) :
  map fst (flat_map (fun d => map (fun r => (fst r, g d (snd r))) (rows d)) dfs)
  = flat_map (@index I) dfs.
Proof.
  induction dfs as [|x xs IH]; simpl; [reflexivity|].
  rewrite map_app, IH. f_equal. unfold index. rewrite map_map. reflexivity.
Qed.

(** [pd.concat] keeps the index labels of its frames, in order. *)
Lemma pd_concat_index {I} (objs : list (option (DataFrame I))) (df : DataFrame I) :
  pd_concat objs = Ok df -> index df = flat_map (@index I) (drop_none objs).
Proof.
  unfold pd_concat. destruct objs as [|o objs]; [discriminate|].
  destruct (drop_none (o :: objs)) as [|d dfs]; [discriminate|].
  intros H; inversion H; clear H. unfold index at 1. cbn [rows].
  exact (relabel_index (fun d0 => reindex_row (union_columns (d :: dfs)) (columns d0))
                       (d :: dfs)).
Qed.

Lemma boolean_index_index_incl {I} (f : I -> bool) (df : DataFrame I) (label : I) :
  In label (index (boolean_index df (map f (index df)))) ->
  In label (index df) /\ f label = true.
Proof.
  unfold index at 1. rewrite boolean_index_rows. intros H.
  apply in_map_iff in H as (r & E & H). apply filter_In in H as [H F]. subst label.
  split; [unfold index; now apply in_map | exact F].
Qed.

Lemma for_append_ext {Req A B} (f g : A -> M Req B) (l : list A) (log : list Req) :
  (forall a log', f a log' = g a log') -> for_append f l log = for_append g l log.
Proof.
  intros E. revert log; induction l as [|a l IH]; intros log; simpl; [reflexivity|].
  unfold bind. rewrite E. destruct (g a log) as [[b|e] log1]; [|reflexivity].
  rewrite IH. reflexivity.
Qed.

(** A call gives the same, and asks the same, on the archive without the
    flagged lines. *)
Lemma utahaq_api_get_without_flagged
  (tok : option string) (upper lower : string -> string)
  (read_csv : string -> result (DataFrame Z))
  (parse_datetime : string -> option Timestamp)
  (stid : string) (tz : zone) (start stop : Timestamp) (datatype : string) (log : list string) :
  utahaq_api_get tok upper lower read_csv parse_datetime stid tz start stop datatype log =
  utahaq_api_get tok upper lower (without_flagged_lines read_csv) parse_datetime
    stid tz start stop datatype log.
Proof.
  unfold utahaq_api_get, bind at 1 3.
  rewrite (for_append_ext
             (fun date => _utahaq_batch_get tok upper lower read_csv parse_datetime
                            stid (year date) (month date) datatype)
             (fun date => _utahaq_batch_get tok upper lower (without_flagged_lines read_csv)
                            parse_datetime stid (year date) (month date) datatype));
    [reflexivity|].
  intros date log'. rewrite !batch_get_run. f_equal.
  unfold batch_value, without_flagged_lines.
  destruct (read_csv (batch_uri tok upper lower stid (year date) (month date) datatype)) as [res|e];
    cbn [rbind]; [|reflexivity].
  now rewrite <- normalize_batch_without_flagged.
Qed.

(** C6: the lines of a monthly batch whose [esampler_error_code] is not
    zero are dropped without an error: the batch gives what it gives on the
    body without those lines, and so does the whole call.  Hence every row
    that a Provider B call returns stems from a line, of the body of one of
    the requested months, whose quality flag is zero. *)
Theorem utahaq_flagged_rows_dropped
  (tok : option string) (upper lower : string -> string)
  (read_csv : string -> result (DataFrame Z))
  (parse_datetime : string -> option Timestamp) :
  (forall res, normalize_batch parse_datetime res
               = normalize_batch parse_datetime (without_flagged res)) /\
  (forall stid tz start stop datatype log,
     utahaq_api_get tok upper lower read_csv parse_datetime stid tz start stop datatype log
     = utahaq_api_get tok upper lower (without_flagged_lines read_csv) parse_datetime
         stid tz start stop datatype log) /\
  (forall stid tz start stop datatype log log' df,
     utahaq_api_get tok upper lower read_csv parse_datetime stid tz start stop datatype log = (Ok df, log') ->
     Forall (fun label =>
               exists date res r,
                 In date (query_dates start stop) /\
                 read_csv (batch_uri tok upper lower stid (year date) (month date) datatype) = Ok res /\
                 In r (rows res) /\
                 flag_is_zero res r = true /\
                 line_datetime parse_datetime res r = Ok label)
            (index df)).
Proof.
  split; [apply normalize_batch_without_flagged|].
  split; [intros; apply utahaq_api_get_without_flagged|].
  intros stid tz start stop datatype log log' df H.
  pose proof (fetch_B_value tok upper lower read_csv parse_datetime stid tz start stop datatype log) as V.
  rewrite H in V. simpl in V. symmetry in V.
  apply rbind_ok in V as (df_list & L & V). apply rbind_ok in V as (df0 & C & V).
  apply rbind_ok in V as (mask & Mk & V). apply index_between_ok in Mk as [_ ->].
  inversion V; subst df. clear V.
  apply Forall_forall. intros label Hin.
  apply boolean_index_index_incl in Hin as [Hin _].
  rewrite (pd_concat_index _ C) in Hin.
  apply in_flat_map in Hin as (batch & Hb & Hin).
  apply In_drop_none in Hb.
  apply rmap_Forall2 in L.
  destruct (Forall2_In_r _ L Hb) as (date & Hd & B).
  unfold batch_value, month_uri in B.
  destruct (read_csv (batch_uri tok upper lower stid (year date) (month date) datatype))
    as [res|e] eqn:R.
  - apply rbind_ok in B as (batch' & N & B). inversion B; subst batch'.
    pose proof (normalize_batch_rows parse_datetime res N) as F.
    rewrite Forall_forall in F. destruct (F label Hin) as (r & Hr & Fl & Ld).
    exists date, res, r. auto.
  - destruct (is_EmptyDataError e); discriminate.
Qed.

Lemma utahaq_flagged_rows_dropped_witness :
  (forall res, normalize_batch Fixture.parse_datetime res
               = normalize_batch Fixture.parse_datetime (without_flagged res)) /\
  (forall stid tz start stop datatype log,
     utahaq_api_get Fixture.token Fixture.upper Fixture.lower Fixture.archive Fixture.parse_datetime
       stid tz start stop datatype log
     = utahaq_api_get Fixture.token Fixture.upper Fixture.lower (without_flagged_lines Fixture.archive)
         Fixture.parse_datetime stid tz start stop datatype log) /\
  Forall (fun label =>
            exists date res r,
              In date (query_dates Fixture.window_start Fixture.window_end) /\
              Fixture.archive
                (batch_uri Fixture.token Fixture.upper Fixture.lower "hawth" (year date) (month date) "pm") = Ok res /\
              In r (rows res) /\
              flag_is_zero res r = true /\
              line_datetime Fixture.parse_datetime res r = Ok label)
         (index Fixture.window_table).
Proof.
  destruct (utahaq_flagged_rows_dropped Fixture.token Fixture.upper Fixture.lower
              Fixture.archive Fixture.parse_datetime)
    as (H1 & H2 & H3).
  split; [exact H1|]. split; [exact H2|].
  apply (H3 "hawth" UTC Fixture.window_start Fixture.window_end "pm" []
            [batch_uri Fixture.token Fixture.upper Fixture.lower "hawth" 2019 1 "pm"]).
  vm_compute. reflexivity.
Defined.

(* ------------------------------------------------------------------ *)
(** * Provider A: the request and the status field *)

Lemma rbind_raise {A B} (r : result A) (k : A -> result B) (e : exn) :
  rbind r k = Raise e -> r = Raise e \/ exists a, r = Ok a /\ k a = Raise e.
Proof.
  destruct r as [a|e']; simpl; [eauto|]. intros H; left; inversion H; reflexivity.
Qed.

Section Synoptic_facts.

Variable tok : option string.
Variable get_json : string -> Params -> result pyval.
Variable parse_datetime : string -> option Timestamp.
Variable parse_float : string -> option Q.
Variable repr : pyval -> string.
Variable infer_dtype : list pyval -> list pyval.

Abbreviation fetch_A := (synoptic_api_get tok get_json parse_datetime parse_float repr infer_dtype).
Abbreviation normalize_A := (normalize parse_datetime parse_float repr infer_dtype).

(** What a call returns, and the one request it issues. *)
Lemma fetch_A_run stid start stop api_vars log params :
  build_params tok stid start stop api_vars = Ok params ->
  fetch_A stid start stop api_vars log =
  (rbind (get_json SYNOPTIC_API_BASE_URI params) (fun res =>
   rbind (check_status res) (fun _ => normalize_A res)),
   log ++ [params]).
Proof.
  intros B. unfold synoptic_api_get, bind, lift, request. rewrite B.
  destruct (get_json SYNOPTIC_API_BASE_URI params) as [res|e]; [|reflexivity]. cbn [rbind].
  destruct (check_status res) as [[]|e]; reflexivity.
Qed.

Lemma check_status_code res code :
  status res = Ok code ->
  check_status res =
  if py_eq_int code (-1) || py_eq_int code 200
  then Raise (OSError "SYNOPTIC_API_TOKEN environment variable invalid.")
  else if py_eq_int code 2
       then Raise (ValueError "No data found. Try a different stid or time range.")
       else Ok tt.
Proof.
  unfold check_status. intros H. rewrite H. cbn [rbind].
  destruct (py_eq_int code (-1) || py_eq_int code 200); reflexivity.
Qed.

(** ** Normalisation raises no I/O error *)

Lemma getitem_not_io v key e : getitem v key = Raise e -> not_io e.
Proof.
  induction v; simpl; intros H; try (inversion H; reflexivity); auto.
  destruct (find _ kv); inversion H; reflexivity.
Qed.

Lemma iterate_not_io v e : iterate v = Raise e -> not_io e.
Proof.
  induction v; simpl; intros H; try (inversion H; reflexivity); auto; discriminate.
Qed.

Lemma observations_not_io v e : observations v = Raise e -> not_io e.
Proof.
  induction v; simpl; intros H; try (inversion H; reflexivity); auto; discriminate.
Qed.

Lemma rmap_raise {A B} (P : exn -> Prop) (f : A -> result B) (l : list A) e :
  (forall a e', f a = Raise e' -> P e') -> rmap f l = Raise e -> P e.
Proof.
  intros F. induction l as [|a l IH]; simpl; [discriminate|]. intros H.
  apply rbind_raise in H as [H|(b & _ & H)]; [eauto|].
  apply rbind_raise in H as [H|(bs & _ & H)]; [auto | discriminate].
Qed.

Lemma to_datetime_not_io s e : to_datetime parse_datetime s = Raise e -> not_io e.
Proof.
  unfold to_datetime. destruct (parse_datetime s); intros H; inversion H; reflexivity.
Qed.

Lemma to_datetime_item_not_io v e :
  to_datetime_item parse_datetime v = Raise e -> not_io e.
Proof.
  destruct v; simpl; intros H; try (inversion H; reflexivity); try discriminate.
  apply rbind_raise in H as [H|(t & _ & H)]; [|discriminate].
  now apply to_datetime_not_io in H.
Qed.

Lemma to_datetime_value_not_io v e :
  to_datetime_value parse_datetime v = Raise e -> not_io e.
Proof.
  assert (S : forall w, rbind (to_datetime_item parse_datetime w) (fun t => Ok (Scalar t))
                        = Raise e -> not_io e).
  { intros w H. apply rbind_raise in H as [H|(t & _ & H)]; [|discriminate].
    now apply to_datetime_item_not_io in H. }
  assert (L : forall l, rbind (rmap (to_datetime_item parse_datetime) l)
                              (fun ts => Ok (Idx ts)) = Raise e -> not_io e).
  { intros l H. apply rbind_raise in H as [H|(t & _ & H)]; [|discriminate].
    revert H. apply rmap_raise. apply to_datetime_item_not_io. }
  destruct v; first [exact (L _) | exact (S _)].
Qed.

Lemma py_float_not_io v e : py_float parse_float v = Raise e -> not_io e.
Proof.
  induction v; simpl; intros H; try (inversion H; reflexivity); auto; try discriminate.
  unfold float_of_str in H. destruct (parse_float s); inversion H; reflexivity.
Qed.

Lemma DataFrame_of_dict_not_io data e :
  DataFrame_of_dict infer_dtype data = Raise e -> not_io e.
Proof.
  unfold DataFrame_of_dict. destruct (has_mapping data); [intros H; inversion H; reflexivity|].
  destruct (array_lengths data) as [|n ns]; [intros H; inversion H; reflexivity|].
  destruct (forallb (Nat.eqb n) ns); intros H; inversion H; reflexivity.
Qed.

Lemma pd_concat_not_io {I} (objs : list (option (DataFrame I))) e :
  pd_concat objs = Raise e -> not_io e.
Proof.
  unfold pd_concat. destruct objs; [intros H; inversion H; reflexivity|].
  destruct (drop_none (o :: objs)); intros H; inversion H; reflexivity.
Qed.

Lemma set_index_column_not_io {I} name (df : DataFrame I) e :
  set_index_column name df = Raise e -> not_io e.
Proof.
  unfold set_index_column. destruct (positions name (columns df));
    intros H; inversion H; reflexivity.
Qed.

Ltac step H :=
  apply rbind_raise in H as [H|(? & _ & H)];
  [ first [ now apply getitem_not_io in H
          | now apply iterate_not_io in H
          | now apply observations_not_io in H
          | now apply to_datetime_value_not_io in H
          | now apply py_float_not_io in H
          | idtac ]
  | ].

Lemma station_frame_not_io station e :
  station_frame parse_datetime parse_float repr infer_dtype station = Raise e -> not_io e.
Proof.
  unfold station_frame. intros H. do 9 step H.
  now apply DataFrame_of_dict_not_io in H.
Qed.

Lemma normalize_not_io res e : normalize_A res = Raise e -> not_io e.
Proof.
  unfold normalize. intros H. do 2 step H.
  apply rbind_raise in H as [H|(frames & _ & H)].
  - revert H. apply rmap_raise. apply station_frame_not_io.
  - unfold pd_concat_ignore_index in H.
    apply rbind_raise in H as [H|(dfc & _ & H)].
    + apply rbind_raise in H as [H|(d & _ & H)]; [|discriminate].
      now apply pd_concat_not_io in H.
    + now apply set_index_column_not_io in H.
Qed.

End Synoptic_facts.

Lemma py_eq_int_2 (code : pyval) :
  py_eq_int code 2 = true -> py_eq_int code (-1) || py_eq_int code 200 = false.
Proof.
  induction code; simpl; intros H; try discriminate; auto.
  - destruct b; discriminate.
  - apply Z.eqb_eq in H. subst. reflexivity.
  - apply Qeq_bool_iff in H.
    apply orb_false_iff. split; apply not_true_iff_false; intros E;
      apply Qeq_bool_iff in E; rewrite H in E; discriminate E.
Qed.

(** C3 (as stated, refuted): with status field 1 and an empty station list
    the call raises a value-category error, although the status field is not
    2, and it returns no table, although the status field is none of -1, 200
    and 2. *)
Lemma synoptic_value_error_without_status_2 :
  let res := Fixture.body (PInt 1) [] in
  let out := fst (synoptic_api_get Fixture.token (Fixture.serve res)
                    Fixture.parse_datetime Fixture.parse_float Fixture.repr Fixture.infer_dtype
                    (PStr "kslc") (PStr "201901010000") (PStr "201901010010")
                    (PStr "air_temp") []) in
  status res = Ok (PInt 1) /\
  out = Raise (ValueError "No objects to concatenate") /\
  ~ ((exists m, out = Raise (ValueError m)) <-> py_eq_int (PInt 1) 2 = true).
Proof.
  cbv zeta. split; [reflexivity|]. split; [reflexivity|].
  intros [H _]. discriminate H. eexists. reflexivity.
Qed.

(** C3 (amended): a call whose body has a readable status field raises an
    I/O-category error if and only if the status field is -1 or 200; it
    raises the value-category error "No data found" when the status field is
    2; for any other status value it goes on to the normalisation and
    returns what that gives: the table, or the error that the normalisation
    raises. *)
Theorem synoptic_status_outcome
  (tok : option string) (get_json : string -> Params -> result pyval)
  (parse_datetime : string -> option Timestamp) (parse_float : string -> option Q)
  (repr : pyval -> string) (infer_dtype : list pyval -> list pyval)
  (stid start stop api_vars : pyval) (log : list Params)
  (params : Params) (res code : pyval) :
  build_params tok stid start stop api_vars = Ok params ->
  get_json SYNOPTIC_API_BASE_URI params = Ok res ->
  status res = Ok code ->
  let out := fst (synoptic_api_get tok get_json parse_datetime parse_float repr infer_dtype
                    stid start stop api_vars log) in
  ((exists m, out = Raise (OSError m)) <->
   py_eq_int code (-1) || py_eq_int code 200 = true) /\
  (py_eq_int code 2 = true ->
   out = Raise (ValueError "No data found. Try a different stid or time range.")) /\
  (py_eq_int code (-1) || py_eq_int code 200 = false ->
   py_eq_int code 2 = false ->
   out = normalize parse_datetime parse_float repr infer_dtype res).
Proof.
  intros B G S out. subst out.
  rewrite fetch_A_run with (params := params) by exact B.
  cbn [fst]. rewrite G. cbn [rbind]. rewrite (check_status_code res S).
  split; [|split].
  - destruct (py_eq_int code (-1) || py_eq_int code 200) eqn:E.
    + cbn [rbind]. split; eauto.
    + split; [|discriminate]. intros (m & H). exfalso.
      destruct (py_eq_int code 2); cbn [rbind] in H; [discriminate|].
      apply normalize_not_io in H. discriminate H.
  - intros E. rewrite (py_eq_int_2 code E), E. reflexivity.
  - intros E1 E2. rewrite E1, E2. reflexivity.
Qed.

Lemma synoptic_status_outcome_witness :
  let out := fst (synoptic_api_get Fixture.token (Fixture.serve (Fixture.body (PInt 1) [Fixture.kslc]))
                    Fixture.parse_datetime Fixture.parse_float Fixture.repr Fixture.infer_dtype
                    (PStr "kslc") (PStr "201901010000") (PStr "201901010010")
                    (PStr "air_temp") []) in
  ((exists m, out = Raise (OSError m)) <->
   py_eq_int (PInt 1) (-1) || py_eq_int (PInt 1) 200 = true) /\
  (py_eq_int (PInt 1) 2 = true ->
   out = Raise (ValueError "No data found. Try a different stid or time range.")) /\
  (py_eq_int (PInt 1) (-1) || py_eq_int (PInt 1) 200 = false ->
   py_eq_int (PInt 1) 2 = false ->
   out = normalize Fixture.parse_datetime Fixture.parse_float Fixture.repr Fixture.infer_dtype
           (Fixture.body (PInt 1) [Fixture.kslc])).
Proof.
  apply (@synoptic_status_outcome Fixture.token
           (Fixture.serve (Fixture.body (PInt 1) [Fixture.kslc]))
           Fixture.parse_datetime Fixture.parse_float Fixture.repr Fixture.infer_dtype
           (PStr "kslc") (PStr "201901010000") (PStr "201901010010") (PStr "air_temp")
           [] Fixture.text_params (Fixture.body (PInt 1) [Fixture.kslc]) (PInt 1));
    reflexivity.
Defined.

(** C8: a body whose status field passes the two tests but whose station
    list is empty makes the call raise (the [ValueError] of the
    concatenation of no tables); no empty table is returned. *)
Theorem synoptic_empty_station_list_raises
  (tok : option string) (get_json : string -> Params -> result pyval)
  (parse_datetime : string -> option Timestamp) (parse_float : string -> option Q)
  (repr : pyval -> string) (infer_dtype : list pyval -> list pyval)
  (stid start stop api_vars : pyval) (log : list Params)
  (params : Params) (res : pyval) :
  build_params tok stid start stop api_vars = Ok params ->
  get_json SYNOPTIC_API_BASE_URI params = Ok res ->
  check_status res = Ok tt ->
  getitem res "STATION" = Ok (PList []) ->
  fst (synoptic_api_get tok get_json parse_datetime parse_float repr infer_dtype
         stid start stop api_vars log)
  = Raise (ValueError "No objects to concatenate").
Proof.
  intros B G S E.
  rewrite fetch_A_run with (params := params) by exact B.
  cbn [fst]. rewrite G. cbn [rbind]. rewrite S. cbn [rbind].
  unfold normalize. rewrite E. reflexivity.
Qed.

Lemma synoptic_empty_station_list_raises_witness :
  fst (synoptic_api_get Fixture.token (Fixture.serve (Fixture.body (PInt 1) []))
         Fixture.parse_datetime Fixture.parse_float Fixture.repr Fixture.infer_dtype
         (PStr "kslc") (PStr "201901010000") (PStr "201901010010") (PStr "air_temp") [])
  = Raise (ValueError "No objects to concatenate").
Proof.
  apply (@synoptic_empty_station_list_raises Fixture.token
           (Fixture.serve (Fixture.body (PInt 1) []))
           Fixture.parse_datetime Fixture.parse_float Fixture.repr Fixture.infer_dtype
           (PStr "kslc") (PStr "201901010000") (PStr "201901010010") (PStr "air_temp")
           [] Fixture.text_params (Fixture.body (PInt 1) []));
    reflexivity.
Defined.

(* ------------------------------------------------------------------ *)
(** * Provider A: the conversions of the arguments *)

Lemma py_type_list (v : pyval) : py_type v = TList <-> exists l, v = PList l.
Proof.
  split; [|intros (l & E); subst; reflexivity].
  destruct v; simpl; intros H; try discriminate. eauto.
Qed.

Lemma py_type_timestamp (v : pyval) : py_type v = TTimestamp <-> exists t, v = PTime t.
Proof.
  split; [|intros (l & E); subst; reflexivity].
  destruct v; simpl; intros H; try discriminate. eauto.
Qed.

Lemma joined_spec (arg sent : pyval) :
  match arg with
  | PList l => rbind (comma_join l) (fun s => Ok (PStr s))
  | _ => Ok arg
  end = Ok sent ->
  joined arg sent.
Proof.
  intros H. split.
  - intros T. apply py_type_list in T as (l & E). subst arg.
    apply rbind_ok in H as (s & J & H). inversion H. eauto.
  - intros T. destruct arg; try (inversion H; reflexivity).
    exfalso. apply T. reflexivity.
Qed.

Lemma formatted_spec (arg : pyval) :
  formatted arg (match arg with PTime t => PStr (strftime_YmdHM t) | _ => arg end).
Proof.
  split.
  - intros T. apply py_type_timestamp in T as (t & E). subst arg. eauto.
  - intros T. destruct arg; try reflexivity. exfalso. apply T. reflexivity.
Qed.

(** C9: the conversions of the arguments of a Provider A call fire on the
    exact runtime type only.  [stid] and [api_vars] are joined with commas
    when their type is [list], and are sent as they are when it is anything
    else (a tuple, an instance of a subclass of [list]); [start] and [end]
    are formatted as YYYYMMDDHHMM when their type is [pd.Timestamp], and are
    sent as they are when it is anything else (text, an instance of a
    subclass of [pd.Timestamp]). *)
Theorem synoptic_conversions_on_exact_types
  (tok : option string) (get_json : string -> Params -> result pyval)
  (parse_datetime : string -> option Timestamp) (parse_float : string -> option Q)
  (repr : pyval -> string) (infer_dtype : list pyval -> list pyval)
  (stid start stop api_vars : pyval) (log : list Params) (params : Params) :
  build_params tok stid start stop api_vars = Ok params ->
  snd (synoptic_api_get tok get_json parse_datetime parse_float repr infer_dtype
         stid start stop api_vars log) = log ++ [params] /\
  joined stid (p_stid params) /\
  joined api_vars (p_vars params) /\
  formatted start (p_start params) /\
  formatted stop (p_end params).
Proof.
  intros B. split.
  - rewrite fetch_A_run with (params := params) by exact B. reflexivity.
  - unfold build_params in B.
    apply rbind_ok in B as (stid' & Js & B). apply rbind_ok in B as (vars' & Jv & B).
    inversion B; subst params; clear B. cbn [p_stid p_vars p_start p_end].
    repeat split; try (now apply joined_spec); apply formatted_spec.
Qed.

Lemma synoptic_conversions_on_exact_types_witness :
  snd (synoptic_api_get Fixture.token (Fixture.serve (Fixture.body (PInt 1) []))
         Fixture.parse_datetime Fixture.parse_float Fixture.repr Fixture.infer_dtype
         Fixture.tuple_of_stations Fixture.subclass_start Fixture.timestamp_end
         Fixture.list_of_variables [])
  = [] ++ [Fixture.sent_params] /\
  joined Fixture.tuple_of_stations Fixture.tuple_of_stations /\
  joined Fixture.list_of_variables (PStr "air_temp,wind_speed") /\
  formatted Fixture.subclass_start Fixture.subclass_start /\
  formatted Fixture.timestamp_end (PStr "201901010010").
Proof.
  apply (@synoptic_conversions_on_exact_types Fixture.token
           (Fixture.serve (Fixture.body (PInt 1) []))
           Fixture.parse_datetime Fixture.parse_float Fixture.repr Fixture.infer_dtype
           Fixture.tuple_of_stations Fixture.subclass_start Fixture.timestamp_end
           Fixture.list_of_variables [] Fixture.sent_params).
  reflexivity.
Defined.

(* ------------------------------------------------------------------ *)
(** * Provider A: the columns and the index of the table *)

Lemma mem_In (c : string) (l : list string) : mem c l = true <-> In c l.
Proof.
  unfold mem. rewrite existsb_exists. split.
  - intros (x & Hx & E). apply String.eqb_eq in E. now subst.
  - intros H. exists c. split; [exact H | apply String.eqb_refl].
Qed.

Lemma dict_set_keys {A} (d : list (string * A)) (key : string) (v : A) :
  map fst (dict_set d key v) =
  if mem key (map fst d) then map fst d else map fst d ++ [key].
Proof.
  induction d as [|[k x] d IH]; simpl; [reflexivity|].
  rewrite (String.eqb_sym key k).
  destruct (String.eqb k key) eqn:E; simpl; [reflexivity|].
  rewrite IH. destruct (mem key (map fst d)); reflexivity.
Qed.

(** The keys of [{**d, **more}]: those of [d], then the new ones of [more]. *)
Lemma dict_update_keys {A} (d more : list (string * A)) :
  map fst (dict_update d more) = add_new (map fst d) (map fst more).
Proof.
  unfold dict_update. revert d.
  induction more as [|[k x] more IH]; intros d; simpl; [reflexivity|].
  rewrite IH, dict_set_keys. destruct (mem k (map fst d)); reflexivity.
Qed.

Lemma add_new_fresh (acc cols : list string) :
  NoDup cols -> (forall c, In c cols -> ~ In c acc) -> add_new acc cols = acc ++ cols.
Proof.
  revert acc; induction cols as [|c cols IH]; intros acc N F; simpl.
  - now rewrite app_nil_r.
  - inversion N as [|? ? Hc N']; subst.
    destruct (mem c acc) eqn:E.
    + apply mem_In in E. exfalso. apply (F c); simpl; auto.
    + rewrite IH; [now rewrite <- app_assoc | exact N'|].
      intros x Hx Hin. apply in_app_or in Hin as [Hin|[Hin|[]]].
      * apply (F x); simpl; auto.
      * subst. contradiction.
Qed.

Lemma positions_from_spec (name : string) (cols : list string) (k i : nat) (rest : list nat) :
  positions_from k name cols = i :: rest ->
  (k <= i)%nat /\ nth_error cols (i - k) = Some name /\
  remove_nth (i - k) cols = remove_label name cols.
Proof.
  revert k; induction cols as [|c cols IH]; intros k; simpl; [discriminate|].
  destruct (String.eqb c name) eqn:E.
  - intros H; inversion H; subst. apply String.eqb_eq in E. subst.
    rewrite Nat.sub_diag. simpl. auto.
  - intros H. destruct (IH _ H) as (L & N & R).
    replace (i - k)%nat with (S (i - S k)) by lia. simpl. rewrite R. split; [lia | auto].
Qed.

Lemma positions_spec (name : string) (cols : list string) (i : nat) (rest : list nat) :
  positions name cols = i :: rest ->
  nth_error cols i = Some name /\ remove_nth i cols = remove_label name cols.
Proof.
  intros H. apply positions_from_spec in H as (_ & N & R).
  rewrite Nat.sub_0_r in *. auto.
Qed.

Lemma list_eqb_eq (a b : list string) : list_eqb a b = true -> a = b.
Proof.
  revert b; induction a as [|x a IH]; intros [|y b]; simpl; try discriminate; auto.
  intros H. apply andb_true_iff in H as [E H]. apply String.eqb_eq in E.
  f_equal; auto.
Qed.

(** Laying a row out on other labels keeps the cell of every label that the
    new layout has. *)
Lemma reindex_row_cell (cols from : list string) (cells : list pyval) (name : string) :
  positions name cols <> [] ->
  column_cell cols name (reindex_row cols from cells) = column_cell from name cells.
Proof.
  intros P. unfold reindex_row.
  destruct (list_eqb from cols) eqn:E; [apply list_eqb_eq in E; now subst|].
  unfold column_cell at 1.
  destruct (positions name cols) as [|i rest] eqn:Q; [congruence|].
  apply positions_spec in Q as [N _]. unfold cell at 1.
  apply (map_nth_error (fun c => match positions c from with
                                 | i :: _ => cell cells i
                                 | [] => PNaN
                                 end)) in N.
  now rewrite (nth_error_nth _ _ _ N).
Qed.

Lemma drop_none_Some {A} (l : list A) : drop_none (map Some l) = l.
Proof. induction l; simpl; congruence. Qed.

Lemma renumber_cells {I} (l : list (I * list pyval)) (k : nat) :
  map snd (map (fun ir : nat * (I * list pyval) => (Z.of_nat (fst ir), snd (snd ir)))
               (combine (seq k (List.length l)) l))
  = map snd l.
Proof.
  revert k; induction l as [|r l IH]; intros k; simpl; [reflexivity|].
  now rewrite IH.
Qed.

Lemma relabel_cells {I} (g : DataFrame I -> list pyval -> list pyval)
      (dfs : list (DataFrame I)) :
  map snd (flat_map (fun d => map (fun r => (fst r, g d (snd r))) (rows d)) dfs)
  = flat_map (fun d => map (fun r => g d (snd r)) (rows d)) dfs.
Proof.
  induction dfs as [|x xs IH]; simpl; [reflexivity|].
  rewrite map_app, IH, map_map. reflexivity.
Qed.

(** The columns and the cells of the concatenation of the station tables. *)
Lemma pd_concat_ignore_index_spec {I} (frames : list (DataFrame I)) (df : DataFrame Z) :
  pd_concat_ignore_index frames = Ok df ->
  columns df = union_labels (map (@columns I) frames) /\
  map snd (rows df) =
  flat_map (fun d => map (fun r => reindex_row (columns df) (columns d) (snd r)) (rows d))
           frames.
Proof.
  unfold pd_concat_ignore_index, pd_concat. intros H.
  apply rbind_ok in H as (dfc & C & H). inversion H; subst df; clear H.
  destruct (map Some frames) as [|o objs] eqn:M; [discriminate|].
  rewrite <- M, drop_none_Some in C.
  destruct frames as [|d ds]; [discriminate|].
  inversion C; subst dfc; clear C.
  unfold renumber. cbn [columns rows]. split; [reflexivity|].
  rewrite renumber_cells.
  exact (relabel_cells (fun d0 => reindex_row (union_columns (d :: ds)) (columns d0))
                       (d :: ds)).
Qed.

Lemma set_index_column_spec {I} (name : string) (dfc : DataFrame I) (df : DataFrame pyval) :
  set_index_column name dfc = Ok df ->
  positions name (columns dfc) <> [] /\
  columns df = remove_label name (columns dfc) /\
  index df = map (column_cell (columns dfc) name) (map snd (rows dfc)).
Proof.
  unfold set_index_column, column_cell.
  destruct (positions name (columns dfc)) as [|i rest] eqn:P; [discriminate|].
  intros H; inversion H; clear H. unfold index. cbn [columns rows].
  apply positions_spec in P as [_ R].
  split; [discriminate|]. split; [exact R|]. now rewrite !map_map.
Qed.

Section Synoptic_tables.

Variable tok : option string.
Variable get_json : string -> Params -> result pyval.
Variable parse_datetime : string -> option Timestamp.
Variable parse_float : string -> option Q.
Variable repr : pyval -> string.
Variable infer_dtype : list pyval -> list pyval.

Abbreviation fetch_A := (synoptic_api_get tok get_json parse_datetime parse_float repr infer_dtype).
Abbreviation frame_of := (station_frame parse_datetime parse_float repr infer_dtype).

(** The parts of a call that returns a table. *)
Lemma fetch_A_ok stid start stop api_vars log log' df :
  fetch_A stid start stop api_vars log = (Ok df, log') ->
  exists params res,
    build_params tok stid start stop api_vars = Ok params /\
    get_json SYNOPTIC_API_BASE_URI params = Ok res /\
    check_status res = Ok tt /\
    normalize parse_datetime parse_float repr infer_dtype res = Ok df /\
    log' = log ++ [params].
Proof.
  intros H.
  destruct (build_params tok stid start stop api_vars) as [params|e] eqn:B.
  - rewrite fetch_A_run with (params := params) in H by exact B.
    injection H as V L.
    apply rbind_ok in V as (res & G & V). apply rbind_ok in V as ([] & S & V).
    exists params, res. repeat split; auto.
  - unfold synoptic_api_get, bind, lift in H. rewrite B in H. discriminate.
Qed.

(** The column labels of the table of a station. *)
Lemma station_frame_columns station f :
  frame_of station = Ok f -> columns f = station_labels station.
Proof.
  unfold station_frame. intros H.
  apply rbind_ok in H as (obs & O & H). apply rbind_ok in H as (date_time & _ & H).
  apply rbind_ok in H as (date & _ & H). apply rbind_ok in H as (kv & K & H).
  apply rbind_ok in H as (sid & _ & H). apply rbind_ok in H as (lat & _ & H).
  apply rbind_ok in H as (lat' & _ & H). apply rbind_ok in H as (lon & _ & H).
  apply rbind_ok in H as (lon' & _ & H).
  unfold DataFrame_of_dict in H. destruct (has_mapping _); [discriminate|].
  destruct (array_lengths _) as [|n ns]; [discriminate|].
  destruct (forallb (Nat.eqb n) ns); [|discriminate].
  inversion H; clear H. cbn [columns].
  rewrite dict_update_keys, map_map. cbn [map fst].
  unfold station_labels, observation_fields, fixed_labels. rewrite O. cbn [rbind]. rewrite K.
  reflexivity.
Qed.

(** The table that the normalisation gives: its columns are the labels of
    the stations without [date], its index is the [date] columns of the
    station tables one after the other. *)
Lemma normalize_spec res df :
  normalize parse_datetime parse_float repr infer_dtype res = Ok df ->
  exists stations frames,
    stations_of res = Ok stations /\
    rmap frame_of stations = Ok frames /\
    columns df = remove_label "date" (union_labels (map station_labels stations)) /\
    index df = flat_map (fun f => column_values f "date") frames.
Proof.
  unfold normalize. intros H.
  apply rbind_ok in H as (sv & S & H). apply rbind_ok in H as (stations & It & H).
  apply rbind_ok in H as (frames & F & H). apply rbind_ok in H as (dfc & C & H).
  exists stations, frames.
  split; [unfold stations_of; rewrite S; exact It|]. split; [exact F|].
  apply pd_concat_ignore_index_spec in C as [Cc Cr].
  apply set_index_column_spec in H as (P & Hc & Hi).
  split.
  - rewrite Hc, Cc. f_equal. f_equal.
    apply rmap_Forall2 in F. clear - F.
    induction F as [|s f ss fs Hf _ IH]; simpl; [reflexivity|].
    rewrite IH. f_equal. now apply station_frame_columns.
  - rewrite Hi, Cr. clear - P.
    induction frames as [|f fs IH]; simpl; [reflexivity|].
    rewrite map_app, IH. f_equal. unfold column_values. rewrite map_map.
    apply map_ext. intros r. now apply reindex_row_cell.
Qed.

End Synoptic_tables.

(** ** Filtering keeps an ascending order *)

Lemma label_le_trans {I} `{Label I} (a b c : I) :
  label_le a b -> label_le b c -> label_le a c.
Proof.
  unfold label_le.
  destruct (label_time a), (label_time b), (label_time c); try contradiction.
  apply ts_le_trans.
Qed.

Lemma StronglySorted_filter {A} (R : A -> A -> Prop) (f : A -> bool) (l : list A) :
  StronglySorted R l -> StronglySorted R (filter f l).
Proof.
  induction 1 as [|a l S IH F]; simpl; [constructor|].
  destruct (f a); [|exact IH]. constructor; [exact IH|].
  rewrite Forall_forall in *. intros x Hx. apply filter_In in Hx as [Hx _]. auto.
Qed.

Lemma Sorted_filter {I} `{Label I} (f : I -> bool) (l : list I) :
  Sorted label_le l -> Sorted label_le (filter f l).
Proof.
  intros S. apply StronglySorted_Sorted, StronglySorted_filter.
  apply Sorted_StronglySorted; [|exact S].
  intros a b c. apply label_le_trans.
Qed.

Lemma boolean_index_index {I} (f : I -> bool) (df : DataFrame I) :
  index (boolean_index df (map f (index df))) = filter f (index df).
Proof.
  unfold index at 1. rewrite boolean_index_rows. unfold index.
  induction (rows df) as [|r l IH]; simpl; [reflexivity|].
  destruct (f (fst r)); simpl; now rewrite IH.
Qed.

(* ------------------------------------------------------------------ *)
(** * The columns of a Provider A table *)

(** C7 (as stated, refuted): the same request for the variable [air_temp]
    gives a table with the column of the air temperature alone on one body
    and a table with a further column, which was not asked for, on another:
    the columns follow the body of the response, not the request. *)
Lemma synoptic_columns_beyond_request :
  let call res :=
    fst (synoptic_api_get Fixture.token (Fixture.serve res)
           Fixture.parse_datetime Fixture.parse_float Fixture.repr Fixture.infer_dtype
           (PStr "kslc") (PStr "201901010000") (PStr "201901010010")
           (PStr "air_temp") []) in
  exists df1 df2,
    call (Fixture.body (PInt 1) [Fixture.kslc]) = Ok df1 /\
    call (Fixture.body (PInt 1) [Fixture.kslc_wind]) = Ok df2 /\
    columns df1 = ["stid"; "latitude"; "longitude"; "air_temp_set_1"] /\
    columns df2 = ["stid"; "latitude"; "longitude"; "air_temp_set_1"; "wind_speed_set_1"].
Proof.
  cbv zeta. eexists. eexists.
  split; [vm_compute; reflexivity|]. split; [vm_compute; reflexivity|].
  split; reflexivity.
Qed.

(** C7 (amended): the columns of the table that a Provider A call returns
    are the station-id, latitude and longitude columns and the observation
    fields that the stations of the response carry, [date_time] apart, in
    the order of their first appearance; for a response of one station,
    whose fields are distinct and none of the fixed names, they are exactly
    the three fixed columns followed by those fields.  The requested
    variables have no part in it. *)
Theorem synoptic_columns_from_response
  (tok : option string) (get_json : string -> Params -> result pyval)
  (parse_datetime : string -> option Timestamp) (parse_float : string -> option Q)
  (repr : pyval -> string) (infer_dtype : list pyval -> list pyval)
  (stid start stop api_vars : pyval) (log log' : list Params) (df : DataFrame pyval) :
  synoptic_api_get tok get_json parse_datetime parse_float repr infer_dtype
    stid start stop api_vars log = (Ok df, log') ->
  exists params res stations,
    build_params tok stid start stop api_vars = Ok params /\
    get_json SYNOPTIC_API_BASE_URI params = Ok res /\
    stations_of res = Ok stations /\
    columns df = remove_label "date" (union_labels (map station_labels stations)) /\
    (forall station,
       stations = [station] ->
       NoDup (observation_fields station) ->
       (forall c, In c (observation_fields station) -> ~ In c fixed_labels) ->
       columns df = ["stid"; "latitude"; "longitude"] ++ observation_fields station).
Proof.
  intros H. apply fetch_A_ok in H as (params & res & B & G & _ & N & _).
  apply normalize_spec in N as (stations & frames & S & _ & C & _).
  exists params, res, stations. repeat split; auto.
  intros station E N F. subst stations. rewrite C. cbn [map union_labels forallb].
  unfold station_labels. rewrite add_new_fresh by assumption. reflexivity.
Qed.

Lemma synoptic_columns_from_response_witness :
  exists params res stations,
    build_params Fixture.token (PStr "kslc") (PStr "201901010000") (PStr "201901010010")
      (PStr "air_temp") = Ok params /\
    Fixture.serve (Fixture.body (PInt 1) [Fixture.kslc]) SYNOPTIC_API_BASE_URI params = Ok res /\
    stations_of res = Ok stations /\
    columns Fixture.kslc_table
    = remove_label "date" (union_labels (map station_labels stations)) /\
    (forall station,
       stations = [station] ->
       NoDup (observation_fields station) ->
       (forall c, In c (observation_fields station) -> ~ In c fixed_labels) ->
       columns Fixture.kslc_table
       = ["stid"; "latitude"; "longitude"] ++ observation_fields station).
Proof.
  apply (@synoptic_columns_from_response Fixture.token
           (Fixture.serve (Fixture.body (PInt 1) [Fixture.kslc]))
           Fixture.parse_datetime Fixture.parse_float Fixture.repr Fixture.infer_dtype
           (PStr "kslc") (PStr "201901010000") (PStr "201901010010") (PStr "air_temp")
           [] [Fixture.text_params] Fixture.kslc_table).
  vm_compute. reflexivity.
Defined.

(* ------------------------------------------------------------------ *)
(** * The order of the index *)

(** C4 (as stated, refuted): for a response of two stations that report at
    the same three instants, the call succeeds and the index of the table
    goes back in time where the second station begins. *)
Lemma synoptic_two_stations_not_ascending :
  exists df,
    fst (synoptic_api_get Fixture.token
           (Fixture.serve (Fixture.body (PInt 1) [Fixture.kslc; Fixture.kmtx]))
           Fixture.parse_datetime Fixture.parse_float Fixture.repr Fixture.infer_dtype
           (PList [PStr "kslc"; PStr "kmtx"]) (PStr "201901010000") (PStr "201901010010")
           (PStr "air_temp") []) = Ok df /\
    ~ ascending df.
Proof.
  eexists. split; [vm_compute; reflexivity|].
  unfold ascending, index. cbn [rows map fst].
  intros S.
  repeat match goal with
         | H : Sorted _ (_ :: _) |- _ => inversion H; clear H; subst
         | H : HdRel _ _ (_ :: _) |- _ => inversion H; clear H; subst
         end.
  repeat match goal with
         | H : label_le _ _ |- _ => (vm_compute in H; discriminate H) || clear H
         end.
Qed.

(** C4 (amended): neither pipeline sorts; the index of a returned table keeps
    the order in which the rows arrive.  For Provider A it is the time
    columns of the station tables one after the other, in the order of the
    response; for Provider B it is what the bound [start, end] keeps of the
    labels of the monthly batches, in the order of the months.  The index is
    therefore ascending whenever that sequence is (for Provider A: one
    station with ascending times, or stations that follow each other in
    time). *)
Theorem index_keeps_arrival_order :
  (forall tok get_json parse_datetime parse_float repr infer_dtype
          stid start stop api_vars log log' df,
     synoptic_api_get tok get_json parse_datetime parse_float repr infer_dtype
       stid start stop api_vars log = (Ok df, log') ->
     exists params res stations frames,
       build_params tok stid start stop api_vars = Ok params /\
       get_json SYNOPTIC_API_BASE_URI params = Ok res /\
       stations_of res = Ok stations /\
       rmap (station_frame parse_datetime parse_float repr infer_dtype) stations = Ok frames /\
       index df = flat_map (fun f => column_values f "date") frames /\
       (Sorted label_le (flat_map (fun f => column_values f "date") frames) ->
        ascending df)) /\
  (forall tok upper lower read_csv parse_datetime stid tz start stop datatype log log' df,
     utahaq_api_get tok upper lower read_csv parse_datetime
       stid tz start stop datatype log = (Ok df, log') ->
     exists batches,
       rmap (fun date => batch_value read_csv parse_datetime
                           (batch_uri tok upper lower stid (year date) (month date) datatype))
            (query_dates start stop) = Ok batches /\
       index df = filter (in_bounds start stop)
                         (flat_map (@index (option Timestamp)) (drop_none batches)) /\
       (Sorted label_le (flat_map (@index (option Timestamp)) (drop_none batches)) ->
        ascending df)).
Proof.
  split.
  - intros tok get_json parse_datetime parse_float repr infer_dtype stid start stop api_vars
           log log' df H.
    apply fetch_A_ok in H as (params & res & B & G & _ & N & _).
    apply normalize_spec in N as (stations & frames & S & F & _ & I).
    exists params, res, stations, frames. repeat split; auto.
    unfold ascending. now rewrite I.
  - intros tok upper lower read_csv parse_datetime stid tz start stop datatype log log' df H.
    pose proof (fetch_B_value tok upper lower read_csv parse_datetime
                  stid tz start stop datatype log) as V.
    rewrite H in V. cbn [fst] in V. symmetry in V.
    apply rbind_ok in V as (batches & L & V). apply rbind_ok in V as (df0 & C & V).
    apply rbind_ok in V as (mask & Mk & V). apply index_between_ok in Mk as [_ ->].
    inversion V; subst df; clear V.
    exists batches. split; [exact L|].
    assert (E : index (boolean_index df0 (map (in_bounds start stop) (index df0)))
                = filter (in_bounds start stop)
                         (flat_map (@index (option Timestamp)) (drop_none batches))).
    { now rewrite boolean_index_index, (pd_concat_index _ C). }
    split; [exact E|].
    intros S. unfold ascending. rewrite E. now apply Sorted_filter.
Qed.

Lemma index_keeps_arrival_order_witness :
  (exists params res stations frames,
     build_params Fixture.token (PStr "kslc") (PStr "201901010000") (PStr "201901010010")
       (PStr "air_temp") = Ok params /\
     Fixture.serve (Fixture.body (PInt 1) [Fixture.kslc]) SYNOPTIC_API_BASE_URI params = Ok res /\
     stations_of res = Ok stations /\
     rmap (station_frame Fixture.parse_datetime Fixture.parse_float Fixture.repr Fixture.infer_dtype) stations
     = Ok frames /\
     index Fixture.kslc_table = flat_map (fun f => column_values f "date") frames /\
     (Sorted label_le (flat_map (fun f => column_values f "date") frames) ->
      ascending Fixture.kslc_table)) /\
  (exists batches,
     rmap (fun date => batch_value Fixture.archive Fixture.parse_datetime
                         (batch_uri Fixture.token Fixture.upper Fixture.lower "hawth" (year date) (month date) "pm"))
          (query_dates Fixture.window_start Fixture.window_end) = Ok batches /\
     index Fixture.window_table
     = filter (in_bounds Fixture.window_start Fixture.window_end)
              (flat_map (@index (option Timestamp)) (drop_none batches)) /\
     (Sorted label_le (flat_map (@index (option Timestamp)) (drop_none batches)) ->
      ascending Fixture.window_table)).
Proof.
  destruct index_keeps_arrival_order as [A B]. split.
  - apply (A Fixture.token (Fixture.serve (Fixture.body (PInt 1) [Fixture.kslc]))
             Fixture.parse_datetime Fixture.parse_float Fixture.repr Fixture.infer_dtype
             (PStr "kslc") (PStr "201901010000") (PStr "201901010010") (PStr "air_temp")
             [] [Fixture.text_params]).
    vm_compute. reflexivity.
  - apply (B Fixture.token Fixture.upper Fixture.lower Fixture.archive Fixture.parse_datetime
             "hawth" UTC Fixture.window_start Fixture.window_end "pm" []
             [batch_uri Fixture.token Fixture.upper Fixture.lower "hawth" 2019 1 "pm"]).
    vm_compute. reflexivity.
Defined.

(* ------------------------------------------------------------------ *)
(** * Provider B: the requests of a call *)

(** X1: a Provider B call whose start and end lie in the same calendar month
    issues exactly one request, for that month, whatever the archive
    answers. *)
Theorem utahaq_same_month_one_request
  (tok : option string) (upper lower : string -> string)
  (read_csv : string -> result (DataFrame Z))
  (parse_datetime : string -> option Timestamp)
  (stid : string) (tz : zone) (start stop : Timestamp) (datatype : string) (log : list string) :
  year start = year stop ->
  month start = month stop ->
  snd (utahaq_api_get tok upper lower read_csv parse_datetime stid tz start stop datatype log)
  = log ++ [batch_uri tok upper lower stid (year start) (month start) datatype].
Proof.
  intros Y Mo. apply single_month_log. now apply query_dates_same_month.
Qed.

Lemma utahaq_same_month_one_request_witness :
  snd (utahaq_api_get Fixture.token Fixture.upper Fixture.lower Fixture.archive Fixture.parse_datetime "hawth" UTC
         Fixture.window_start Fixture.window_end "pm" [])
  = [] ++ [batch_uri Fixture.token Fixture.upper Fixture.lower "hawth" 2019 1 "pm"].
Proof.
  apply (@utahaq_same_month_one_request Fixture.token Fixture.upper Fixture.lower Fixture.archive
           Fixture.parse_datetime "hawth" UTC Fixture.window_start Fixture.window_end "pm" []);
    reflexivity.
Defined.

Lemma for_append_app {Req A B} (f : A -> M Req B) (l1 l2 : list A) (log : list Req) :
  for_append f (l1 ++ l2) log =
  match for_append f l1 log with
  | (Ok bs1, log1) =>
      match for_append f l2 log1 with
      | (Ok bs2, log2) => (Ok (bs1 ++ bs2), log2)
      | (Raise e, log2) => (Raise e, log2)
      end
  | (Raise e, log1) => (Raise e, log1)
  end.
Proof.
  revert log; induction l1 as [|a l1 IH]; intros log; simpl.
  - unfold ret. destruct (for_append f l2 log) as [[bs|e] log2]; reflexivity.
  - unfold bind, ret. destruct (f a log) as [[b|e] log1]; [|reflexivity].
    rewrite IH.
    destruct (for_append f l1 log1) as [[bs1|e] log2]; [|reflexivity].
    destruct (for_append f l2 log2) as [[bs2|e] log3]; reflexivity.
Qed.

(** X2: the months are fetched one after the other and the first error ends
    the call.  When the batches of the first months succeed and the batch of
    the next month raises (anything but the caught [EmptyDataError]), the
    call raises that error, and the requests it has issued are those of the
    months up to the failing one: no later month is asked for. *)
Theorem utahaq_stops_at_first_error
  (tok : option string) (upper lower : string -> string)
  (read_csv : string -> result (DataFrame Z))
  (parse_datetime : string -> option Timestamp)
  (stid : string) (tz : zone) (start stop : Timestamp) (datatype : string) (log : list string)
  (before after : list Timestamp) (date : Timestamp)
  (batches : list (option (DataFrame (option Timestamp)))) (e : exn) :
  query_dates start stop = before ++ date :: after ->
  rmap (fun d => batch_value read_csv parse_datetime
                   (batch_uri tok upper lower stid (year d) (month d) datatype)) before = Ok batches ->
  batch_value read_csv parse_datetime
    (batch_uri tok upper lower stid (year date) (month date) datatype) = Raise e ->
  utahaq_api_get tok upper lower read_csv parse_datetime stid tz start stop datatype log
  = (Raise e,
     log ++ map (fun d => batch_uri tok upper lower stid (year d) (month d) datatype)
                (before ++ [date])).
Proof.
  intros Q B E. unfold utahaq_api_get. rewrite Q. unfold bind at 1.
  rewrite for_append_app.
  pose proof (for_append_value tok upper lower read_csv parse_datetime stid datatype before log) as V.
  pose proof (for_append_log tok upper lower read_csv parse_datetime stid datatype before log B) as L.
  unfold month_uri in V, L. rewrite B in V.
  destruct (for_append _ before log) as [[bs|e0] log1]; cbn [fst snd] in V, L;
    [|discriminate]. subst log1. cbn [for_append]. unfold bind at 1.
  rewrite batch_get_run, E. rewrite map_app, app_assoc. reflexivity.
Qed.

Lemma utahaq_stops_at_first_error_witness :
  utahaq_api_get Fixture.token Fixture.upper Fixture.lower Fixture.failing_archive Fixture.parse_datetime "hawth" UTC
    (Fixture.ts 2019 1 1 0 0 0) (Fixture.ts 2019 3 20 0 0 0) "pm" []
  = (Raise (TransportError "HTTP Error 500"),
     [] ++ map (fun d => batch_uri Fixture.token Fixture.upper Fixture.lower "hawth" (year d) (month d) "pm")
               ([Fixture.ts 2019 1 1 0 0 0] ++ [Fixture.ts 2019 2 1 0 0 0])).
Proof.
  apply (@utahaq_stops_at_first_error Fixture.token Fixture.upper Fixture.lower Fixture.failing_archive
           Fixture.parse_datetime "hawth" UTC
           (Fixture.ts 2019 1 1 0 0 0) (Fixture.ts 2019 3 20 0 0 0) "pm" []
           [Fixture.ts 2019 1 1 0 0 0] [Fixture.ts 2019 3 1 0 0 0]
           (Fixture.ts 2019 2 1 0 0 0)
           [Some (mkDF ["pm25_ugm3"; "rh_pct"]
                   [(Some (Fixture.ts 2019 1 1 23 59 50), [PInt 5; PInt 30]);
                    (Some (Fixture.ts 2019 1 2 0 0 0), [PInt 3; PInt 28]);
                    (Some (Fixture.ts 2019 1 2 0 0 20), [PInt 3; PInt 28]);
                    (Some (Fixture.ts 2019 1 2 0 0 30), [PInt 2; PInt 28]);
                    (Some (Fixture.ts 2019 1 2 0 0 40), [PInt 2; PInt 28])])]
           (TransportError "HTTP Error 500"));
    vm_compute; reflexivity.
Defined.

(** X3: a Provider B call that returns a table has issued exactly one
    request per month of its month sequence, in the order of the months, and
    none of the batches has raised. *)
Theorem utahaq_one_request_per_month
  (tok : option string) (upper lower : string -> string)
  (read_csv : string -> result (DataFrame Z))
  (parse_datetime : string -> option Timestamp)
  (stid : string) (tz : zone) (start stop : Timestamp) (datatype : string)
  (log log' : list string) (df : DataFrame (option Timestamp)) :
  utahaq_api_get tok upper lower read_csv parse_datetime stid tz start stop datatype log = (Ok df, log') ->
  log' = log ++ map (fun date => batch_uri tok upper lower stid (year date) (month date) datatype)
                    (query_dates start stop) /\
  Forall (fun date => exists batch,
            batch_value read_csv parse_datetime
              (batch_uri tok upper lower stid (year date) (month date) datatype) = Ok batch)
         (query_dates start stop).
Proof.
  intros H. split; [now apply utahaq_requests_on_success in H|].
  pose proof (fetch_B_value tok upper lower read_csv parse_datetime stid tz start stop datatype log) as V.
  rewrite H in V. cbn [fst] in V. symmetry in V.
  apply rbind_ok in V as (batches & L & _). apply rmap_Forall2 in L.
  clear - L. induction L as [|d b ds bs Hd _ IH]; constructor; eauto.
Qed.

Lemma utahaq_one_request_per_month_witness :
  [batch_uri Fixture.token Fixture.upper Fixture.lower "hawth" 2019 1 "pm"]
  = [] ++ map (fun date => batch_uri Fixture.token Fixture.upper Fixture.lower "hawth" (year date) (month date) "pm")
              (query_dates Fixture.window_start Fixture.window_end) /\
  Forall (fun date => exists batch,
            batch_value Fixture.archive Fixture.parse_datetime
              (batch_uri Fixture.token Fixture.upper Fixture.lower "hawth" (year date) (month date) "pm") = Ok batch)
         (query_dates Fixture.window_start Fixture.window_end).
Proof.
  apply (@utahaq_one_request_per_month Fixture.token Fixture.upper Fixture.lower Fixture.archive Fixture.parse_datetime
           "hawth" UTC Fixture.window_start Fixture.window_end "pm" []
           [batch_uri Fixture.token Fixture.upper Fixture.lower "hawth" 2019 1 "pm"] Fixture.window_table).
  vm_compute. reflexivity.
Defined.

(** ** Letter case of the station and of the datatype *)

(** X4: a Provider B call uses the station only in upper case and the
    datatype only in lower case, whatever the case mappings of [str] are: two
    calls whose stations have the same upper-case form and whose datatypes
    have the same lower-case form issue the same requests and return the
    same. *)
Theorem utahaq_case_insensitive
  (tok : option string) (upper lower : string -> string)
  (read_csv : string -> result (DataFrame Z))
  (parse_datetime : string -> option Timestamp)
  (stid stid' : string) (tz : zone) (start stop : Timestamp) (datatype datatype' : string)
  (log : list string) :
  upper stid = upper stid' ->
  lower datatype = lower datatype' ->
  utahaq_api_get tok upper lower read_csv parse_datetime stid tz start stop datatype log
  = utahaq_api_get tok upper lower read_csv parse_datetime stid' tz start stop datatype' log.
Proof.
  intros S D. unfold utahaq_api_get, bind at 1 3.
  rewrite (for_append_ext
             (fun date => _utahaq_batch_get tok upper lower read_csv parse_datetime
                            stid (year date) (month date) datatype)
             (fun date => _utahaq_batch_get tok upper lower read_csv parse_datetime
                            stid' (year date) (month date) datatype'));
    [reflexivity|].
  intros date log'. unfold _utahaq_batch_get, batch_uri. now rewrite S, D.
Qed.

Lemma utahaq_case_insensitive_witness :
  utahaq_api_get Fixture.token Fixture.upper Fixture.lower Fixture.archive
    Fixture.parse_datetime "hawth" UTC Fixture.window_start Fixture.window_end "pm" []
  = utahaq_api_get Fixture.token Fixture.upper Fixture.lower Fixture.archive
      Fixture.parse_datetime "HaWtH" UTC Fixture.window_start Fixture.window_end "PM" [].
Proof.
  apply (@utahaq_case_insensitive Fixture.token Fixture.upper Fixture.lower Fixture.archive
           Fixture.parse_datetime "hawth" "HaWtH" UTC Fixture.window_start Fixture.window_end
           "pm" "PM" []);
    reflexivity.
Defined.

(* ------------------------------------------------------------------ *)
(** * Provider B: the table of a batch *)

Lemma positions_from_nil (k : nat) (name : string) (cols : list string) :
  positions_from k name cols = [] <-> ~ In name cols.
Proof.
  revert k; induction cols as [|c cols IH]; intros k; simpl.
  - split; auto.
  - destruct (String.eqb c name) eqn:E.
    + apply String.eqb_eq in E. split; [discriminate | intros H; exfalso; auto].
    + apply String.eqb_neq in E. rewrite IH. split.
      * intros H [F|F]; auto.
      * intros H F. auto.
Qed.

Lemma positions_nil (name : string) (cols : list string) :
  positions name cols = [] <-> ~ In name cols.
Proof. apply positions_from_nil. Qed.

Lemma positions_In (name : string) (cols : list string) :
  In name cols -> exists i rest, positions name cols = i :: rest.
Proof.
  intros H. destruct (positions name cols) as [|i rest] eqn:P; [|eauto].
  apply positions_nil in P. contradiction.
Qed.

Lemma positions_from_NoDup (k : nat) (name : string) (cols : list string) :
  NoDup cols -> In name cols -> exists i, positions_from k name cols = [i].
Proof.
  revert k; induction cols as [|c cols IH]; intros k N H; simpl; [contradiction|].
  inversion N as [|? ? Hc N']; subst.
  destruct (String.eqb c name) eqn:E.
  - apply String.eqb_eq in E. subst.
    exists k. f_equal. now apply positions_from_nil.
  - apply String.eqb_neq in E. destruct H as [H|H]; [contradiction|]. auto.
Qed.


Lemma getattr_column_present {I} (df : DataFrame I) (name : string) :
  In name (columns df) ->
  getattr_column df name
  = Ok (map (fun r => column_cell (columns df) name (snd r)) (rows df)).
Proof.
  intros H. unfold getattr_column, column_cell.
  destruct (positions_In _ _ H) as (i & rest & P). now rewrite P.
Qed.

Lemma rmap_map {A B C} (f : B -> result C) (g : A -> B) (l : list A) :
  rmap f (map g l) = rmap (fun a => f (g a)) l.
Proof. induction l as [|a l IH]; simpl; [reflexivity|]. now rewrite IH. Qed.

Lemma rmap_total {A B} (f : A -> result B) (l : list A) :
  Forall (fun a => exists b, f a = Ok b) l ->
  exists bs, rmap f l = Ok bs /\ Forall2 (fun a b => f a = Ok b) l bs.
Proof.
  induction 1 as [|a l (b & Hb) _ (bs & Hbs & F)]; simpl.
  - exists []. split; [reflexivity | constructor].
  - exists (b :: bs). rewrite Hb, Hbs. split; [reflexivity | now constructor].
Qed.




Lemma select_columns_labels {I} (names : list string) (df out : DataFrame I) :
  select_columns names df = Ok out ->
  (forall c, In c (columns out) -> In c names) /\
  (forall n, In n names -> In n (columns out)).
Proof.
  unfold select_columns.
  destruct (find _ names) as [n|] eqn:F; [discriminate|].
  intros H; inversion H; clear H. cbn [columns]. split.
  - intros c Hc. apply in_flat_map in Hc as (n & Hn & Hc).
    apply in_map_iff in Hc as (_ & E & _). now subst.
  - intros n Hn. apply in_flat_map. exists n. split; [exact Hn|].
    pose proof (find_none _ _ F n Hn) as P. cbn beta in P.
    destruct (positions n (columns df)) as [|i rest]; [discriminate|].
    simpl. auto.
Qed.

(** X6: the table of a batch has the two measurement columns and no other:
    every column is labelled [pm25_ugm3] or [rh_pct], and both labels occur,
    whatever further columns the body of the month has. *)
Theorem utahaq_batch_columns
  (parse_datetime : string -> option Timestamp)
  (res : DataFrame Z) (batch : DataFrame (option Timestamp)) :
  normalize_batch parse_datetime res = Ok batch ->
  Forall (fun c => c = "pm25_ugm3" \/ c = "rh_pct") (columns batch) /\
  In "pm25_ugm3" (columns batch) /\ In "rh_pct" (columns batch).
Proof.
  unfold normalize_batch. intros H.
  apply rbind_ok in H as (codes & _ & H). apply rbind_ok in H as (dates & _ & H).
  apply rbind_ok in H as (dates' & _ & H). apply rbind_ok in H as (times & _ & H).
  apply rbind_ok in H as (texts & _ & H). apply rbind_ok in H as (labels & _ & H).
  apply select_columns_labels in H as [H1 H2]. split; [|split].
  - apply Forall_forall. intros c Hc. specialize (H1 c Hc).
    simpl in H1. intuition.
  - apply H2. simpl. auto.
  - apply H2. simpl. auto.
Qed.

Lemma utahaq_batch_columns_witness :
  Forall (fun c => c = "pm25_ugm3" \/ c = "rh_pct") (columns Fixture.window_table) /\
  In "pm25_ugm3" (columns Fixture.window_table) /\
  In "rh_pct" (columns Fixture.window_table).
Proof.
  apply (@utahaq_batch_columns Fixture.parse_datetime
           (mkDF Fixture.csv_columns
              [Fixture.csv_row 1 "2019-01-02" "00:00:00" 0 3 28;
               Fixture.csv_row 3 "2019-01-02" "00:00:20" 0 3 28;
               Fixture.csv_row 4 "2019-01-02" "00:00:30" 0 2 28])
           Fixture.window_table).
  vm_compute. reflexivity.
Defined.

Lemma rename_columns_short {I} (df : DataFrame I) :
  columns (rename_columns [("esampler_pm25_ugm3", "pm25_ugm3");
                           ("esampler_rh_pcent", "rh_pct")] df)
  = map short_name (columns df).
Proof.
  unfold rename_columns. cbn [columns]. apply map_ext. intros c.
  unfold short_name. cbn [find fst snd].
  destruct (String.eqb "esampler_pm25_ugm3" c); [reflexivity|].
  destruct (String.eqb "esampler_rh_pcent" c); reflexivity.
Qed.

Lemma positions_from_short (long short : string) (k : nat) (cols : list string) :
  (forall c, c <> short -> String.eqb (short_name c) short = String.eqb c long) ->
  ~ In short cols ->
  positions_from k short (map short_name cols) = positions_from k long cols.
Proof.
  intros E. revert k; induction cols as [|c cols IH]; intros k N; simpl; [reflexivity|].
  rewrite E by (intros F; apply N; left; exact F).
  rewrite IH by (intros F; apply N; right; exact F). reflexivity.
Qed.

Lemma short_name_pm (c : string) :
  c <> "pm25_ugm3" -> String.eqb (short_name c) "pm25_ugm3" = String.eqb c "esampler_pm25_ugm3".
Proof.
  intros N. unfold short_name. rewrite (String.eqb_sym c "esampler_pm25_ugm3").
  destruct (String.eqb "esampler_pm25_ugm3" c) eqn:E1; [reflexivity|].
  destruct (String.eqb "esampler_rh_pcent" c) eqn:E2; [reflexivity|].
  now apply String.eqb_neq.
Qed.

Lemma short_name_rh (c : string) :
  c <> "rh_pct" -> String.eqb (short_name c) "rh_pct" = String.eqb c "esampler_rh_pcent".
Proof.
  intros N. unfold short_name. rewrite (String.eqb_sym c "esampler_rh_pcent").
  destruct (String.eqb "esampler_pm25_ugm3" c) eqn:E1.
  - apply String.eqb_eq in E1. subst c. reflexivity.
  - destruct (String.eqb "esampler_rh_pcent" c) eqn:E2; [reflexivity|].
    now apply String.eqb_neq.
Qed.

Lemma Forall2_combine_map {A B C} (P : A -> B -> Prop) (Q : A -> C -> Prop)
      (h : A * B -> C) (l : list A) (l' : list B) :
  (forall a b, P a b -> Q a (h (a, b))) ->
  Forall2 P l l' -> Forall2 Q l (map h (combine l l')).
Proof.
  intros H. induction 1 as [|a b l l' Hab _ IH]; simpl; constructor; auto.
Qed.

(** On a body that has the flag, the date and the time of day, and whose
    unflagged lines all have a label, line 52 and line 53 succeed, and what
    is left is the renaming and the selection of the columns. *)
Lemma normalize_batch_labelled
  (parse_datetime : string -> option Timestamp) (res : DataFrame Z)
  (labels : list (option Timestamp)) :
  In "esampler_error_code" (columns res) ->
  In "Date" (columns res) -> In "TimeUTC" (columns res) ->
  rmap (fun r => line_datetime parse_datetime res r) (filter (flag_is_zero res) (rows res))
  = Ok labels ->
  normalize_batch parse_datetime res
  = select_columns ["pm25_ugm3"; "rh_pct"]
      (rename_columns [("esampler_pm25_ugm3", "pm25_ugm3"); ("esampler_rh_pcent", "rh_pct")]
         (set_index (without_flagged res) labels)).
Proof.
  intros F D T R.
  assert (R' : rmap (fun dt => row_datetime parse_datetime (fst dt) (snd dt))
                 (combine
                    (map (fun r => column_cell (columns res) "Date" (snd r))
                         (filter (flag_is_zero res) (rows res)))
                    (map (fun r => column_cell (columns res) "TimeUTC" (snd r))
                         (filter (flag_is_zero res) (rows res)))) = Ok labels).
  { rewrite combine_map, rmap_map. exact R. }
  apply line_53_steps in R' as (dates & texts & S1 & S2 & S3);
    [|now rewrite !length_map].
  unfold normalize_batch.
  rewrite (getattr_column_present res _ F). cbn [rbind].
  rewrite (flag_filter res (getattr_column_present res _ F)).
  rewrite (getattr_column_present (without_flagged res) "Date") by exact D.
  cbn [rbind].
  change (rows (without_flagged res)) with (filter (flag_is_zero res) (rows res)).
  change (columns (without_flagged res)) with (columns res).
  rewrite S1. cbn [rbind].
  rewrite (getattr_column_present (without_flagged res) "TimeUTC") by exact T.
  cbn [rbind].
  change (rows (without_flagged res)) with (filter (flag_is_zero res) (rows res)).
  change (columns (without_flagged res)) with (columns res).
  rewrite S2. cbn [rbind]. rewrite S3. reflexivity.
Qed.

(** X7: on a body of the documented shape whose unflagged lines all carry a
    readable date, the batch succeeds and its table is, line by line and in
    the order of the file, the unflagged lines of the body: each row is
    labelled with the date and time of its line and carries the PM2.5 and the
    relative humidity of that line, unchanged, under the columns
    [pm25_ugm3] and [rh_pct]. *)
Theorem utahaq_batch_content
  (parse_datetime : string -> option Timestamp) (res : DataFrame Z) :
  archive_body res ->
  Forall (fun r => exists label, line_datetime parse_datetime res r = Ok label)
         (filter (flag_is_zero res) (rows res)) ->
  exists batch,
    normalize_batch parse_datetime res = Ok batch /\
    columns batch = ["pm25_ugm3"; "rh_pct"] /\
    Forall2 (measured parse_datetime res)
            (filter (flag_is_zero res) (rows res)) (rows batch).
Proof.
  intros (N & D & T & F & Pm & Rh & NPm & NRh) L.
  destruct (rmap_total (fun r => line_datetime parse_datetime res r) L) as (labels & R & F2).
  rewrite (normalize_batch_labelled parse_datetime res F D T R).
  unfold select_columns. rewrite rename_columns_short.
  unfold rename_columns, set_index, without_flagged. cbn [columns rows].
  destruct (@positions_from_NoDup 0 _ _ N Pm) as (i & Pi).
  destruct (@positions_from_NoDup 0 _ _ N Rh) as (j & Pj).
  assert (Qi : positions "pm25_ugm3" (map short_name (columns res)) = [i]).
  { unfold positions. rewrite (positions_from_short "esampler_pm25_ugm3");
      auto using short_name_pm. }
  assert (Qj : positions "rh_pct" (map short_name (columns res)) = [j]).
  { unfold positions. rewrite (positions_from_short "esampler_rh_pcent");
      auto using short_name_rh. }
  cbn [find flat_map]. rewrite !Qi, !Qj. cbn [map app].
  eexists. split; [reflexivity|]. split; [reflexivity|]. cbn [rows].
  rewrite map_map.
  apply (Forall2_combine_map
           (P := fun r label => line_datetime parse_datetime res r = Ok label)); [|exact F2].
  intros r label H. split; cbn [fst snd]; [exact H|].
  unfold column_cell, positions. now rewrite Pi, Pj.
Qed.

Lemma utahaq_batch_content_witness :
  exists batch,
    normalize_batch Fixture.parse_datetime Fixture.january = Ok batch /\
    columns batch = ["pm25_ugm3"; "rh_pct"] /\
    Forall2 (measured Fixture.parse_datetime Fixture.january)
            (filter (flag_is_zero Fixture.january) (rows Fixture.january)) (rows batch).
Proof.
  apply (@utahaq_batch_content Fixture.parse_datetime Fixture.january).
  - unfold archive_body. cbn [columns Fixture.january Fixture.csv_columns].
    repeat split.
    + repeat (constructor; [simpl; intros H; repeat destruct H as [H|H]; discriminate H || exact H|]).
      constructor.
    + simpl. auto.
    + simpl. auto.
    + simpl. auto 10.
    + simpl. auto 10.
    + simpl. auto 10.
    + simpl. intros H. repeat destruct H as [H|H]; discriminate H || exact H.
    + simpl. intros H. repeat destruct H as [H|H]; discriminate H || exact H.
  - vm_compute. repeat constructor; eexists; reflexivity.
Defined.

(* ------------------------------------------------------------------ *)
(** * Provider B: the rows of the returned table *)







(* ------------------------------------------------------------------ *)
(** * Provider B: the months of a range that begins with a month *)

Lemma months_from_S (t : Timestamp) (n : nat) :
  months_from t (S n) = t :: months_from (MonthBegin.apply t) n.
Proof.
  unfold months_from. cbn [seq map Nat.iter nat_rect]. f_equal.
  rewrite <- seq_shift, map_map. apply map_ext. intros k.
  apply Nat.iter_succ_r.
Qed.

Lemma iter_month_index (t : Timestamp) (k : nat) :
  valid_month t ->
  valid_month (Nat.iter k MonthBegin.apply t) /\
  month_index (Nat.iter k MonthBegin.apply t) = month_index t + Z.of_nat k.
Proof.
  intros V. induction k as [|k [Vk Mk]]; [split; [exact V | simpl; lia]|].
  cbn [Nat.iter nat_rect]. fold (Nat.iter k MonthBegin.apply t).
  destruct (apply_month_index Vk) as [Va Ma]. split; [exact Va | lia].
Qed.

Lemma month_start_apply (t : Timestamp) : month_start t -> month_start (MonthBegin.apply t).
Proof.
  intros (V & D & H & Mi & S & N). destruct (apply_month_index V) as [Va _].
  unfold month_start. split; [exact Va|].
  unfold MonthBegin.apply. destruct (month t =? 12); cbn; auto.
Qed.

(** A month start is at most a first of a month exactly when its month is
    not later. *)
Lemma month_start_leb (cur stop : Timestamp) :
  month_start cur -> valid_month stop -> day stop = 1 ->
  0 <= hour stop -> 0 <= minute stop -> 0 <= second stop -> 0 <= nanosecond stop ->
  month_index cur <= month_index stop ->
  ts_leb cur stop = true.
Proof.
  intros (V & D & H & Mi & S & N) Vs Ds Hs Ms Ss Ns L.
  unfold ts_leb, ts_compare, ts_fields. rewrite !lex_compare_cons.
  unfold valid_month, month_index in *.
  rewrite D, H, Mi, S, N, Ds.
  destruct (Z.compare_spec (year cur) (year stop)) as [Y|Y|Y]; try reflexivity; [|lia].
  destruct (Z.compare_spec (month cur) (month stop)) as [Mo|Mo|Mo]; try reflexivity; [|lia].
  rewrite Z.compare_refl.
  destruct (Z.compare_spec 0 (hour stop)); try reflexivity; [|lia].
  destruct (Z.compare_spec 0 (minute stop)); try reflexivity; [|lia].
  destruct (Z.compare_spec 0 (second stop)); try reflexivity; [|lia].
  destruct (Z.compare_spec 0 (nanosecond stop)); try reflexivity; lia.
Qed.

Lemma ts_eqb_month_index (a b : Timestamp) :
  ts_eqb a b = true -> month_index a = month_index b.
Proof.
  unfold ts_eqb, ts_compare. intros H.
  destruct (lex_compare (ts_fields a) (ts_fields b)) eqn:E; try discriminate.
  apply lex_compare_eq in E. unfold ts_fields in E. inversion E.
  unfold month_index. congruence.
Qed.

Lemma generate_loop_months (fuel : nat) (cur stop : Timestamp) :
  month_start cur -> valid_month stop -> day stop = 1 ->
  0 <= hour stop -> 0 <= minute stop -> 0 <= second stop -> 0 <= nanosecond stop ->
  fuel = month_span cur stop ->
  generate_loop fuel cur stop = months_from cur fuel.
Proof.
  revert cur; induction fuel as [|fuel IH]; intros cur C Vs Ds Hs Ms Ss Ns F;
    [reflexivity|].
  rewrite months_from_S. cbn [generate_loop].
  unfold month_span in F.
  rewrite (month_start_leb C Vs Ds Hs Ms Ss Ns) by lia.
  destruct C as (V & C'). destruct (apply_month_index V) as [Va Ma].
  destruct (ts_eqb cur stop) eqn:E.
  - apply ts_eqb_month_index in E.
    assert (fuel = 0%nat) by lia. subst fuel. reflexivity.
  - f_equal. apply IH; auto.
    + apply month_start_apply. split; assumption.
    + unfold month_span. lia.
Qed.

(** X9: for a range that begins at the midnight that begins a month, the
    call asks for every calendar month from the month of start to the month
    of end, each once and in order: the month sequence is start, start plus
    one month, ..., as many as the months that the range touches. *)
Theorem utahaq_months_of_aligned_range (start stop : Timestamp) :
  month_start start ->
  valid_ts stop ->
  ts_le start stop ->
  query_dates start stop = months_from start (month_span start stop) /\
  map month_index (query_dates start stop)
  = map (fun k => month_index start + Z.of_nat k) (seq 0 (month_span start stop)) /\
  Z.of_nat (month_span start stop) = month_index stop - month_index start + 1.
Proof.
  intros C (Vm & Vd & Vh & Vmi & Vs & Vn) L.
  assert (Mi : month_index start <= month_index stop).
  { apply ts_leb_month_index; [apply C | exact Vm | exact L]. }
  assert (Sp : Z.of_nat (month_span start stop) = month_index stop - month_index start + 1).
  { unfold month_span. lia. }
  assert (Q : query_dates start stop = months_from start (month_span start stop)).
  { unfold query_dates, date_range.
    assert (On : MonthBegin.is_on_offset start = true).
    { unfold MonthBegin.is_on_offset. destruct C as (_ & D & _). rewrite D. reflexivity. }
    rewrite On. cbn [negb].
    set (stop' := if negb (MonthBegin.is_on_offset stop)
                  then MonthBegin.rollback stop else stop).
    assert (S' : valid_month stop' /\ day stop' = 1 /\ hour stop' = hour stop /\
                 minute stop' = minute stop /\ second stop' = second stop /\
                 nanosecond stop' = nanosecond stop /\
                 month_index stop' = month_index stop).
    { subst stop'. unfold MonthBegin.rollback, MonthBegin.is_on_offset.
      destruct (day stop =? 1) eqn:E; cbn [negb].
      - apply Z.eqb_eq in E. unfold valid_month in *. repeat split; auto; lia.
      - unfold valid_month, month_index in *.
        cbn [year month day hour minute second nanosecond].
        repeat split; auto; lia. }
    destruct S' as (V' & D' & H' & M' & Se' & N' & I').
    assert (Le : ts_leb start stop' = true).
    { apply month_start_leb; auto; lia. }
    rewrite ts_leb_ltb in Le. apply negb_true_iff in Le. rewrite Le.
    assert (Sp' : month_span start stop' = month_span start stop).
    { unfold month_span. now rewrite I'. }
    rewrite generate_loop_months; auto; try lia.
    rewrite Sp'.
    destruct (month_span start stop) as [|n] eqn:Z0; [lia|].
    rewrite months_from_S. reflexivity. }
  split; [exact Q|]. split; [|exact Sp].
  rewrite Q. unfold months_from. rewrite map_map. apply map_ext. intros k.
  apply iter_month_index. apply C.
Qed.

Lemma utahaq_months_of_aligned_range_witness :
  query_dates (Fixture.ts 2018 11 1 0 0 0) (Fixture.ts 2019 2 20 6 30 0)
  = months_from (Fixture.ts 2018 11 1 0 0 0)
      (month_span (Fixture.ts 2018 11 1 0 0 0) (Fixture.ts 2019 2 20 6 30 0)) /\
  map month_index (query_dates (Fixture.ts 2018 11 1 0 0 0) (Fixture.ts 2019 2 20 6 30 0))
  = map (fun k => month_index (Fixture.ts 2018 11 1 0 0 0) + Z.of_nat k)
        (seq 0 (month_span (Fixture.ts 2018 11 1 0 0 0) (Fixture.ts 2019 2 20 6 30 0))) /\
  Z.of_nat (month_span (Fixture.ts 2018 11 1 0 0 0) (Fixture.ts 2019 2 20 6 30 0))
  = month_index (Fixture.ts 2019 2 20 6 30 0) - month_index (Fixture.ts 2018 11 1 0 0 0) + 1.
Proof.
  apply utahaq_months_of_aligned_range.
  - vm_compute. repeat split; congruence.
  - vm_compute. repeat split; congruence.
  - reflexivity.
Defined.

(* ------------------------------------------------------------------ *)
(** * Provider A: errors before and after the request *)

Lemma comma_join_cases (l : list pyval) :
  (exists s, comma_join l = Ok s) \/
  comma_join l = Raise (TypeError "sequence item: expected str instance").
Proof.
  unfold comma_join. induction l as [|x l IH]; simpl; [left; eauto|].
  destruct (as_str x) as [s|]; cbn [rbind]; [|right; reflexivity].
  destruct (rmap _ l) as [ss|e]; cbn [rbind] in *.
  - left. eauto.
  - right. destruct IH as [(s' & H)|H]; [discriminate | exact H].
Qed.

Lemma comma_join_non_text (l : list pyval) (x : pyval) :
  In x l -> as_str x = None ->
  comma_join l = Raise (TypeError "sequence item: expected str instance").
Proof.
  intros H N. destruct (comma_join_cases l) as [(s & J)|J]; [|exact J]. exfalso.
  unfold comma_join in J. apply rbind_ok in J as (ss & R & _).
  apply rmap_Forall2 in R.
  assert (E : exists s', match as_str x with
                         | Some s0 => Ok s0
                         | None => Raise (TypeError "sequence item: expected str instance")
                         end = Ok s').
  { clear - R H. induction R as [|a b l l' Hab _ IH]; [contradiction|].
    destruct H as [H|H]; [subst; eauto | auto]. }
  destruct E as (s' & E). rewrite N in E. discriminate.
Qed.

(** X10: when [stid] or [api_vars] is a list with an item that is not text,
    the call raises a [TypeError] from the join and issues no request. *)
Theorem synoptic_non_text_item_no_request
  (tok : option string) (get_json : string -> Params -> result pyval)
  (parse_datetime : string -> option Timestamp) (parse_float : string -> option Q)
  (repr : pyval -> string) (infer_dtype : list pyval -> list pyval)
  (stid start stop api_vars : pyval) (log : list Params) :
  has_non_text stid \/ has_non_text api_vars ->
  synoptic_api_get tok get_json parse_datetime parse_float repr infer_dtype
    stid start stop api_vars log
  = (Raise (TypeError "sequence item: expected str instance"), log).
Proof.
  intros H.
  assert (B : build_params tok stid start stop api_vars
              = Raise (TypeError "sequence item: expected str instance")).
  { unfold build_params. destruct H as [(l & x & E & Hx & N)|(l & x & E & Hx & N)]; subst.
    - now rewrite (comma_join_non_text l x Hx N).
    - assert (S : (exists v, match stid with
                             | PList l0 => rbind (comma_join l0) (fun s => Ok (PStr s))
                             | _ => Ok stid
                             end = Ok v) \/
                  match stid with
                  | PList l0 => rbind (comma_join l0) (fun s => Ok (PStr s))
                  | _ => Ok stid
                  end = Raise (TypeError "sequence item: expected str instance")).
      { destruct stid; try (left; eauto; fail).
        destruct (comma_join_cases l0) as [(s & J)|J]; rewrite J; cbn [rbind]; eauto. }
      destruct S as [(v & S)|S]; rewrite S; cbn [rbind]; [|reflexivity].
      now rewrite (comma_join_non_text l x Hx N). }
  unfold synoptic_api_get, bind, lift. now rewrite B.
Qed.

Lemma synoptic_non_text_item_no_request_witness :
  synoptic_api_get Fixture.token (Fixture.serve (Fixture.body (PInt 1) [Fixture.kslc]))
    Fixture.parse_datetime Fixture.parse_float Fixture.repr Fixture.infer_dtype
    (PList [PStr "kslc"; PInt 7]) (PStr "201901010000") (PStr "201901010010") PNone []
  = (Raise (TypeError "sequence item: expected str instance"), []).
Proof.
  apply synoptic_non_text_item_no_request.
  left. exists [PStr "kslc"; PInt 7], (PInt 7).
  split; [reflexivity|]. split; [simpl; auto | reflexivity].
Defined.

Lemma getitem_missing (kv : list (string * pyval)) (key : string) :
  ~ In key (map fst kv) -> getitem (PDict kv) key = Raise (KeyError key).
Proof.
  intros N. cbn [getitem].
  destruct (find (fun e => String.eqb (fst e) key) kv) as [e|] eqn:F; [|reflexivity].
  exfalso. apply find_some in F as [Hin E]. apply String.eqb_eq in E.
  apply N. rewrite <- E. now apply in_map.
Qed.

(** X11: a body that lacks a key the function reads makes the call raise the
    [KeyError] of that key, after its one request: [SUMMARY] when the body
    has no status at all, [STATION] when the status passes the two tests and
    the body has no station list. *)
Theorem synoptic_missing_key
  (tok : option string) (get_json : string -> Params -> result pyval)
  (parse_datetime : string -> option Timestamp) (parse_float : string -> option Q)
  (repr : pyval -> string) (infer_dtype : list pyval -> list pyval)
  (stid start stop api_vars : pyval) (log : list Params)
  (params : Params) (kv : list (string * pyval)) (key : string) :
  build_params tok stid start stop api_vars = Ok params ->
  get_json SYNOPTIC_API_BASE_URI params = Ok (PDict kv) ->
  ~ In key (map fst kv) ->
  key = "SUMMARY" \/ (check_status (PDict kv) = Ok tt /\ key = "STATION") ->
  synoptic_api_get tok get_json parse_datetime parse_float repr infer_dtype
    stid start stop api_vars log
  = (Raise (KeyError key), log ++ [params]).
Proof.
  intros B G N K.
  rewrite fetch_A_run with (params := params) by exact B. rewrite G. cbn [rbind].
  f_equal. destruct K as [K|[S K]]; subst key.
  - unfold check_status, status. now rewrite (getitem_missing kv _ N).
  - rewrite S. cbn [rbind]. unfold normalize. now rewrite (getitem_missing kv _ N).
Qed.

Lemma synoptic_missing_key_witness :
  synoptic_api_get Fixture.token (Fixture.serve Fixture.body_without_summary)
    Fixture.parse_datetime Fixture.parse_float Fixture.repr Fixture.infer_dtype
    (PStr "kslc") (PStr "201901010000") (PStr "201901010010") (PStr "air_temp") []
  = (Raise (KeyError "SUMMARY"), [] ++ [Fixture.text_params]).
Proof.
  apply (@synoptic_missing_key Fixture.token (Fixture.serve Fixture.body_without_summary)
           Fixture.parse_datetime Fixture.parse_float Fixture.repr Fixture.infer_dtype
           (PStr "kslc") (PStr "201901010000") (PStr "201901010010") (PStr "air_temp") []
           Fixture.text_params [("STATION", PList [Fixture.kslc])] "SUMMARY").
  - reflexivity.
  - reflexivity.
  - simpl. intros [H|[]]. discriminate H.
  - left. reflexivity.
Defined.

Lemma py_eq_int_not_number (v : pyval) (n : Z) :
  is_number v = false -> py_eq_int v n = false.
Proof. induction v; simpl; intros H; try discriminate; auto. Qed.

(** X12: the status tests compare with numbers: a status field that is not a
    number (text such as "2" or "200", null, a list) passes both, so the call
    goes on to the normalisation and returns what that gives. *)
Theorem synoptic_text_status_passes
  (tok : option string) (get_json : string -> Params -> result pyval)
  (parse_datetime : string -> option Timestamp) (parse_float : string -> option Q)
  (repr : pyval -> string) (infer_dtype : list pyval -> list pyval)
  (stid start stop api_vars : pyval) (log : list Params)
  (params : Params) (res code : pyval) :
  build_params tok stid start stop api_vars = Ok params ->
  get_json SYNOPTIC_API_BASE_URI params = Ok res ->
  status res = Ok code ->
  is_number code = false ->
  synoptic_api_get tok get_json parse_datetime parse_float repr infer_dtype
    stid start stop api_vars log
  = (normalize parse_datetime parse_float repr infer_dtype res, log ++ [params]).
Proof.
  intros B G S N.
  rewrite fetch_A_run with (params := params) by exact B. rewrite G. cbn [rbind].
  rewrite (check_status_code res S), !(py_eq_int_not_number code _ N). reflexivity.
Qed.

Lemma synoptic_text_status_passes_witness :
  synoptic_api_get Fixture.token (Fixture.serve Fixture.body_text_status)
    Fixture.parse_datetime Fixture.parse_float Fixture.repr Fixture.infer_dtype
    (PStr "kslc") (PStr "201901010000") (PStr "201901010010") (PStr "air_temp") []
  = (normalize Fixture.parse_datetime Fixture.parse_float Fixture.repr Fixture.infer_dtype
       Fixture.body_text_status,
     [] ++ [Fixture.text_params]).
Proof.
  apply (@synoptic_text_status_passes Fixture.token (Fixture.serve Fixture.body_text_status)
           Fixture.parse_datetime Fixture.parse_float Fixture.repr Fixture.infer_dtype
           (PStr "kslc") (PStr "201901010000") (PStr "201901010010") (PStr "air_temp") []
           Fixture.text_params Fixture.body_text_status (PStr "2"));
    reflexivity.
Defined.

(* ------------------------------------------------------------------ *)
(** * Provider A: the table of a station *)

Lemma dict_set_fresh {A} (d : list (string * A)) (key : string) (v : A) :
  ~ In key (map fst d) -> dict_set d key v = d ++ [(key, v)].
Proof.
  induction d as [|[k x] d IH]; simpl; intros N; [reflexivity|].
  destruct (String.eqb k key) eqn:E.
  - apply String.eqb_eq in E. exfalso. auto.
  - rewrite IH; auto.
Qed.

Lemma dict_update_fresh {A} (d more : list (string * A)) :
  NoDup (map fst more) ->
  (forall k, In k (map fst more) -> ~ In k (map fst d)) ->
  dict_update d more = d ++ more.
Proof.
  unfold dict_update. revert d; induction more as [|[k x] more IH]; intros d N F; simpl.
  - now rewrite app_nil_r.
  - inversion N as [|? ? Hk N']; subst. simpl in F.
    rewrite dict_set_fresh by (apply F; auto).
    rewrite IH; [now rewrite <- app_assoc | exact N'|].
    intros k' Hk' Hin. rewrite map_app in Hin. apply in_app_or in Hin as [Hin|[Hin|[]]].
    + apply (F k'); auto.
    + simpl in Hin. subst. contradiction.
Qed.

Lemma positions_from_shift (k : nat) (name : string) (cols : list string) :
  positions_from (S k) name cols = map S (positions_from k name cols).
Proof.
  revert k; induction cols as [|c cols IH]; intros k; simpl; [reflexivity|].
  destruct (String.eqb c name); simpl; now rewrite IH.
Qed.

Lemma column_cell_cons (c : string) (cols : list string) (k : string)
      (x : pyval) (cells : list pyval) :
  column_cell (c :: cols) k (x :: cells)
  = if String.eqb c k then x else column_cell cols k cells.
Proof.
  unfold column_cell, positions. cbn [positions_from].
  destruct (String.eqb c k); [reflexivity|].
  rewrite positions_from_shift.
  destruct (positions_from 0 k cols); reflexivity.
Qed.

Lemma column_cell_find {A} (g : string * A -> pyval) (data : list (string * A)) (k : string) :
  column_cell (map fst data) k (map g data)
  = match find (fun e => String.eqb (fst e) k) data with
    | Some e => g e
    | None => PNaN
    end.
Proof.
  induction data as [|e data IH]; [reflexivity|].
  cbn [map find]. rewrite column_cell_cons.
  destruct (String.eqb (fst e) k); [reflexivity | exact IH].
Qed.

Lemma find_key_app {A} (k : string) (d more : list (string * A)) :
  ~ In k (map fst d) ->
  find (fun e => String.eqb (fst e) k) (d ++ more)
  = find (fun e => String.eqb (fst e) k) more.
Proof.
  induction d as [|[c x] d IH]; simpl; intros N; [reflexivity|].
  destruct (String.eqb c k) eqn:E.
  - apply String.eqb_eq in E. exfalso. auto.
  - apply IH. auto.
Qed.

Lemma find_key_NoDup {A} (k : string) (v : A) (l : list (string * A)) :
  NoDup (map fst l) -> In (k, v) l ->
  find (fun e => String.eqb (fst e) k) l = Some (k, v).
Proof.
  induction l as [|[c x] l IH]; simpl; intros N H; [contradiction|].
  inversion N as [|? ? Hc N']; subst.
  destruct H as [H|H].
  - inversion H; subst. now rewrite String.eqb_refl.
  - destruct (String.eqb c k) eqn:E.
    + apply String.eqb_eq in E. subst. exfalso. apply Hc.
      change k with (fst (k, v)). now apply in_map.
    + auto.
Qed.

Lemma map_nth_seq {A} (l : list A) (d : A) :
  map (fun i => nth i l d) (seq 0 (List.length l)) = l.
Proof.
  induction l as [|a l IH]; [reflexivity|].
  cbn [List.length seq map nth]. f_equal.
  rewrite <- seq_shift, map_map. exact IH.
Qed.

Lemma map_const_seq {A} (v : A) (n : nat) :
  map (fun _ => v) (seq 0 n) = repeat v n.
Proof.
  generalize 0%nat. induction n as [|n IH]; intros k; simpl; [reflexivity|].
  now rewrite IH.
Qed.

Lemma NoDup_keys_filter {A} (p : string * A -> bool) (l : list (string * A)) :
  NoDup (map fst l) -> NoDup (map fst (filter p l)).
Proof.
  induction l as [|e l IH]; simpl; intros N; [constructor|].
  inversion N as [|? ? He N']; subst.
  destruct (p e); simpl; [|auto]. constructor; [|auto].
  intros H. apply He. apply in_map_iff in H as (x & E & Hx).
  apply filter_In in Hx as [Hx _]. rewrite <- E. now apply in_map.
Qed.

Lemma rmap_length {A B} (f : A -> result B) (l : list A) (bs : list B) :
  rmap f l = Ok bs -> List.length bs = List.length l.
Proof.
  intros H. apply rmap_Forall2 in H. symmetry. eapply Forall2_length. exact H.
Qed.

Section Station_table.

Variable parse_datetime : string -> option Timestamp.
Variable parse_float : string -> option Q.
Variable repr : pyval -> string.
Variable infer_dtype : list pyval -> list pyval.

Variables (station sid la lo : pyval) (dts : list pyval) (obs : list (string * pyval)).
Variables (ts : list pyval) (lat lon : pyval).

Hypothesis shape : station_object station sid la lo dts obs.
Hypothesis times : rmap (to_datetime_item parse_datetime) dts = Ok ts.
Hypothesis latitude : py_float parse_float la = Ok lat.
Hypothesis longitude : py_float parse_float lo = Ok lon.

Lemma popped_field (k : string) (v : pyval) :
  In (k, v) (dict_pop obs "date_time") <-> In (k, v) obs /\ k <> "date_time".
Proof.
  unfold dict_pop. rewrite filter_In. cbn [fst].
  rewrite negb_true_iff, String.eqb_neq. reflexivity.
Qed.

Lemma station_frame_dict :
  station_frame parse_datetime parse_float repr infer_dtype station
  = DataFrame_of_dict infer_dtype (station_dict repr sid obs ts lat lon).
Proof.
  destruct shape as (S & La & Lo & O & D & N & F).
  unfold station_frame. rewrite O. cbn [rbind]. rewrite D. cbn [rbind].
  cbn [to_datetime_value]. rewrite times. cbn [rbind observations].
  rewrite S. cbn [rbind]. rewrite La. cbn [rbind]. rewrite latitude. cbn [rbind].
  rewrite Lo. cbn [rbind]. rewrite longitude. cbn [rbind].
  f_equal. unfold station_dict. apply dict_update_fresh.
  - rewrite map_map. cbn [fst]. now apply NoDup_keys_filter.
  - intros k Hk. rewrite map_map in Hk. cbn [fst] in Hk.
    apply in_map_iff in Hk as ([k' v] & E & Hk). cbn [fst] in E. subst k'.
    apply popped_field in Hk as [Hk Nk]. cbn [map fst]. now apply (F k v).
Qed.

Lemma existsb_none {A} (p : A -> bool) (l : list A) :
  (forall x, In x l -> p x = false) -> existsb p l = false.
Proof.
  induction l as [|a l IH]; simpl; intros H; [reflexivity|].
  rewrite H by auto. apply IH. auto.
Qed.

Lemma station_dict_no_mapping :
  has_mapping (station_dict repr sid obs ts lat lon) = false.
Proof.
  destruct shape as (_ & _ & _ & _ & _ & _ & F).
  unfold has_mapping, station_dict. rewrite existsb_app. cbn [existsb snd orb].
  apply existsb_none. intros e He.
  apply in_map_iff in He as ([k v] & E & Hk). subst e. cbn [fst snd].
  apply popped_field in Hk as [Hk Nk].
  destruct (F k v Hk Nk) as (_ & l & El). subst v. reflexivity.
Qed.

Lemma station_dict_lengths :
  array_lengths (station_dict repr sid obs ts lat lon)
  = List.length ts
    :: array_lengths (map (fun kv => (fst kv, as_dict_value (snd kv)))
                          (dict_pop obs "date_time")).
Proof. reflexivity. Qed.

Lemma field_length (n : nat) :
  In n (array_lengths (map (fun kv => (fst kv, as_dict_value (snd kv)))
                           (dict_pop obs "date_time"))) <->
  exists k l, In (k, PList l) obs /\ k <> "date_time" /\ n = List.length l.
Proof.
  destruct shape as (_ & _ & _ & _ & _ & _ & F).
  unfold array_lengths. rewrite in_flat_map. split.
  - intros (e & He & Hn). apply in_map_iff in He as ([k v] & E & Hk). subst e.
    cbn [fst snd] in Hn. apply popped_field in Hk as [Hk Nk].
    destruct (F k v Hk Nk) as (_ & l & El). subst v. cbn in Hn.
    destruct Hn as [Hn|[]]. exists k, l. auto.
  - intros (k & l & Hk & Nk & E). exists (k, Arr l). split.
    + apply in_map_iff. exists (k, PList l). split; [reflexivity|].
      apply popped_field. auto.
    + cbn. auto.
Qed.

Lemma station_frame_aligned :
  (forall k l, In (k, PList l) obs -> k <> "date_time" ->
               List.length l = List.length dts) ->
  station_frame parse_datetime parse_float repr infer_dtype station = Ok (station_table repr infer_dtype sid obs ts lat lon).
Proof.
  intros A. rewrite station_frame_dict. unfold DataFrame_of_dict.
  rewrite station_dict_no_mapping, station_dict_lengths.
  assert (Fa : forallb (Nat.eqb (List.length ts))
                 (array_lengths (map (fun kv => (fst kv, as_dict_value (snd kv)))
                                     (dict_pop obs "date_time"))) = true).
  { apply forallb_forall. intros n Hn. apply field_length in Hn as (k & l & Hk & Nk & E).
    subst n. rewrite (A k l Hk Nk), (rmap_length _ _ times). apply Nat.eqb_refl. }
  now rewrite Fa.
Qed.

Lemma station_frame_misaligned (k : string) (l : list pyval) :
  In (k, PList l) obs -> k <> "date_time" -> List.length l <> List.length dts ->
  station_frame parse_datetime parse_float repr infer_dtype station
  = Raise (ValueError "All arrays must be of the same length").
Proof.
  intros Hk Nk Len. rewrite station_frame_dict. unfold DataFrame_of_dict.
  rewrite station_dict_no_mapping, station_dict_lengths.
  destruct (forallb _ _) eqn:Fa; [|reflexivity]. exfalso.
  rewrite forallb_forall in Fa.
  assert (E : Nat.eqb (List.length ts) (List.length l) = true).
  { apply Fa. apply field_length. eauto. }
  apply Nat.eqb_eq in E. rewrite (rmap_length _ _ times) in E. auto.
Qed.

Lemma station_table_column (k : string) :
  column_values (station_table repr infer_dtype sid obs ts lat lon) k
  = map (fun i => match find (fun e => String.eqb (fst e) k)
                             (station_dict repr sid obs ts lat lon) with
                  | Some e => column_of infer_dtype (snd e) i
                  | None => PNaN
                  end) (seq 0 (List.length ts)).
Proof.
  unfold column_values, station_table. cbn [columns rows]. rewrite map_map.
  apply map_ext. intros i. unfold frame_row. cbn [snd].
  apply (column_cell_find (fun kv : string * dict_value =>
                             column_of infer_dtype (snd kv) i)).
Qed.

Lemma station_table_field (k : string) (l : list pyval) :
  In (k, PList l) obs -> k <> "date_time" -> List.length l = List.length dts ->
  List.length (infer_dtype l) = List.length l ->
  column_values (station_table repr infer_dtype sid obs ts lat lon) k = infer_dtype l.
Proof.
  destruct shape as (_ & _ & _ & _ & _ & N & F).
  intros Hk Nk Len Keep. rewrite station_table_column.
  destruct (F k (PList l) Hk Nk) as (Fx & _).
  unfold station_dict at 1. rewrite find_key_app by exact Fx.
  rewrite (find_key_NoDup k (Arr l)).
  - cbn [snd column_of]. rewrite (rmap_length _ _ times), <- Len, <- Keep.
    apply map_nth_seq.
  - rewrite map_map. cbn [fst]. now apply NoDup_keys_filter.
  - apply in_map_iff. exists (k, PList l). split; [reflexivity|].
    apply popped_field. auto.
Qed.

End Station_table.

Ltac find_fixed :=
  repeat (cbn [app find fst snd];
          first [ rewrite String.eqb_refl
                | match goal with
                  | |- context [String.eqb ?a ?b] => change (String.eqb a b) with false
                  end ]).

(** X13: the table of a station of the documented shape, whose arrays are as
    long as its array of times.  It has one row per time; its columns are
    [date], [stid], [latitude], [longitude] and then the observation fields
    in the order of the response; the [date] column holds the parsed times,
    the three fixed columns repeat the id (as text), the latitude and the
    longitude (as floats) of the station on every row, and the column of
    every observation field holds the values that pandas makes of the array
    of the response when it infers the dtype of the column (a conversion that
    keeps the length of the array). *)
Theorem synoptic_station_table
  (parse_datetime : string -> option Timestamp) (parse_float : string -> option Q)
  (repr : pyval -> string) (infer_dtype : list pyval -> list pyval)
  (station sid la lo : pyval) (dts : list pyval) (obs : list (string * pyval))
  (ts : list pyval) (lat lon : pyval) :
  (forall l, List.length (infer_dtype l) = List.length l) ->
  station_object station sid la lo dts obs ->
  rmap (to_datetime_item parse_datetime) dts = Ok ts ->
  py_float parse_float la = Ok lat ->
  py_float parse_float lo = Ok lon ->
  (forall k l, In (k, PList l) obs -> k <> "date_time" ->
               List.length l = List.length dts) ->
  exists f,
    station_frame parse_datetime parse_float repr infer_dtype station = Ok f /\
    columns f = ["date"; "stid"; "latitude"; "longitude"]
                ++ map fst (dict_pop obs "date_time") /\
    List.length (rows f) = List.length dts /\
    column_values f "date" = ts /\
    column_values f "stid" = repeat (PStr (py_str repr sid)) (List.length dts) /\
    column_values f "latitude" = repeat lat (List.length dts) /\
    column_values f "longitude" = repeat lon (List.length dts) /\
    (forall k l, In (k, PList l) obs -> k <> "date_time" ->
                 column_values f k = infer_dtype l).
Proof.
  intros Keep S T La Lo A.
  exists (station_table repr infer_dtype sid obs ts lat lon).
  pose proof (rmap_length _ _ T) as Len.
  split; [eapply station_frame_aligned; eassumption|].
  split.
  { unfold station_table, station_dict. cbn [columns]. rewrite map_app, map_map.
    reflexivity. }
  split.
  { unfold station_table. cbn [rows]. now rewrite length_map, length_seq. }
  split.
  { rewrite station_table_column. unfold station_dict.
    find_fixed. cbn [snd column_of]. apply map_nth_seq. }
  split.
  { rewrite station_table_column. unfold station_dict.
    find_fixed. cbn [snd column_of]. rewrite <- Len. apply map_const_seq. }
  split.
  { rewrite station_table_column. unfold station_dict.
    find_fixed. cbn [snd column_of]. rewrite <- Len. apply map_const_seq. }
  split.
  { rewrite station_table_column. unfold station_dict.
    find_fixed. cbn [snd column_of]. rewrite <- Len. apply map_const_seq. }
  intros k l Hk Nk. eapply station_table_field; eauto.
Qed.

(** The conversion of the examples keeps the length of a list. *)
Lemma fixture_infer_dtype_length (l : list pyval) :
  List.length (Fixture.infer_dtype l) = List.length l.
Proof.
  unfold Fixture.infer_dtype. destruct (_ && _); [apply length_map | reflexivity].
Qed.

Lemma kslc_is_station_object :
  station_object Fixture.kslc (PStr "KSLC") (PStr "40.77069") (PStr "-111.96503")
    Fixture.time_texts Fixture.kslc_observations.
Proof.
  unfold station_object. repeat split; try reflexivity.
  - repeat constructor; simpl; intros H; repeat destruct H as [H|H]; discriminate H || exact H.
  - simpl in H. destruct H as [H|[H|[]]]; inversion H; subst; [congruence|].
    simpl. intros F. repeat destruct F as [F|F]; discriminate F || exact F.
  - simpl in H. destruct H as [H|[H|[]]]; inversion H; subst; [congruence|].
    eexists. reflexivity.
Qed.

Lemma synoptic_station_table_witness :
  exists f,
    station_frame Fixture.parse_datetime Fixture.parse_float Fixture.repr Fixture.infer_dtype Fixture.kslc
    = Ok f /\
    columns f = ["date"; "stid"; "latitude"; "longitude"]
                ++ map fst (dict_pop Fixture.kslc_observations "date_time") /\
    List.length (rows f) = List.length Fixture.time_texts /\
    column_values f "date" = Fixture.time_values /\
    column_values f "stid"
    = repeat (PStr (py_str Fixture.repr (PStr "KSLC"))) (List.length Fixture.time_texts) /\
    column_values f "latitude"
    = repeat Fixture.kslc_latitude (List.length Fixture.time_texts) /\
    column_values f "longitude"
    = repeat Fixture.kslc_longitude (List.length Fixture.time_texts) /\
    (forall k l, In (k, PList l) Fixture.kslc_observations -> k <> "date_time" ->
                 column_values f k = Fixture.infer_dtype l).
Proof.
  apply (@synoptic_station_table Fixture.parse_datetime Fixture.parse_float Fixture.repr
           Fixture.infer_dtype
           Fixture.kslc (PStr "KSLC") (PStr "40.77069") (PStr "-111.96503")
           Fixture.time_texts Fixture.kslc_observations
           Fixture.time_values Fixture.kslc_latitude Fixture.kslc_longitude).
  - exact fixture_infer_dtype_length.
  - exact kslc_is_station_object.
  - vm_compute. reflexivity.
  - vm_compute. reflexivity.
  - vm_compute. reflexivity.
  - intros k l H Nk. simpl in H. destruct H as [H|[H|[]]]; inversion H; subst.
    + congruence.
    + reflexivity.
Defined.

(** X14: a station with an observation array whose length differs from that
    of its array of times makes the call fail: the table of the station
    cannot be built, and the constructor raises a [ValueError]. *)
Theorem synoptic_station_misaligned
  (parse_datetime : string -> option Timestamp) (parse_float : string -> option Q)
  (repr : pyval -> string) (infer_dtype : list pyval -> list pyval)
  (station sid la lo : pyval) (dts : list pyval) (obs : list (string * pyval))
  (ts : list pyval) (lat lon : pyval) (k : string) (l : list pyval) :
  station_object station sid la lo dts obs ->
  rmap (to_datetime_item parse_datetime) dts = Ok ts ->
  py_float parse_float la = Ok lat ->
  py_float parse_float lo = Ok lon ->
  In (k, PList l) obs -> k <> "date_time" -> List.length l <> List.length dts ->
  station_frame parse_datetime parse_float repr infer_dtype station
  = Raise (ValueError "All arrays must be of the same length").
Proof.
  intros S T La Lo Hk Nk Len.
  eapply station_frame_misaligned; eassumption.
Qed.

Lemma synoptic_station_misaligned_witness :
  station_frame Fixture.parse_datetime Fixture.parse_float Fixture.repr Fixture.infer_dtype Fixture.kslc_short
  = Raise (ValueError "All arrays must be of the same length").
Proof.
  apply (@synoptic_station_misaligned Fixture.parse_datetime Fixture.parse_float
           Fixture.repr Fixture.infer_dtype Fixture.kslc_short
           (PStr "KSLC") (PStr "40.77069") (PStr "-111.96503")
           Fixture.time_texts Fixture.short_observations
           Fixture.time_values Fixture.kslc_latitude Fixture.kslc_longitude
           "air_temp_set_1" [PFloat (inject_Z (-5))]).
  - unfold station_object. repeat split; try reflexivity.
    + repeat constructor; simpl; intros H; repeat destruct H as [H|H];
        discriminate H || exact H.
    + simpl in H. destruct H as [H|[H|[]]]; inversion H; subst; [congruence|].
      simpl. intros F. repeat destruct F as [F|F]; discriminate F || exact F.
    + simpl in H. destruct H as [H|[H|[]]]; inversion H; subst; [congruence|].
      eexists. reflexivity.
  - vm_compute. reflexivity.
  - vm_compute. reflexivity.
  - vm_compute. reflexivity.
  - simpl. auto.
  - discriminate.
  - simpl. lia.
Defined.

(* ------------------------------------------------------------------ *)
(** * Provider A: the values of the returned table *)








Lemma find_dict_set {A} (d : list (string * A)) (key k : string) (v : A) :
  find (fun e => String.eqb (fst e) k) (dict_set d key v)
  = if String.eqb key k then Some (key, v)
    else find (fun e => String.eqb (fst e) k) d.
Proof.
  induction d as [|[c x] d IH]; simpl.
  - destruct (String.eqb key k); reflexivity.
  - destruct (String.eqb c key) eqn:E; simpl.
    + apply String.eqb_eq in E. subst c. destruct (String.eqb key k); reflexivity.
    + rewrite IH. destruct (String.eqb key k) eqn:K; [|reflexivity].
      apply String.eqb_eq in K. subst k. now rewrite E.
Qed.

Lemma find_dict_update_other {A} (d more : list (string * A)) (k : string) :
  ~ In k (map fst more) ->
  find (fun e => String.eqb (fst e) k) (dict_update d more)
  = find (fun e => String.eqb (fst e) k) d.
Proof.
  unfold dict_update. revert d; induction more as [|[c x] more IH]; intros d N; simpl;
    [reflexivity|].
  rewrite IH by (intros H; apply N; right; exact H).
  rewrite find_dict_set. cbn [fst].
  destruct (String.eqb c k) eqn:E; [|reflexivity].
  apply String.eqb_eq in E. exfalso. apply N. left. exact E.
Qed.

(** The value of [{**d, **more}] under a key of [more]. *)
Lemma find_dict_update {A} (d more : list (string * A)) (k : string) (v : A) :
  NoDup (map fst more) -> In (k, v) more ->
  find (fun e => String.eqb (fst e) k) (dict_update d more) = Some (k, v).
Proof.
  revert d; induction more as [|[c x] more IH]; intros d N H; [contradiction|].
  inversion N as [|? ? Hc N']; subst. destruct H as [H|H].
  - inversion H; subst. unfold dict_update. cbn [fold_left fst snd].
    change (fold_left (fun acc kv => dict_set acc (fst kv) (snd kv)) more (dict_set d k v))
      with (dict_update (dict_set d k v) more).
    rewrite find_dict_update_other by exact Hc.
    now rewrite find_dict_set, String.eqb_refl.
  - unfold dict_update. cbn [fold_left].
    apply (IH (dict_set d (fst (c, x)) (snd (c, x))) N' H).
Qed.

(** X16: the table of a station carries every observation array of the
    response under the name of its field, with the values that pandas makes
    of the array when it infers the dtype of the column (a conversion that
    keeps the length of the array), also when that name is one of [date],
    [stid], [latitude] and [longitude]: such a field takes the place of the
    fixed column. *)
Theorem synoptic_observation_arrays_kept
  (parse_datetime : string -> option Timestamp) (parse_float : string -> option Q)
  (repr : pyval -> string) (infer_dtype : list pyval -> list pyval)
  (station : pyval) (obs : list (string * pyval)) (f : DataFrame Z)
  (k : string) (l : list pyval) :
  getitem station "OBSERVATIONS" = Ok (PDict obs) ->
  NoDup (map fst obs) ->
  In (k, PList l) obs ->
  k <> "date_time" ->
  List.length (infer_dtype l) = List.length l ->
  station_frame parse_datetime parse_float repr infer_dtype station = Ok f ->
  column_values f k = infer_dtype l.
Proof.
  intros O N Hk Nk Keep H. unfold station_frame in H. rewrite O in H. cbn [rbind] in H.
  apply rbind_ok in H as (date_time & _ & H). apply rbind_ok in H as (date & _ & H).
  cbn [observations rbind] in H.
  apply rbind_ok in H as (sid & _ & H). apply rbind_ok in H as (la & _ & H).
  apply rbind_ok in H as (lat & _ & H). apply rbind_ok in H as (lo & _ & H).
  apply rbind_ok in H as (lon & _ & H).
  set (data := dict_update _ _) in H.
  assert (Fd : find (fun e => String.eqb (fst e) k) data = Some (k, Arr l)).
  { subst data. apply find_dict_update.
    - rewrite map_map. cbn [fst]. now apply NoDup_keys_filter.
    - apply in_map_iff. exists (k, PList l). split; [reflexivity|].
      unfold dict_pop. apply filter_In. split; [exact Hk|]. cbn [fst].
      now apply negb_true_iff, String.eqb_neq. }
  unfold DataFrame_of_dict in H. destruct (has_mapping data); [discriminate|].
  destruct (array_lengths data) as [|n ns] eqn:Al; [discriminate|].
  destruct (forallb (Nat.eqb n) ns) eqn:Fa; [|discriminate].
  inversion H; subst f; clear H.
  assert (Len : List.length l = n).
  { assert (Hin : In (List.length l) (array_lengths data)).
    { unfold array_lengths. apply in_flat_map. exists (k, Arr l).
      split; [now apply find_some in Fd | cbn; auto]. }
    rewrite Al in Hin. destruct Hin as [Hin|Hin]; [auto|].
    rewrite forallb_forall in Fa. specialize (Fa _ Hin).
    apply Nat.eqb_eq in Fa. auto. }
  unfold column_values. cbn [columns rows]. rewrite map_map.
  transitivity (map (fun i => nth i (infer_dtype l) PNaN) (seq 0 n)).
  - apply map_ext. intros i. unfold frame_row. cbn [snd].
    rewrite (column_cell_find (fun kv : string * dict_value =>
                                 column_of infer_dtype (snd kv) i)).
    now rewrite Fd.
  - rewrite <- Len, <- Keep. apply map_nth_seq.
Qed.

Lemma synoptic_observation_arrays_kept_witness :
  column_values Fixture.kslc_shadow_table "stid"
  = Fixture.infer_dtype [PStr "a"; PStr "b"; PStr "c"].
Proof.
  apply (@synoptic_observation_arrays_kept Fixture.parse_datetime Fixture.parse_float
           Fixture.repr Fixture.infer_dtype Fixture.kslc_shadow Fixture.shadow_observations
           Fixture.kslc_shadow_table "stid" [PStr "a"; PStr "b"; PStr "c"]).
  - reflexivity.
  - repeat constructor; simpl; intros H; repeat destruct H as [H|H];
      discriminate H || exact H.
  - simpl. auto.
  - discriminate.
  - reflexivity.
  - vm_compute. reflexivity.
Defined.

(* ------------------------------------------------------------------ *)
(** * Provider B: a body without a measurement column *)

(** X17: a body that has the flag, the date and the time of day, and whose
    unflagged lines carry readable dates, but that lacks a measurement
    column, makes the batch raise the [KeyError] of the short name of the
    first measurement that is missing: [pm25_ugm3] when the body has no
    [esampler_pm25_ugm3], [rh_pct] when it has that but no
    [esampler_rh_pcent]. *)
Theorem utahaq_batch_missing_measurement
  (parse_datetime : string -> option Timestamp) (res : DataFrame Z) (name : string) :
  In "esampler_error_code" (columns res) ->
  In "Date" (columns res) -> In "TimeUTC" (columns res) ->
  ~ In "pm25_ugm3" (columns res) -> ~ In "rh_pct" (columns res) ->
  Forall (fun r => exists label, line_datetime parse_datetime res r = Ok label)
         (filter (flag_is_zero res) (rows res)) ->
  (~ In "esampler_pm25_ugm3" (columns res) /\ name = "pm25_ugm3") \/
  (In "esampler_pm25_ugm3" (columns res) /\ ~ In "esampler_rh_pcent" (columns res) /\
   name = "rh_pct") ->
  normalize_batch parse_datetime res = Raise (KeyError name).
Proof.
  intros F D T NPm NRh L C.
  destruct (rmap_total (fun r => line_datetime parse_datetime res r) L) as (labels & R & _).
  rewrite (normalize_batch_labelled parse_datetime res F D T R).
  unfold select_columns. rewrite rename_columns_short.
  unfold rename_columns, set_index, without_flagged. cbn [columns rows].
  assert (Qpm : positions "pm25_ugm3" (map short_name (columns res))
                = positions "esampler_pm25_ugm3" (columns res)).
  { unfold positions. apply positions_from_short; auto using short_name_pm. }
  assert (Qrh : positions "rh_pct" (map short_name (columns res))
                = positions "esampler_rh_pcent" (columns res)).
  { unfold positions. apply positions_from_short; auto using short_name_rh. }
  cbn [find]. rewrite Qpm, Qrh.
  destruct C as [[N E]|(P & N & E)]; subst name.
  - apply positions_nil in N. now rewrite N.
  - destruct (positions_In _ _ P) as (i & rest & Pi). rewrite Pi.
    apply positions_nil in N. now rewrite N.
Qed.

Lemma utahaq_batch_missing_measurement_witness :
  normalize_batch Fixture.parse_datetime Fixture.body_without_pm
  = Raise (KeyError "pm25_ugm3").
Proof.
  apply utahaq_batch_missing_measurement.
  - simpl. auto.
  - simpl. auto.
  - simpl. auto.
  - simpl. intros H. repeat destruct H as [H|H]; discriminate H || exact H.
  - simpl. intros H. repeat destruct H as [H|H]; discriminate H || exact H.
  - vm_compute. repeat constructor. eexists. reflexivity.
  - left. split; [|reflexivity].
    simpl. intros H. repeat destruct H as [H|H]; discriminate H || exact H.
Defined.

(* ------------------------------------------------------------------ *)
(** * Provider B: the month of a start within a month, and months without rows *)

(** X18: when start is not the first day of a month and the first of the
    next month (at the time of day of start) is within the range, every month
    the call asks for is after the month of start: the month that contains
    start is not requested. *)
Theorem utahaq_month_of_start_not_requested (start stop : Timestamp) :
  valid_month start ->
  valid_month stop ->
  day start <> 1 ->
  ts_le (MonthBegin.apply start) stop ->
  Forall (fun d => month_index start < month_index d) (query_dates start stop).
Proof.
  intros Vs Ve D L.
  assert (Off : MonthBegin.is_on_offset start = false).
  { unfold MonthBegin.is_on_offset. now apply Z.eqb_neq. }
  apply query_dates_after_start; auto.
  unfold date_range, MonthBegin.rollforward. rewrite Off. cbn [negb].
  assert (Lt : ts_ltb stop (MonthBegin.apply start) = false).
  { unfold ts_le in L. rewrite ts_leb_ltb in L. now apply negb_true_iff in L. }
  rewrite Lt.
  destruct (apply_month_index Vs) as [Va Ma].
  pose proof (ts_leb_month_index Va Ve L) as Mi.
  unfold month_span.
  destruct (Z.to_nat (month_index stop - month_index (MonthBegin.apply start) + 1))
    as [|n] eqn:E; [lia|].
  cbn [generate_loop]. unfold ts_le in L. rewrite L. discriminate.
Qed.

Lemma utahaq_month_of_start_not_requested_witness :
  Forall (fun d => month_index (Fixture.ts 2018 12 15 8 0 0) < month_index d)
         (query_dates (Fixture.ts 2018 12 15 8 0 0) (Fixture.ts 2019 2 20 0 0 0)).
Proof.
  apply utahaq_month_of_start_not_requested.
  - vm_compute. split; congruence.
  - vm_compute. split; congruence.
  - discriminate.
  - reflexivity.
Defined.

(** X19: months whose bodies give tables without rows are no error: when no
    batch raises, at least one month has a body, no batch has a row, and the
    bounds are in UTC, the call returns a table without rows; with bounds
    that carry no time zone the call raises the [TypeError] of the comparison
    in line 109, although the index is empty.  Either way every month of the
    range has been asked for. *)
Theorem utahaq_no_rows_no_error
  (tok : option string) (upper lower : string -> string)
  (read_csv : string -> result (DataFrame Z))
  (parse_datetime : string -> option Timestamp)
  (stid : string) (start stop : Timestamp) (datatype : string) (log : list string)
  (batches : list (option (DataFrame (option Timestamp)))) :
  rmap (fun date => batch_value read_csv parse_datetime
                      (batch_uri tok upper lower stid (year date) (month date) datatype))
       (query_dates start stop) = Ok batches ->
  drop_none batches <> [] ->
  Forall (fun b => rows b = []) (drop_none batches) ->
  (exists df,
     utahaq_api_get tok upper lower read_csv parse_datetime stid UTC start stop datatype log
     = (Ok df, log ++ map (fun date => batch_uri tok upper lower stid (year date) (month date)
                                         datatype)
                          (query_dates start stop)) /\
     rows df = []) /\
  utahaq_api_get tok upper lower read_csv parse_datetime stid Naive start stop datatype log
  = (Raise (TypeError "Cannot compare tz-naive and tz-aware datetime-like objects"),
     log ++ map (fun date => batch_uri tok upper lower stid (year date) (month date) datatype)
                (query_dates start stop)).
Proof.
  intros L N E.
  assert (G : forall tz,
            snd (utahaq_api_get tok upper lower read_csv parse_datetime
                   stid tz start stop datatype log)
            = log ++ map (fun date => batch_uri tok upper lower stid (year date) (month date)
                                        datatype)
                         (query_dates start stop)).
  { intros tz.
    pose proof (for_append_log tok upper lower read_csv parse_datetime stid datatype
                  (query_dates start stop) log L) as G.
    pose proof (for_append_value tok upper lower read_csv parse_datetime stid datatype
                  (query_dates start stop) log) as V.
    unfold month_uri in G, V. rewrite L in V.
    unfold utahaq_api_get, bind.
    destruct (for_append _ (query_dates start stop) log) as [[bs|e] l1];
      cbn [fst snd] in G, V; [|discriminate]. subst l1.
    unfold lift, ret. destruct (pd_concat bs); [|reflexivity].
    destruct (index_between tz start stop _); reflexivity. }
  split.
  - destruct (utahaq_empty_tables tok upper lower read_csv parse_datetime stid start stop
                datatype log L N E) as (df & V & R).
    exists df. split; [|exact R].
    specialize (G UTC).
    destruct (utahaq_api_get tok upper lower read_csv parse_datetime stid UTC start stop
                datatype log) as [r log'].
    cbn [fst] in V. cbn [snd] in G. now subst.
  - specialize (G Naive).
    pose proof (fetch_B_value tok upper lower read_csv parse_datetime
                  stid Naive start stop datatype log) as V.
    unfold month_uri in V. rewrite L in V. cbn [rbind] in V.
    destruct (utahaq_api_get tok upper lower read_csv parse_datetime stid Naive start stop
                datatype log) as [r log'].
    cbn [fst] in V. cbn [snd] in G. subst log'. f_equal. rewrite V.
    unfold pd_concat. destruct batches as [|b bs]; [contradiction N; reflexivity|].
    destruct (drop_none (b :: bs)) as [|d ds]; [contradiction N; reflexivity|].
    reflexivity.
Qed.

Lemma utahaq_no_rows_no_error_witness :
  (exists df,
     utahaq_api_get Fixture.token Fixture.upper Fixture.lower Fixture.blank_archive
       Fixture.parse_datetime "hawth" UTC
       (Fixture.ts 2019 1 1 0 0 0) (Fixture.ts 2019 2 20 0 0 0) "pm" []
     = (Ok df, [] ++ map (fun date => batch_uri Fixture.token Fixture.upper Fixture.lower "hawth"
                                        (year date) (month date) "pm")
                         (query_dates (Fixture.ts 2019 1 1 0 0 0)
                                      (Fixture.ts 2019 2 20 0 0 0))) /\
     rows df = []) /\
  utahaq_api_get Fixture.token Fixture.upper Fixture.lower Fixture.blank_archive
    Fixture.parse_datetime "hawth" Naive
    (Fixture.ts 2019 1 1 0 0 0) (Fixture.ts 2019 2 20 0 0 0) "pm" []
  = (Raise (TypeError "Cannot compare tz-naive and tz-aware datetime-like objects"),
     [] ++ map (fun date => batch_uri Fixture.token Fixture.upper Fixture.lower "hawth"
                              (year date) (month date) "pm")
               (query_dates (Fixture.ts 2019 1 1 0 0 0) (Fixture.ts 2019 2 20 0 0 0))).
Proof.
  apply (@utahaq_no_rows_no_error Fixture.token Fixture.upper Fixture.lower
           Fixture.blank_archive Fixture.parse_datetime "hawth"
           (Fixture.ts 2019 1 1 0 0 0) (Fixture.ts 2019 2 20 0 0 0) "pm" []
           [Some (mkDF ["pm25_ugm3"; "rh_pct"] []); Some (mkDF ["pm25_ugm3"; "rh_pct"] [])]).
  - vm_compute. reflexivity.
  - discriminate.
  - repeat constructor.
Defined.
